(** * LaundryAI analytics pipeline: a shallow embedding and its properties

    The embedding follows [customer_analysis.py] and [laundry_analysis.py].
    Conventions:
    - a date is the number of days since 1970-01-01 (the [StartDate] column
      is parsed from calendar dates, so every timestamp is a midnight);
    - a float cell of a pandas column is [option Q]: [None] is NaN, and a
      present value is the exact rational the float stands for; sums and
      products are exact, the rounding of doubles is not modelled;
    - the customer identifier of a row is a [string]; it is empty when the
      file leaves the field empty, and that cell is a missing value to
      pandas: it equals no identifier and [count] leaves it out;
    - the scikit-learn estimators are an interface ([Sklearn]); the only
      behaviour fixed here is their input validation, which rejects a
      sample of zero rows with [ValueError], in [fit] and in [predict];
    - a Python exception is the [Raise] branch of [result]. *)

From Stdlib Require Import String ZArith QArith Qround Qminmax Bool Lia Lqa Sorted FinFun List.
Import ListNotations.
Local Open Scope Z_scope.

(** ** Exceptions *)

Inductive exn : Type :=
| ValueError
| IndexError.

Inductive result (A : Type) : Type :=
| Ok (a : A)
| Raise (e : exn).
Arguments Ok {A} a.
Arguments Raise {A} e.

Definition bind {A B : Type} (m : result A) (k : A -> result B) : result B :=
  match m with
  | Ok a => k a
  | Raise e => Raise e
  end.

Notation "x <- m ;; k" := (bind m (fun x => k))
  (at level 61, m at next level, right associativity).

(** ** Calendar arithmetic on day numbers *)

Module Calendar.

(** [Timestamp.weekday()] / [dt.dayofweek]: Monday is 0; day 0 is a Thursday. *)
Definition weekday (d : Z) : Z := (d + 3) mod 7.

(** Proleptic Gregorian year, month and day of a day number. *)
Definition civil (d : Z) : Z * Z * Z :=
  let z := d + 719468 in
  let era := z / 146097 in
  let doe := z - era * 146097 in
  let yoe := (doe - doe / 1460 + doe / 36524 - doe / 146096) / 365 in
  let doy := doe - (365 * yoe + yoe / 4 - yoe / 100) in
  let mp := (5 * doy + 2) / 153 in
  let dd := doy - (153 * mp + 2) / 5 + 1 in
  let m := if mp <? 10 then mp + 3 else mp - 9 in
  let y := yoe + era * 400 + (if m <=? 2 then 1 else 0) in
  (y, m, dd).

Definition year (d : Z) : Z := fst (fst (civil d)).
Definition month (d : Z) : Z := snd (fst (civil d)).
Definition day (d : Z) : Z := snd (civil d).

(** Day number of a civil date. *)
Definition of_civil (y m dd : Z) : Z :=
  let y' := if m <=? 2 then y - 1 else y in
  let era := y' / 400 in
  let yoe := y' - era * 400 in
  let doy := (153 * (if 2 <? m then m - 3 else m + 9) + 2) / 5 + dd - 1 in
  let doe := yoe * 365 + yoe / 4 - yoe / 100 + doy in
  era * 146097 + doe - 719468.

(** [dt.dayofyear] *)
Definition dayofyear (d : Z) : Z := d - of_civil (year d) 1 1 + 1.

(** Number of ISO weeks of a year. *)
Definition iso_weeks_in_year (y : Z) : Z :=
  let p := fun k => (k + k / 4 - k / 100 + k / 400) mod 7 in
  if (p y =? 4) || (p (y - 1) =? 3) then 53 else 52.

(** [dt.isocalendar().week] *)
Definition isoweek (d : Z) : Z :=
  let w := (dayofyear d - (weekday d + 1) + 10) / 7 in
  if w <? 1 then iso_weeks_in_year (year d - 1)
  else if iso_weeks_in_year (year d) <? w then 1
  else w.

End Calendar.

(** ** The pandas operations the pipeline uses *)

Module Frame.

(** A float cell: [None] is NaN. *)
Abbreviation cell := (option Q) (only parsing).

Definition of_int (z : Z) : cell := Some (inject_Z z).

Definition isna (c : cell) : bool :=
  match c with None => true | Some _ => false end.

(** [Series.fillna(0)] *)
Definition fillna0 (c : cell) : cell :=
  match c with None => Some 0%Q | Some q => Some q end.

(** [Series.iloc[i]] with the column's default for an index out of range
    (callers guard the range). *)
Definition at_ (col : list cell) (i : nat) : cell := nth i col None.

(** [Series.shift(k)]: row [i] receives row [i - k], the first [k] rows NaN. *)
Definition shift (k : nat) (col : list cell) : list cell :=
  firstn (length col) (repeat None k ++ col).

Fixpoint Qsum (l : list Q) : Q :=
  match l with
  | [] => 0%Q
  | q :: t => (q + Qsum t)%Q
  end.

(** The present values of a window. *)
Fixpoint present (l : list cell) : list Q :=
  match l with
  | [] => []
  | Some q :: t => q :: present t
  | None :: t => present t
  end.

(** [Series.mean()], NaN cells skipped; NaN on no value. *)
Definition mean (l : list cell) : cell :=
  match present l with
  | [] => None
  | vs => Some (Qsum vs / inject_Z (Z.of_nat (length vs)))%Q
  end.

(** The trailing window of width [w] that ends at row [i]. *)
Definition window (w : nat) (col : list cell) (i : nat) : list cell :=
  firstn (S i - (S i - w)) (skipn (S i - w) col).

(** [Series.rolling(window=w, min_periods=1).mean()] *)
Definition rolling_mean (w : nat) (col : list cell) : list cell :=
  map (fun i => mean (window w col i)) (seq 0 (length col)).

(** Sorted distinct keys, as [groupby] orders its groups. *)
Fixpoint insert_key (k : Z) (l : list Z) : list Z :=
  match l with
  | [] => [k]
  | h :: t =>
      if k <? h then k :: l
      else if k =? h then l
      else h :: insert_key k t
  end.

Definition group_keys (keys : list Z) : list Z :=
  fold_right insert_key [] keys.

(** [groupby(key)]: one group per distinct key, ascending, each with the
    rows of that key in their original order. *)
Definition groupby {A : Type} (key : A -> Z) (rows : list A) : list (Z * list A) :=
  map (fun k => (k, filter (fun r => key r =? k) rows))
      (group_keys (map key rows)).

(** [pd.date_range(start, end, freq='D')] *)
Definition date_range (lo hi : Z) : list Z :=
  map (fun i => lo + Z.of_nat i) (seq 0 (Z.to_nat (hi - lo + 1))).

(** [pd.date_range(start, periods=n)] *)
Definition date_range_periods (lo : Z) (n : nat) : list Z :=
  map (fun i => lo + Z.of_nat i) (seq 0 n).

(** [left.merge(right, on=key, how="left")] for a one-column left frame:
    one output row per matching right row, or one row of NaN. *)
Definition merge_left (left : list Z) (right : list (Z * Z)) : list (Z * cell) :=
  flat_map (fun d =>
    match filter (fun kv => fst kv =? d) right with
    | [] => [(d, None)]
    | ms => map (fun kv => (d, of_int (snd kv))) ms
    end) left.

(** [Series.min()] and [Series.max()] of a date column; NaT on no row. *)
Definition min_date (l : list Z) : option Z :=
  match l with
  | [] => None
  | h :: t => Some (fold_right Z.min h t)
  end.

Definition max_date (l : list Z) : option Z :=
  match l with
  | [] => None
  | h :: t => Some (fold_right Z.max h t)
  end.

(** [Series.unique()] *)
Fixpoint unique (l : list Z) : list Z :=
  match l with
  | [] => []
  | h :: t => h :: filter (fun x => negb (x =? h)) (unique t)
  end.

(** [Series.isin(values)] / [x in values] *)
Definition isin (x : Z) (values : list Z) : bool :=
  existsb (fun v => v =? x) values.

(** [x / n] on numpy floats: a zero divisor gives no finite number. *)
Definition np_div (x : Q) (n : Z) : cell :=
  if n =? 0 then None else Some (x / inject_Z n)%Q.

(** The number of rows of a key. *)
Definition count_key {A : Type} (key : A -> Z) (rows : list A) (d : Z) : Z :=
  Z.of_nat (length (filter (fun r => key r =? d) rows)).

(** A cell that holds a number that is not negative. *)
Definition nonneg (c : cell) : Prop := exists q, c = Some q /\ (0 <= q)%Q.

(** [a < b] on floats. *)
Definition Qlt_bool (a b : Q) : bool := negb (Qle_bool b a).

End Frame.

(** [round(x)] of Python 3: to the nearest integer, a tie to the even one. *)
Definition py_round (q : Q) : Z :=
  let f := Qfloor q in
  let r := (q - inject_Z f)%Q in
  match (r ?= 1 # 2)%Q with
  | Lt => f
  | Gt => f + 1
  | Eq => if Z.even f then f else f + 1
  end.

(** [int(n * 0.8)] for a row count [n]. *)
Definition int_mul_0_8 (n : nat) : nat := Z.to_nat (Z.of_nat n * 8 / 10).

(** [Series.iloc[-k]]: the k-th cell from the end, [IndexError] when the
    column has fewer than [k] cells. *)
Definition iloc_neg (col : list Frame.cell) (k : nat) : result Frame.cell :=
  if (1 <=? k)%nat && (k <=? length col)%nat
  then Ok (nth (length col - k) col None)
  else Raise IndexError.

Fixpoint mapM {A B : Type} (f : A -> result B) (l : list A) : result (list B) :=
  match l with
  | [] => Ok []
  | a :: t => b <- f a ;; bs <- mapM f t ;; Ok (b :: bs)
  end.

(** ** Data model *)

(** One row of the source table.  A [TenantID] that the file leaves empty
    is read as a missing value; the empty string stands for it. *)
Record OrderRecord : Type := mkOrder {
  TenantID : string;
  LaundryID : string;
  StartDate : Z;
  Item : string;
  Service : string;
  Water_Litres : Q;
  Electricity_kWh : Q;
  IsHoliday : Z;
  IsWeekend : Z
}.

(** [df[df["TenantID"] == tenant_id]] *)
Definition rows_of_customer (df : list OrderRecord) (tenant_id : string)
    : list OrderRecord :=
  filter (fun r => String.eqb (TenantID r) tenant_id) df.

(** [df[df['LaundryID'] == laundry_id]] *)
Definition rows_of_laundry (df : list OrderRecord) (laundry_id : string)
    : list OrderRecord :=
  filter (fun r => String.eqb (LaundryID r) laundry_id) df.

(** A wall-clock reading ([datetime.now()]), in microseconds since the epoch. *)
Definition instant : Type := Z.

Definition us_per_day : Z := 86400000000.

(** The midnight that starts a day. *)
Definition midnight (d : Z) : instant := d * us_per_day.

(** ** The scikit-learn estimators *)

Record rf_params : Type := mkRfParams {
  n_estimators : Z;
  min_samples_split : Z;
  min_samples_leaf : Z;
  random_state : Z
}.

(** A fitted estimator is a function of its training sample (the seeds are
    fixed by [random_state]) and of the row to predict. *)
Class Sklearn : Type := {
  (** [RandomForestRegressor(params).fit(X, y).predict] *)
  rf_predict : rf_params -> list (list Frame.cell * Frame.cell) -> list Frame.cell -> Q;
  (** [LinearRegression().fit(X, y).predict], one feature *)
  lr_predict : list (Q * Q) -> Q -> Q;
  (** [IsolationForest(contamination, random_state).fit(X).predict]: 1 or -1 *)
  if_predict : Q -> Z -> list (Q * Q) -> Q * Q -> Z
}.

(** Input validation of every [fit] and of every [predict]: at least one
    sample. *)
Definition check_samples {A : Type} (X : list A) : result unit :=
  match X with
  | [] => Raise ValueError
  | _ :: _ => Ok tt
  end.

Definition RandomForestRegressor_fit `{Sklearn} (p : rf_params)
    (train : list (list Frame.cell * Frame.cell)) : result (list Frame.cell -> Q) :=
  _ <- check_samples train ;; Ok (rf_predict p train).

Definition LinearRegression_fit `{Sklearn} (train : list (Q * Q)) : result (Q -> Q) :=
  _ <- check_samples train ;; Ok (lr_predict train).

Definition IsolationForest_fit `{Sklearn} (contamination : Q) (seed : Z)
    (X : list (Q * Q)) : result (Q * Q -> Z) :=
  _ <- check_samples X ;; Ok (if_predict contamination seed X).

(** [model.predict(X)] on the rows of a frame. *)
Definition predict {A : Type} (model : A -> Q) (X : list A) : result (list Q) :=
  _ <- check_samples X ;; Ok (map model X).

(** ** customer_analysis.py *)

Module customer_analysis.
Import Frame.

(** The feature columns of the daily frame, in column order (the frame
    without [ds] and [orders]). *)
Record Features : Type := mkFeatures {
  day_of_week : Z;
  is_weekend : Z;
  month : Z;
  day_of_month : Z;
  time_idx : Z;
  orders_7d_avg : cell;
  orders_28d_avg : cell;
  lag_1 : cell;
  lag_7 : cell;
  lag_14 : cell;
  lag_28 : cell;
  is_holiday : Z
}.

(** One row of the daily frame. *)
Record FeatureRow : Type := mkFeatureRow {
  ds : Z;
  orders : cell;
  feats : Features
}.

(** One row of the forecast frame: history rows carry [y] only, future
    rows the prediction and its band. *)
Record ForecastRow : Type := mkForecastRow {
  f_ds : Z;
  y : cell;
  yhat : cell;
  yhat_lower : cell;
  yhat_upper : cell
}.

(** [data[data["IsHoliday"] == 1]["StartDate"].unique()] *)
Definition holiday_dates (data : list OrderRecord) : list Z :=
  unique (map StartDate (filter (fun r => IsHoliday r =? 1) data)).

Definition flag (b : bool) : Z := if b then 1 else 0.

(** [DataFrame.dropna()]: a row with a NaN in any column goes. *)
Definition has_na (r : FeatureRow) : bool :=
  isna (orders r) || isna (orders_7d_avg (feats r))
  || isna (orders_28d_avg (feats r)) || isna (lag_1 (feats r))
  || isna (lag_7 (feats r)) || isna (lag_14 (feats r))
  || isna (lag_28 (feats r)).

Definition dropna (rows : list FeatureRow) : list FeatureRow :=
  filter (fun r => negb (has_na r)) rows.

(** The frame before the final [dropna()]. *)
Definition enhanced_frame (data : list OrderRecord) (lo hi : Z) : list FeatureRow :=
  let full_dates := date_range lo hi in
  let daily_orders :=
    map (fun g => (fst g, Z.of_nat (length (snd g)))) (groupby StartDate data) in
  let merged :=
    map (fun r => (fst r, fillna0 (snd r))) (merge_left full_dates daily_orders) in
  let dates := map fst merged in
  let ords := map snd merged in
  let ds_min := match min_date dates with Some m => m | None => 0 end in
  let avg7 := rolling_mean 7 ords in
  let avg28 := rolling_mean 28 ords in
  let lag := fun k => map fillna0 (shift k ords) in
  let holidays := holiday_dates data in
  map (fun i =>
         let d := nth i dates 0 in
         {| ds := d;
            orders := at_ ords i;
            feats := {| day_of_week := Calendar.weekday d;
                        is_weekend := flag (isin (Calendar.weekday d) [5; 6]);
                        month := Calendar.month d;
                        day_of_month := Calendar.day d;
                        time_idx := d - ds_min;
                        orders_7d_avg := at_ avg7 i;
                        orders_28d_avg := at_ avg28 i;
                        lag_1 := at_ (lag 1%nat) i;
                        lag_7 := at_ (lag 7%nat) i;
                        lag_14 := at_ (lag 14%nat) i;
                        lag_28 := at_ (lag 28%nat) i;
                        is_holiday := flag (isin d holidays) |} |})
      (seq 0 (length merged)).

(** [prepare_enhanced_data]: [date_range] rejects the NaT bounds of an
    empty frame. *)
Definition prepare_enhanced_data (data : list OrderRecord) : result (list FeatureRow) :=
  match min_date (map StartDate data), max_date (map StartDate data) with
  | Some lo, Some hi => Ok (dropna (enhanced_frame data lo hi))
  | _, _ => Raise ValueError
  end.

(** A row of [X] as the estimator sees it. *)
Definition to_vec (f : Features) : list cell :=
  [ of_int (day_of_week f); of_int (is_weekend f); of_int (month f);
    of_int (day_of_month f); of_int (time_idx f);
    orders_7d_avg f; orders_28d_avg f;
    lag_1 f; lag_7 f; lag_14 f; lag_28 f; of_int (is_holiday f) ].

Definition rf_customer : rf_params :=
  {| n_estimators := 200; min_samples_split := 5;
     min_samples_leaf := 2; random_state := 42 |}.

Definition future_days : nat := 90.

(** The [features] dict built for one future date. *)
Definition future_features (daily_data : list FeatureRow) (holidays : list Z)
    (date : Z) : result Features :=
  let n := length daily_data in
  let ords := map orders daily_data in
  let ds_min := match min_date (map ds daily_data) with Some m => m | None => 0 end in
  a7 <- iloc_neg (map (fun r => orders_7d_avg (feats r)) daily_data) 1 ;;
  a28 <- iloc_neg (map (fun r => orders_28d_avg (feats r)) daily_data) 1 ;;
  l1 <- iloc_neg ords 1 ;;
  l7 <- (if (7 <=? n)%nat then iloc_neg ords 7 else Ok (of_int 0)) ;;
  l14 <- (if (14 <=? n)%nat then iloc_neg ords 14 else Ok (of_int 0)) ;;
  l28 <- (if (28 <=? n)%nat then iloc_neg ords 28 else Ok (of_int 0)) ;;
  Ok {| day_of_week := Calendar.weekday date;
        is_weekend := flag (isin (Calendar.weekday date) [5; 6]);
        month := Calendar.month date;
        day_of_month := Calendar.day date;
        time_idx := date - ds_min;
        orders_7d_avg := a7;
        orders_28d_avg := a28;
        lag_1 := l1;
        lag_7 := l7;
        lag_14 := l14;
        lag_28 := l28;
        is_holiday := flag (isin date holidays) |}.

(** The 80 % chronological training split. *)
Definition train_split (daily_data : list FeatureRow) : list (list cell * cell) :=
  let train_size := int_mul_0_8 (length daily_data) in
  combine (firstn train_size (map (fun r => to_vec (feats r)) daily_data))
          (firstn train_size (map orders daily_data)).

(** The dates of the forecast horizon; NaT bounds are rejected. *)
Definition future_dates (daily_data : list FeatureRow) : result (list Z) :=
  match max_date (map ds daily_data) with
  | Some last_date => Ok (date_range_periods (last_date + 1) future_days)
  | None => Raise ValueError
  end.

(** The loop that fills [future_data]. *)
Definition future_data (daily_data : list FeatureRow) (holidays : list Z)
    : result (list Features) :=
  dates <- future_dates daily_data ;;
  mapM (future_features daily_data holidays) dates.

(** The clamped prediction and its band for one future date. *)
Definition forecast_row (date : Z) (pred : Q) : ForecastRow :=
  {| f_ds := date;
     y := None;
     yhat := Some (Qmax 0 pred);
     yhat_lower := Some (Qmax 0 (pred * (7 # 10)));
     yhat_upper := Some (Qmax 0 (pred * (13 # 10))) |}.

Definition history_row (r : FeatureRow) : ForecastRow :=
  {| f_ds := ds r; y := orders r;
     yhat := None; yhat_lower := None; yhat_upper := None |}.

Section Forecast.
Context `{Sklearn}.

(** The 90 forecast rows, before the history is put in front of them. *)
Definition forecast_rows (daily_data : list FeatureRow)
    (customer_data : list OrderRecord) : result (list ForecastRow) :=
  let holidays := holiday_dates customer_data in
  model <- RandomForestRegressor_fit rf_customer (train_split daily_data) ;;
  dates <- future_dates daily_data ;;
  feats <- future_data daily_data holidays ;;
  let future_pred := map (fun f => model (to_vec f)) feats in
  Ok (map (fun dp => forecast_row (fst dp) (snd dp)) (combine dates future_pred)).

(** [forecast_intermittent_demand]: the history and the history
    followed by the forecast. *)
Definition forecast_intermittent_demand (daily_data : list FeatureRow)
    (customer_data : list OrderRecord)
    : result (list (Z * cell) * list ForecastRow) :=
  forecast_df <- forecast_rows daily_data customer_data ;;
  let historical := map (fun r => (ds r, orders r)) daily_data in
  Ok (historical, map history_row daily_data ++ forecast_df).

End Forecast.

(** *** Insights, report and resources *)

(** [sort_values()] of a date column. *)
Fixpoint insert_sorted (k : Z) (l : list Z) : list Z :=
  match l with
  | [] => [k]
  | h :: t => if k <=? h then k :: l else h :: insert_sorted k t
  end.

Definition sort_values (l : list Z) : list Z := fold_right insert_sorted [] l.

(** [Series.diff()] without its leading NaN. *)
Fixpoint diff (l : list Z) : list Z :=
  match l with
  | a :: ((b :: _) as t) => (b - a) :: diff t
  | _ => []
  end.

(** The insights that are numbers; the three that rank weekdays, items
    and services by frequency read no clock and are left out, and with
    them the [ValueError] that ranking the weekdays of a frame without
    rows raises: the section passes a frame with a row. *)
Record Insights : Type := mkInsights {
  days_since : option Z;
  avg_days_between : cell
}.

(** [generate_customer_insights], with the reading of [datetime.now()]
    as an argument. *)
Definition generate_customer_insights (today : instant) (data : list OrderRecord)
    : Insights :=
  let last_order := max_date (map StartDate data) in
  let order_dates := sort_values (map StartDate data) in
  {| days_since :=
       match last_order with
       | Some d => Some ((today - midnight d) / us_per_day)
       | None => None
       end;
     avg_days_between :=
       if (1 <? length order_dates)%nat
       then mean (map of_int (diff order_dates))
       else None |}.

Definition cell_map (f : Q -> Q) (c : cell) : cell :=
  match c with Some q => Some (f q) | None => None end.

Definition cell_mul (a b : cell) : cell :=
  match a, b with
  | Some x, Some z => Some (x * z)%Q
  | _, _ => None
  end.

(** [Series.sum()], NaN cells skipped. *)
Definition sum (l : list cell) : Q := Qsum (present l).

(** [round(x)]: a NaN cannot be rounded. *)
Definition round_cell (c : cell) : result Z :=
  match c with
  | Some q => Ok (py_round q)
  | None => Raise ValueError
  end.

(** The numbers of the report; its prose is fixed text around them. *)
Record Report : Type := mkReport {
  start_date : Z * Z;
  end_date : Z * Z;
  avg_daily : cell;
  total_orders : Q;
  avg_lower : cell;
  avg_upper : cell;
  min_stock : Z;
  weekly_stock : Z * Z;
  buffer_stock : Z
}.

(** [strftime('%Y-%m')] of a date; NaT cannot be formatted. *)
Definition year_month (d : option Z) : result (Z * Z) :=
  match d with
  | Some x => Ok (Calendar.year x, Calendar.month x)
  | None => Raise ValueError
  end.

(** [forecast[forecast["ds"] > actual["ds"].max()]] *)
Definition forecast_period (actual : list (Z * cell)) (forecast : list ForecastRow)
    : list ForecastRow :=
  match max_date (map fst actual) with
  | Some last => filter (fun r => last <? f_ds r) forecast
  | None => []
  end.

(** [generate_business_report] *)
Definition generate_business_report (actual : list (Z * cell))
    (forecast : list ForecastRow) (customer_id : string)
    (customer_data : list OrderRecord) : result Report :=
  let period := forecast_period actual forecast in
  sd <- year_month (min_date (map f_ds period)) ;;
  ed <- year_month (max_date (map f_ds period)) ;;
  let avg_daily := mean (map yhat period) in
  let total_orders := sum (map yhat period) in
  let avg_lower := mean (map yhat_lower period) in
  let avg_upper := mean (map yhat_upper period) in
  rl <- round_cell avg_lower ;;
  let min_stock := Z.max 1 rl in
  w_lo <- round_cell (cell_map (fun a => a * (7 # 1) * (8 # 10))%Q avg_daily) ;;
  w_hi <- round_cell (cell_map (fun a => a * (7 # 1) * (12 # 10))%Q avg_daily) ;;
  buffer <- round_cell (cell_map (fun a => a * (2 # 1))%Q avg_upper) ;;
  Ok {| start_date := sd; end_date := ed;
        avg_daily := avg_daily; total_orders := total_orders;
        avg_lower := avg_lower; avg_upper := avg_upper;
        min_stock := min_stock;
        weekly_stock := (w_lo, w_hi);
        buffer_stock := buffer |}.

(** [customer_resource_analysis] *)
Definition customer_resource_analysis (customer_data : list OrderRecord)
    : list (Z * Q * Q) * cell * cell :=
  let total_orders := Z.of_nat (length customer_data) in
  let avg_water := np_div (Qsum (map Water_Litres customer_data)) total_orders in
  let avg_electricity :=
    np_div (Qsum (map Electricity_kWh customer_data)) total_orders in
  let resource_usage :=
    map (fun g => (fst g, Qsum (map Water_Litres (snd g)),
                   Qsum (map Electricity_kWh (snd g))))
        (groupby StartDate customer_data) in
  (resource_usage, avg_water, avg_electricity).

Record FutureResource : Type := mkFutureResource {
  fr_row : ForecastRow;
  Water_Needed : cell;
  Electricity_Needed : cell
}.

(** [calculate_future_resource], with the reading of [datetime.now()]
    as an argument. *)
Definition calculate_future_resource (now : instant) (forecast : list ForecastRow)
    (avg_water avg_electricity : cell) : list FutureResource :=
  map (fun r => {| fr_row := r;
                   Water_Needed := cell_mul (yhat r) avg_water;
                   Electricity_Needed := cell_mul (yhat r) avg_electricity |})
      (filter (fun r => now <? midnight (f_ds r)) forecast).

(** *** The section and its four views *)

Inductive subsection : Type := Historical | Forecast | Resources | ReportTab.

(** What a request shows. *)
Inductive page : Type :=
| Idle
| NoDataFound (tenant_id : string)
| HistoricalPage (insights : Insights)
| ForecastPage (actual : list (Z * cell)) (forecast : list ForecastRow)
| ResourcePage (usage : list (Z * Q * Q)) (avg_water avg_electricity : cell)
               (future_resource : list FutureResource)
| ReportPage (report : Report).

Section Views.
Context `{Sklearn}.

Definition show_historical_analysis (today : instant)
    (customer_data : list OrderRecord) : result page :=
  Ok (HistoricalPage (generate_customer_insights today customer_data)).

Definition show_forecast_analysis (customer_data : list OrderRecord)
    (tenant_id : string) : result page :=
  daily_orders <- prepare_enhanced_data customer_data ;;
  af <- forecast_intermittent_demand daily_orders customer_data ;;
  Ok (ForecastPage (fst af) (snd af)).

Definition show_resource_analysis (now : instant)
    (customer_data : list OrderRecord) (tenant_id : string) : result page :=
  daily_orders <- prepare_enhanced_data customer_data ;;
  af <- forecast_intermittent_demand daily_orders customer_data ;;
  let '(resource_usage, avg_water, avg_electricity) :=
    customer_resource_analysis customer_data in
  Ok (ResourcePage resource_usage avg_water avg_electricity
        (calculate_future_resource now (snd af) avg_water avg_electricity)).

Definition show_business_report (customer_data : list OrderRecord)
    (tenant_id : string) : result page :=
  daily_orders <- prepare_enhanced_data customer_data ;;
  af <- forecast_intermittent_demand daily_orders customer_data ;;
  report <- generate_business_report (fst af) (snd af) tenant_id customer_data ;;
  Ok (ReportPage report).

(** [customer_section]: the identifier typed in, the tab chosen and the
    clock are its inputs besides the table. *)
Definition customer_section (now : instant) (df : list OrderRecord)
    (tenant_id : string) (tab : subsection) : result page :=
  if String.eqb tenant_id EmptyString then Ok Idle
  else
    let customer_data := rows_of_customer df tenant_id in
    match customer_data with
    | [] => Ok (NoDataFound tenant_id)
    | _ :: _ =>
        match tab with
        | Historical => show_historical_analysis now customer_data
        | Forecast => show_forecast_analysis customer_data tenant_id
        | Resources => show_resource_analysis now customer_data tenant_id
        | ReportTab => show_business_report customer_data tenant_id
        end
    end.

End Views.

(** *** The labels of the report and the detailed chart *)

(** A numpy float as a division can leave it. *)
Inductive npfloat : Type :=
| Finite (q : Q)
| PosInf
| NegInf
| NotANumber.

(** [a / b] on numpy floats: a zero divisor raises nothing, it gives an
    infinity of the sign of [a], or NaN for [0 / 0]. *)
Definition np_truediv (a b : cell) : npfloat :=
  match a, b with
  | Some x, Some z =>
      if Qeq_bool z 0 then
        if Qlt_bool 0 x then PosInf
        else if Qlt_bool x 0 then NegInf
        else NotANumber
      else Finite (x / z)
  | _, _ => NotANumber
  end.

(** [x < c] on a float: false on NaN. *)
Definition np_lt (x : npfloat) (c : Q) : bool :=
  match x with
  | Finite q => Qlt_bool q c
  | NegInf => true
  | PosInf => false
  | NotANumber => false
  end.

Definition cell_lt (a : cell) (c : Q) : bool :=
  match a with Some q => Qlt_bool q c | None => false end.

Definition cell_gt (a : cell) (c : Q) : bool :=
  match a with Some q => Qlt_bool c q | None => false end.

(** [len(top_items)]: [value_counts().head(3)] has one entry per distinct
    item, three at most. *)
Definition top_items_count (customer_data : list OrderRecord) : nat :=
  Nat.min 3 (length (nodup string_dec (map Item customer_data))).

(** The words the report chooses by threshold. *)
Record Advice : Type := mkAdvice {
  plural_units : bool;
  volatility : string;
  stockout_risk : string;
  waste_potential : string;
  inventory : string;
  deliveries : string;
  top_items_share : Z;
  demand_focus : string
}.

(** The conditional expressions of the report text, on the numbers of the
    report. *)
Definition report_advice (r : Report) (customer_data : list OrderRecord) : Advice :=
  {| plural_units := 1 <? min_stock r;
     volatility :=
       if np_lt (np_truediv (avg_upper r) (avg_lower r)) (15 # 10)
       then "Low" else "Medium";
     stockout_risk := if cell_lt (avg_daily r) 1 then "Minimal" else "Moderate";
     waste_potential := if cell_gt (avg_daily r) (5 # 10) then "Low" else "Medium";
     inventory := if cell_lt (avg_daily r) 1 then "lean" else "moderate";
     deliveries := if cell_lt (avg_daily r) 2 then "weekly" else "bi-weekly";
     top_items_share := if (3 <=? top_items_count customer_data)%nat then 70 else 100;
     demand_focus :=
       if cell_gt (mean (map (fun o => of_int (IsWeekend o)) customer_data)) (3 # 10)
       then "weekend" else "mid-week" |}.

(** [generate_business_report], numbers and words. *)
Definition business_report (actual : list (Z * cell)) (forecast : list ForecastRow)
    (customer_id : string) (customer_data : list OrderRecord)
    : result (Report * Advice) :=
  r <- generate_business_report actual forecast customer_id customer_data ;;
  Ok (r, report_advice r customer_data).

(** [pd.to_datetime("2025-10-31")] *)
Definition oct_end : Z := Calendar.of_civil 2025 10 31.

(** [plot_detailed_forecast]: the line it draws, the date and the [yhat]
    of every row dated up to [oct_end]. *)
Definition plot_detailed_forecast (forecast : list ForecastRow) (customer_id : string)
    : list (Z * cell) :=
  map (fun r => (f_ds r, yhat r)) (filter (fun r => f_ds r <=? oct_end) forecast).

End customer_analysis.

(** ** laundry_analysis.py *)

Module laundry_analysis.
Import Frame.

(** One row of the facility's daily demand: a date and its order count. *)
Record DemandRow : Type := mkDemandRow {
  ds : Z;
  y : Z
}.

(** [prepare_laundry_data] *)
Definition prepare_laundry_data (df : list OrderRecord) (laundry_id : string)
    : list DemandRow :=
  let laundry_df := rows_of_laundry df laundry_id in
  map (fun g => {| ds := fst g; y := Z.of_nat (length (snd g)) |})
      (groupby StartDate laundry_df).

(** The three calendar columns the facility model is fit on. *)
Definition calendar_features (d : Z) : list cell :=
  [ of_int (Calendar.dayofyear d); of_int (Calendar.weekday d);
    of_int (Calendar.isoweek d) ].

(** One row of the copy of the daily demand that the forecaster returns:
    the date, the count and the three calendar columns added to them. *)
Record DataRow : Type := mkDataRow {
  d_ds : Z;
  d_y : Z;
  DayOfYear : Z;
  DayOfWeek : Z;
  WeekOfYear : Z
}.

Definition add_calendar (r : DemandRow) : DataRow :=
  {| d_ds := ds r;
     d_y := y r;
     DayOfYear := Calendar.dayofyear (ds r);
     DayOfWeek := Calendar.weekday (ds r);
     WeekOfYear := Calendar.isoweek (ds r) |}.

(** [data[['DayOfYear', 'DayOfWeek', 'WeekOfYear']]], one row of it. *)
Definition features_of (r : DataRow) : list cell :=
  [ of_int (DayOfYear r); of_int (DayOfWeek r); of_int (WeekOfYear r) ].

(** One row of the forecast frame: the date, its three calendar columns,
    the prediction and its band. *)
Record ForecastRow : Type := mkForecastRow {
  f_ds : Z;
  f_DayOfYear : Z;
  f_DayOfWeek : Z;
  f_WeekOfYear : Z;
  yhat : Q;
  yhat_lower : Q;
  yhat_upper : Q
}.

(** [RandomForestRegressor(n_estimators=100, random_state=42)]; the split
    and leaf sizes are the library's defaults. *)
Definition rf_laundry : rf_params :=
  {| n_estimators := 100; min_samples_split := 2;
     min_samples_leaf := 1; random_state := 42 |}.

Definition forecast_row (date : Z) (pred : Q) : ForecastRow :=
  {| f_ds := date;
     f_DayOfYear := Calendar.dayofyear date;
     f_DayOfWeek := Calendar.weekday date;
     f_WeekOfYear := Calendar.isoweek date;
     yhat := pred;
     yhat_lower := (pred - (15 # 10))%Q;
     yhat_upper := (pred + (15 # 10))%Q |}.

(** One day of the resource analysis. *)
Record UsageRow : Type := mkUsageRow {
  u_date : Z;
  OrderCount : Z;
  WaterConsumption : Q;
  ElectricityConsumption : Q;
  ExpectedWater : Q;
  ExpectedElectricity : Q;
  WaterError : Q;
  ElectricError : Q;
  Anomaly : Z;
  AnomalyLabel : option string;
  Alert : string
}.

Definition alert_text : string := "🚨 Alert: High usage on low order day".
Definition normal_text : string := "✅ Normal".

(** [check_alerts], on the two columns it reads. *)
Definition check_alerts (anomaly order_count : Z) : string :=
  if (anomaly =? -1) && (order_count <? 5) then alert_text else normal_text.

(** [Series.map({1: "Normal", -1: "Anomaly"})]: NaN off the two keys. *)
Definition anomaly_label (anomaly : Z) : option string :=
  if anomaly =? 1 then Some "Normal"%string
  else if anomaly =? -1 then Some "Anomaly"%string
  else None.

(** [Series.count()] on the identifiers: the cells that are not missing. *)
Definition notna_count (col : list string) : Z :=
  Z.of_nat (length (filter (fun c => negb (String.eqb c EmptyString)) col)).

(** The [groupby(["StartDate"]).agg(...)] of the facility's rows: the
    count of the customer identifiers of a day, which leaves out the rows
    whose identifier is missing, and the sums of the two resources. *)
Definition daily_aggregate (laundry_df : list OrderRecord) : list (Z * Z * Q * Q) :=
  map (fun g => (fst g,
                 notna_count (map TenantID (snd g)),
                 Qsum (map Water_Litres (snd g)),
                 Qsum (map Electricity_kWh (snd g))))
      (groupby StartDate laundry_df).

Inductive subsection : Type := PeakForecast | PeakAlerts | Resources.

Section Analysis.
Context `{Sklearn}.

(** [forecast_demand_laundry_rf]: the copy of the data with its calendar
    columns, the fitted model and the forecast.  The fit rejects an empty
    series and the prediction an empty future frame. *)
Definition forecast_demand_laundry_rf (daily_data : list DemandRow)
    (forecast_days : nat)
    : result (list DataRow * (list cell -> Q) * list ForecastRow) :=
  let data := map add_calendar daily_data in
  let train := map (fun r => (features_of r, of_int (d_y r))) data in
  model <- RandomForestRegressor_fit rf_laundry train ;;
  match max_date (map d_ds data) with
  | None => Raise ValueError
  | Some last_date =>
      let future_dates := date_range_periods (last_date + 1) forecast_days in
      yhat <- predict model (map calendar_features future_dates) ;;
      Ok (data, model, map (fun dp => forecast_row (fst dp) (snd dp))
                           (combine future_dates yhat))
  end.

(** [laundry_resource_analysis] *)
Definition laundry_resource_analysis (df : list OrderRecord) (laundry_id : string)
    : result (list UsageRow) :=
  let laundry_df := rows_of_laundry df laundry_id in
  let daily_usage := daily_aggregate laundry_df in
  let count := fun u : Z * Z * Q * Q => inject_Z (snd (fst (fst u))) in
  let water := fun u : Z * Z * Q * Q => snd (fst u) in
  let elec := fun u : Z * Z * Q * Q => snd u in
  expected_water <-
    LinearRegression_fit (map (fun u => (count u, water u)) daily_usage) ;;
  expected_elec <-
    LinearRegression_fit (map (fun u => (count u, elec u)) daily_usage) ;;
  let errors := fun u : Z * Z * Q * Q =>
    ((water u - expected_water (count u))%Q,
     (elec u - expected_elec (count u))%Q) in
  detector <- IsolationForest_fit (5 # 100) 42 (map errors daily_usage) ;;
  Ok (map (fun u =>
             let a := detector (errors u) in
             {| u_date := fst (fst (fst u));
                OrderCount := snd (fst (fst u));
                WaterConsumption := water u;
                ElectricityConsumption := elec u;
                ExpectedWater := expected_water (count u);
                ExpectedElectricity := expected_elec (count u);
                WaterError := fst (errors u);
                ElectricError := snd (errors u);
                Anomaly := a;
                AnomalyLabel := anomaly_label a;
                Alert := check_alerts a (snd (fst (fst u))) |})
          daily_usage).

(** [forecast[forecast["yhat"] < threshold]] *)
Definition low_demand_days (threshold : Q) (forecast : list ForecastRow)
    : list ForecastRow :=
  filter (fun r => Qlt_bool (yhat r) threshold) forecast.

(** [forecast[forecast["yhat"] > peak_threshold]] *)
Definition peak_days (peak_threshold : Q) (forecast : list ForecastRow)
    : list ForecastRow :=
  filter (fun r => Qlt_bool peak_threshold (yhat r)) forecast.

(** [detect_low_demand_days]: [None] is the pair [(None, None)]. *)
Definition detect_low_demand_days (df : list OrderRecord) (laundry_id : string)
    (threshold : Q) : result (option (list ForecastRow * list ForecastRow)) :=
  match prepare_laundry_data df laundry_id with
  | [] => Ok None
  | daily =>
      dmf <- forecast_demand_laundry_rf daily 7 ;;
      Ok (Some (snd dmf, low_demand_days threshold (snd dmf)))
  end.

(** What a request shows. *)
Inductive page : Type :=
| Idle
| NoDataFound (laundry_id : string)
| PeakForecastPage (daily : list DataRow) (forecast peaks : list ForecastRow)
| PeakAlertsPage (peaks : list ForecastRow)
| ResourcePage (daily_usage : list UsageRow)
               (avg_water_per_order avg_electricity_per_order : cell)
               (water_per_order electricity_per_order : list cell)
               (low : option (list ForecastRow * list ForecastRow)).

Definition show_peak_forecast (df : list OrderRecord) (laundry_id : string)
    (peak_threshold : Z) : result page :=
  match prepare_laundry_data df laundry_id with
  | [] => Ok (NoDataFound laundry_id)
  | daily =>
      dmf <- forecast_demand_laundry_rf daily 30 ;;
      Ok (PeakForecastPage (fst (fst dmf)) (snd dmf)
            (peak_days (inject_Z peak_threshold) (snd dmf)))
  end.

Definition show_peak_alerts (df : list OrderRecord) (laundry_id : string)
    (peak_threshold : Z) : result page :=
  match prepare_laundry_data df laundry_id with
  | [] => Ok (NoDataFound laundry_id)
  | daily =>
      dmf <- forecast_demand_laundry_rf daily 30 ;;
      Ok (PeakAlertsPage (peak_days (inject_Z peak_threshold) (snd dmf)))
  end.

(** [show_resource_analysis]: the analysis runs first, the check for
    an empty frame after it. *)
Definition show_resource_analysis (df : list OrderRecord) (laundry_id : string)
    (low_threshold : Z) : result page :=
  daily_usage <- laundry_resource_analysis df laundry_id ;;
  match daily_usage with
  | [] => Ok (NoDataFound laundry_id)
  | _ :: _ =>
      let total := fold_right Z.add 0 (map OrderCount daily_usage) in
      low <- detect_low_demand_days df laundry_id (inject_Z low_threshold) ;;
      Ok (ResourcePage daily_usage
            (np_div (Qsum (map WaterConsumption daily_usage)) total)
            (np_div (Qsum (map ElectricityConsumption daily_usage)) total)
            (map (fun u => np_div (WaterConsumption u) (OrderCount u)) daily_usage)
            (map (fun u => np_div (ElectricityConsumption u) (OrderCount u))
                 daily_usage)
            low)
  end.

(** [laundry_section]: the identifier typed in, the tab chosen and the
    slider of that tab are its inputs besides the table. *)
Definition laundry_section (df : list OrderRecord) (laundry_id : string)
    (tab : subsection) (slider : Z) : result page :=
  if String.eqb laundry_id EmptyString then Ok Idle
  else
    match tab with
    | PeakForecast => show_peak_forecast df laundry_id slider
    | PeakAlerts => show_peak_alerts df laundry_id slider
    | Resources => show_resource_analysis df laundry_id slider
    end.

End Analysis.

End laundry_analysis.

(** ** A stand-in for the estimators

    Enough to run the pipeline on a concrete table: the forest predicts the
    mean of its training targets, the regression the mean of its targets,
    and the detector marks a day whose water residual is positive. *)

Definition mean_of (ys : list Q) : Q :=
  match ys with
  | [] => 0%Q
  | _ :: _ => (Frame.Qsum ys / inject_Z (Z.of_nat (length ys)))%Q
  end.

Definition mean_estimators : Sklearn := {|
  rf_predict := fun _ train _ => Qred (mean_of (Frame.present (map snd train)));
  lr_predict := fun train _ => Qred (mean_of (map snd train));
  if_predict := fun _ _ _ e => if Frame.Qlt_bool 0 (fst e) then -1 else 1
|}.

(** ** A small source table

    Customer T1 orders on 4, 4 and 7 October 2024 at facility L1, customer
    T2 on 6 October at L1 and on 5 October at L2, and customer T3 once, on
    9 October at L3. *)

Definition order (tenant laundry : string) (date : Z) (water kwh : Q) : OrderRecord :=
  {| TenantID := tenant; LaundryID := laundry; StartDate := date;
     Item := "Shirt"; Service := "Wash";
     Water_Litres := water; Electricity_kWh := kwh;
     IsHoliday := 0; IsWeekend := 0 |}.

Definition sample_table : list OrderRecord :=
  [ order "T1" "L1" 20000 (40 # 1) (2 # 1);
    order "T2" "L2" 20001 (35 # 1) (3 # 1);
    order "T1" "L1" 20000 (45 # 1) (2 # 1);
    order "T2" "L1" 20002 (30 # 1) (1 # 1);
    order "T1" "L1" 20003 (50 # 1) (2 # 1);
    order "T3" "L3" 20005 (20 # 1) (1 # 1) ].

(** A table of facility L1 whose order of 5 October 2024 was saved with
    an empty customer field. *)
Definition table_with_missing_id : list OrderRecord :=
  [ order "T1" "L1" 20000 (40 # 1) (2 # 1);
    order "" "L1" 20001 (30 # 1) (1 # 1);
    order "T2" "L1" 20002 (50 # 1) (2 # 1) ].

(** * Properties *)

(** ** The helpers on known values *)

Example civil_of_sample_days :
  map Calendar.civil [0; 11016; 20000; 20088]
  = [(1970, 1, 1); (2000, 2, 29); (2024, 10, 4); (2024, 12, 31)].
Proof. reflexivity. Qed.

Example calendar_columns_of_sample_days :
  map (fun d => (Calendar.weekday d, Calendar.dayofyear d, Calendar.isoweek d))
      [20000; 20088; 18628]
  = [(4, 278, 40); (1, 366, 1); (4, 1, 53)].
Proof. reflexivity. Qed.

Example py_round_ties_to_even :
  map py_round [1 # 2; 3 # 2; 5 # 2; -1 # 2; -3 # 2; 7 # 10; 249 # 100]
  = [0; 2; 2; 0; -2; 1; 2].
Proof. reflexivity. Qed.

Example int_mul_0_8_small :
  map int_mul_0_8 [0; 1; 2; 4; 5; 10]%nat = [0; 0; 1; 3; 4; 8]%nat.
Proof. reflexivity. Qed.

Example rolling_mean_window_3 :
  Frame.rolling_mean 3 [Some 3%Q; Some 0%Q; Some 6%Q; Some 3%Q]
  = [Some (3 / 1)%Q; Some (3 / 2)%Q; Some (9 / 3)%Q; Some (9 / 3)%Q].
Proof. reflexivity. Qed.

Example shift_by_2 :
  Frame.shift 2 [Some 1%Q; Some 2%Q; Some 3%Q] = [None; None; Some 1%Q].
Proof. reflexivity. Qed.

(** ** Facts about the frame operations *)

Section FrameFacts.
Import Frame.

Lemma insert_key_In (k x : Z) (l : list Z) :
  In x (insert_key k l) <-> x = k \/ In x l.
Proof.
  induction l as [|h t IH]; simpl.
  - intuition.
  - destruct (k <? h) eqn:E1; simpl; [intuition|].
    destruct (k =? h) eqn:E2; simpl.
    + apply Z.eqb_eq in E2. subst. intuition.
    + rewrite IH. intuition.
Qed.

Lemma insert_key_HdRel (k a : Z) (l : list Z) :
  HdRel Z.lt a l -> a < k -> HdRel Z.lt a (insert_key k l).
Proof.
  intros Hl Hak. destruct l as [|h t]; simpl.
  - constructor. exact Hak.
  - inversion Hl; subst.
    destruct (k <? h); [constructor; assumption|].
    destruct (k =? h); constructor; assumption.
Qed.

Lemma insert_key_Sorted (k : Z) (l : list Z) :
  Sorted Z.lt l -> Sorted Z.lt (insert_key k l).
Proof.
  induction 1 as [|h t Hs IH Hh]; simpl.
  - repeat constructor.
  - destruct (k <? h) eqn:E1.
    + apply Z.ltb_lt in E1. repeat constructor; assumption.
    + destruct (k =? h) eqn:E2.
      * constructor; assumption.
      * apply Z.ltb_ge in E1. apply Z.eqb_neq in E2.
        constructor; [exact IH|].
        apply insert_key_HdRel; [exact Hh|lia].
Qed.

Lemma group_keys_In (x : Z) (l : list Z) : In x (group_keys l) <-> In x l.
Proof.
  induction l as [|h t IH]; simpl; [tauto|].
  rewrite insert_key_In, IH. intuition.
Qed.

Lemma group_keys_Sorted (l : list Z) : Sorted Z.lt (group_keys l).
Proof.
  induction l; simpl; [constructor|apply insert_key_Sorted; assumption].
Qed.

Lemma group_keys_StronglySorted (l : list Z) : StronglySorted Z.lt (group_keys l).
Proof.
  apply Sorted_StronglySorted; [|apply group_keys_Sorted].
  intros a b c. apply Z.lt_trans.
Qed.

Lemma StronglySorted_lt_NoDup (l : list Z) : StronglySorted Z.lt l -> NoDup l.
Proof.
  induction 1 as [|h t Hs IH Hall]; constructor; [|exact IH].
  intro Hin. rewrite Forall_forall in Hall. specialize (Hall _ Hin). lia.
Qed.

Lemma group_keys_NoDup (l : list Z) : NoDup (group_keys l).
Proof. apply StronglySorted_lt_NoDup, group_keys_StronglySorted. Qed.

(** In a keyed frame without repeated keys a key selects at most its own
    row. *)
Lemma filter_unique_key (f : Z -> Z) (d : Z) (keys : list Z) :
  NoDup keys ->
  filter (fun kv : Z * Z => fst kv =? d) (map (fun k => (k, f k)) keys)
  = if in_dec Z.eq_dec d keys then [(d, f d)] else [].
Proof.
  induction 1 as [|k t Hnotin Hnd IH]; simpl; [reflexivity|].
  rewrite IH. destruct (Z.eq_dec k d) as [->|Hne].
  - rewrite Z.eqb_refl. destruct (in_dec Z.eq_dec d t); [contradiction|reflexivity].
  - destruct (k =? d) eqn:E; [apply Z.eqb_eq in E; contradiction|].
    destruct (in_dec Z.eq_dec d t); reflexivity.
Qed.

Lemma filter_absent {A : Type} (key : A -> Z) (d : Z) (rows : list A) :
  ~ In d (map key rows) -> filter (fun r => key r =? d) rows = [].
Proof.
  induction rows as [|r t IH]; simpl; [reflexivity|].
  intro Hn. destruct (key r =? d) eqn:E.
  - apply Z.eqb_eq in E. exfalso. apply Hn. left. exact E.
  - apply IH. intro Hin. apply Hn. right. exact Hin.
Qed.

Lemma merge_left_cons (d : Z) (t : list Z) (right : list (Z * Z)) :
  merge_left (d :: t) right
  = match filter (fun kv => fst kv =? d) right with
    | [] => [(d, None)]
    | ms => map (fun kv => (d, of_int (snd kv))) ms
    end ++ merge_left t right.
Proof. reflexivity. Qed.

(** The left join of a list of dates with the per-date counts, zero
    filled, carries for every date its number of rows. *)
Lemma merge_counts {A : Type} (key : A -> Z) (rows : list A) (dates : list Z) :
  map (fun r : Z * cell => (fst r, fillna0 (snd r)))
      (merge_left dates
         (map (fun g : Z * list A => (fst g, Z.of_nat (length (snd g))))
              (groupby key rows)))
  = map (fun d => (d, of_int (count_key key rows d))) dates.
Proof.
  unfold groupby. rewrite map_map. cbn [fst snd].
  assert (Hsel : forall d,
    filter (fun kv : Z * Z => fst kv =? d)
      (map (fun k => (k, Z.of_nat (length (filter (fun r => key r =? k) rows))))
           (group_keys (map key rows)))
    = if in_dec Z.eq_dec d (group_keys (map key rows))
      then [(d, count_key key rows d)] else []).
  { intro d.
    apply (filter_unique_key
             (fun k => Z.of_nat (length (filter (fun r => key r =? k) rows)))).
    apply group_keys_NoDup. }
  induction dates as [|d t IH]; [reflexivity|].
  rewrite merge_left_cons, map_app.
  etransitivity; [apply f_equal; exact IH|]. clear IH.
  rewrite Hsel. cbn [map].
  destruct (in_dec Z.eq_dec d (group_keys (map key rows))) as [Hin|Hn].
  - reflexivity.
  - unfold count_key. rewrite group_keys_In in Hn.
    rewrite (filter_absent key d rows Hn). reflexivity.
Qed.

Lemma date_range_length (lo hi : Z) :
  length (date_range lo hi) = Z.to_nat (hi - lo + 1).
Proof. unfold date_range. rewrite length_map, length_seq. reflexivity. Qed.

Lemma date_range_nth (lo hi : Z) (i : nat) :
  (i < Z.to_nat (hi - lo + 1))%nat ->
  nth i (date_range lo hi) 0 = lo + Z.of_nat i.
Proof.
  intro Hi. unfold date_range.
  rewrite (nth_indep _ 0 (lo + Z.of_nat 0)) by (rewrite length_map, length_seq; exact Hi).
  rewrite (map_nth (fun i => lo + Z.of_nat i)), seq_nth by exact Hi. reflexivity.
Qed.

Lemma min_date_spec (l : list Z) (m : Z) :
  min_date l = Some m -> In m l /\ forall x, In x l -> m <= x.
Proof.
  destruct l as [|h t]; simpl; [discriminate|].
  intro E. injection E as <-.
  induction t as [|a t IH]; simpl.
  - split; [left; reflexivity|]. intros x [->|[]]. lia.
  - destruct IH as [Hin Hle]. split.
    + destruct (Z.min_spec a (fold_right Z.min h t)) as [[_ ->]|[_ ->]].
      * right. left. reflexivity.
      * destruct Hin as [Hh|Ht]; [left; exact Hh|right; right; exact Ht].
    + intros x [->|[->|Hx]].
      * specialize (Hle x (or_introl eq_refl)). lia.
      * lia.
      * specialize (Hle x (or_intror Hx)). lia.
Qed.

Lemma max_date_spec (l : list Z) (m : Z) :
  max_date l = Some m -> In m l /\ forall x, In x l -> x <= m.
Proof.
  destruct l as [|h t]; simpl; [discriminate|].
  intro E. injection E as <-.
  induction t as [|a t IH]; simpl.
  - split; [left; reflexivity|]. intros x [->|[]]. lia.
  - destruct IH as [Hin Hle]. split.
    + destruct (Z.max_spec a (fold_right Z.max h t)) as [[_ ->]|[_ ->]].
      * destruct Hin as [Hh|Ht]; [left; exact Hh|right; right; exact Ht].
      * right. left. reflexivity.
    + intros x [->|[->|Hx]].
      * specialize (Hle x (or_introl eq_refl)). lia.
      * lia.
      * specialize (Hle x (or_intror Hx)). lia.
Qed.

End FrameFacts.

(** ** The daily frame of a customer *)

Section EnhancedFrame.
Import Frame customer_analysis.

Lemma nth_error_map_seq {A : Type} (f : nat -> A) (n i : nat) (r : A) :
  nth_error (map f (seq 0 n)) i = Some r -> (i < n)%nat /\ r = f i.
Proof.
  intro E.
  assert (Hi : (i < length (map f (seq 0 n)))%nat).
  { apply nth_error_Some. rewrite E. discriminate. }
  rewrite length_map, length_seq in Hi.
  split; [exact Hi|].
  rewrite nth_error_map, nth_error_seq in E.
  apply Nat.ltb_lt in Hi. rewrite Hi in E. simpl in E. congruence.
Qed.

Lemma at_map {A : Type} (f : A -> cell) (l : list A) (a : A) (i : nat) :
  (i < length l)%nat -> at_ (map f l) i = f (nth i l a).
Proof.
  intro Hi. unfold at_.
  rewrite (nth_indep _ None (f a)) by (rewrite length_map; exact Hi).
  apply map_nth.
Qed.

Lemma shift_length (k : nat) (col : list cell) : length (shift k col) = length col.
Proof.
  unfold shift. rewrite length_firstn, length_app, repeat_length. lia.
Qed.

Lemma shift_at (k : nat) (col : list cell) (i : nat) :
  (i < length col)%nat ->
  at_ (shift k col) i = if (i <? k)%nat then None else at_ col (i - k).
Proof.
  intro Hi. unfold at_, shift.
  rewrite nth_firstn. apply Nat.ltb_lt in Hi. rewrite Hi.
  destruct (i <? k)%nat eqn:E.
  - apply Nat.ltb_lt in E. rewrite app_nth1 by (rewrite repeat_length; exact E).
    apply nth_repeat.
  - apply Nat.ltb_ge in E. rewrite app_nth2 by (rewrite repeat_length; exact E).
    rewrite repeat_length. reflexivity.
Qed.

Lemma lag_at (k : nat) (col : list cell) (i : nat) :
  (i < length col)%nat ->
  at_ (map fillna0 (shift k col)) i
  = if (i <? k)%nat then Some 0%Q else fillna0 (at_ col (i - k)).
Proof.
  intro Hi.
  rewrite (at_map fillna0 _ None) by (rewrite shift_length; exact Hi).
  fold (at_ (shift k col) i). rewrite shift_at by exact Hi.
  destruct (i <? k)%nat; reflexivity.
Qed.

Lemma rolling_mean_at (w : nat) (col : list cell) (i : nat) :
  (i < length col)%nat -> at_ (rolling_mean w col) i = mean (window w col i).
Proof.
  intro Hi. unfold rolling_mean.
  rewrite (at_map _ _ 0%nat) by (rewrite length_seq; exact Hi).
  rewrite seq_nth by exact Hi. reflexivity.
Qed.

(** The order column of the frame: the number of orders of each day of
    the range. *)
Lemma enhanced_frame_eq (data : list OrderRecord) (lo hi : Z) :
  exists ords dates ds_min,
    dates = date_range lo hi /\
    ds_min = match min_date dates with Some m => m | None => 0 end /\
    ords = map (fun d => of_int (count_key StartDate data d)) dates /\
    enhanced_frame data lo hi =
    map (fun i =>
           let d := nth i dates 0 in
           {| ds := d;
              orders := at_ ords i;
              feats := {| day_of_week := Calendar.weekday d;
                          is_weekend := flag (isin (Calendar.weekday d) [5; 6]);
                          month := Calendar.month d;
                          day_of_month := Calendar.day d;
                          time_idx := d - ds_min;
                          orders_7d_avg := at_ (rolling_mean 7 ords) i;
                          orders_28d_avg := at_ (rolling_mean 28 ords) i;
                          lag_1 := at_ (map fillna0 (shift 1 ords)) i;
                          lag_7 := at_ (map fillna0 (shift 7 ords)) i;
                          lag_14 := at_ (map fillna0 (shift 14 ords)) i;
                          lag_28 := at_ (map fillna0 (shift 28 ords)) i;
                          is_holiday := flag (isin d (holiday_dates data)) |} |})
        (seq 0 (length dates)).
Proof.
  unfold enhanced_frame. rewrite merge_counts.
  rewrite !map_map. cbn [fst snd]. rewrite map_id, length_map.
  eexists _, _, _. repeat split; reflexivity.
Qed.

Lemma fold_min_head (h : Z) (t : list Z) :
  (forall x, In x t -> h <= x) -> fold_right Z.min h t = h.
Proof.
  induction t as [|a t IH]; simpl; intro Hall; [reflexivity|].
  rewrite IH by (intros x Hx; apply Hall; right; exact Hx).
  specialize (Hall a (or_introl eq_refl)). lia.
Qed.

Lemma min_date_date_range (lo hi : Z) :
  lo <= hi -> min_date (date_range lo hi) = Some lo.
Proof.
  intro Hle. unfold date_range.
  destruct (Z.to_nat (hi - lo + 1)) as [|n] eqn:En; [lia|].
  cbn [seq map min_date]. f_equal.
  rewrite fold_min_head.
  - simpl. lia.
  - intros x Hx. apply in_map_iff in Hx. destruct Hx as [i [<- _]]. simpl. lia.
Qed.

Lemma Qsum_nonneg (l : list Q) : Forall (fun q => (0 <= q)%Q) l -> (0 <= Qsum l)%Q.
Proof.
  induction 1 as [|q t Hq _ IH]; simpl; [apply Qle_refl|].
  replace 0%Q with (0 + 0)%Q by reflexivity. apply Qplus_le_compat; assumption.
Qed.

Lemma present_nonneg (l : list cell) :
  Forall nonneg l ->
  length (present l) = length l /\ Forall (fun q => (0 <= q)%Q) (present l).
Proof.
  induction 1 as [|c t [q [-> Hq]] _ [IHl IHf]]; simpl.
  - split; [reflexivity|constructor].
  - split; [f_equal; exact IHl|constructor; assumption].
Qed.

Lemma mean_nonneg (l : list cell) : l <> [] -> Forall nonneg l -> nonneg (mean l).
Proof.
  intros Hne Hall. destruct (present_nonneg l Hall) as [Hlen Hpos].
  unfold mean. destruct (present l) as [|v vs] eqn:E.
  - destruct l; [contradiction|discriminate].
  - eexists. split; [reflexivity|].
    apply Qle_shift_div_l.
    + unfold Qlt. simpl. lia.
    + rewrite Qmult_0_l. apply Qsum_nonneg. exact Hpos.
Qed.

Lemma window_nonneg (w : nat) (col : list cell) (i : nat) :
  (1 <= w)%nat -> (i < length col)%nat -> Forall nonneg col ->
  nonneg (mean (window w col i)).
Proof.
  intros Hw Hi Hall. apply mean_nonneg.
  - unfold window. intro E.
    apply (f_equal (@length _)) in E.
    rewrite length_firstn, length_skipn in E. cbn [length] in E. lia.
  - unfold window. rewrite Forall_forall in *. intros c Hc.
    apply Hall.
    rewrite <- (firstn_skipn (S i - w) col). apply in_or_app. right.
    rewrite <- (firstn_skipn (S i - (S i - w)) (skipn (S i - w) col)).
    apply in_or_app. left. exact Hc.
Qed.

Lemma counts_nonneg (data : list OrderRecord) (dates : list Z) :
  Forall nonneg (map (fun d => of_int (count_key StartDate data d)) dates).
Proof.
  apply Forall_forall. intros c Hc. apply in_map_iff in Hc.
  destruct Hc as [d [<- _]]. eexists. split; [reflexivity|].
  unfold count_key, Qle. simpl. lia.
Qed.

Lemma lag_count (data : list OrderRecord) (lo hi : Z) (k i : nat) :
  (i < Z.to_nat (hi - lo + 1))%nat ->
  at_ (map fillna0
         (shift k (map (fun d => of_int (count_key StartDate data d))
                       (date_range lo hi)))) i
  = if (i <? k)%nat then Some 0%Q
    else of_int (count_key StartDate data (lo + Z.of_nat (i - k))).
Proof.
  intro Hi.
  rewrite lag_at by (rewrite length_map, date_range_length; exact Hi).
  destruct (i <? k)%nat eqn:E; [reflexivity|].
  rewrite (at_map _ _ 0) by (rewrite date_range_length; lia).
  rewrite date_range_nth by lia. reflexivity.
Qed.

(** Row [i] of the frame before [dropna()]. *)
Lemma enhanced_frame_row (data : list OrderRecord) (lo hi : Z) (i : nat)
    (r : FeatureRow) :
  lo <= hi ->
  nth_error (enhanced_frame data lo hi) i = Some r ->
  (i < Z.to_nat (hi - lo + 1))%nat /\
  ds r = lo + Z.of_nat i /\
  orders r = of_int (count_key StartDate data (lo + Z.of_nat i)) /\
  time_idx (feats r) = Z.of_nat i /\
  nonneg (orders_7d_avg (feats r)) /\
  nonneg (orders_28d_avg (feats r)) /\
  lag_1 (feats r) = (if (i <? 1)%nat then Some 0%Q
                     else of_int (count_key StartDate data (lo + Z.of_nat (i - 1)))) /\
  lag_7 (feats r) = (if (i <? 7)%nat then Some 0%Q
                     else of_int (count_key StartDate data (lo + Z.of_nat (i - 7)))) /\
  lag_14 (feats r) = (if (i <? 14)%nat then Some 0%Q
                      else of_int (count_key StartDate data (lo + Z.of_nat (i - 14)))) /\
  lag_28 (feats r) = (if (i <? 28)%nat then Some 0%Q
                      else of_int (count_key StartDate data (lo + Z.of_nat (i - 28)))).
Proof.
  intros Hle E.
  destruct (enhanced_frame_eq data lo hi) as (ords & dates & ds_min & Hd & Hm & Ho & Hf).
  rewrite Hf in E. apply nth_error_map_seq in E. destruct E as [Hi ->].
  subst dates. rewrite date_range_length in Hi.
  rewrite min_date_date_range in Hm by exact Hle. subst ds_min.
  assert (Hlen : length ords = Z.to_nat (hi - lo + 1))
    by (subst ords; rewrite length_map, date_range_length; reflexivity).
  assert (Hnn : Forall nonneg ords) by (subst ords; apply counts_nonneg).
  cbn [ds orders feats time_idx orders_7d_avg orders_28d_avg lag_1 lag_7 lag_14 lag_28].
  rewrite date_range_nth by exact Hi.
  rewrite !rolling_mean_at by (rewrite Hlen; exact Hi).
  split; [exact Hi|]. split; [reflexivity|].
  split. { subst ords. rewrite (at_map _ _ 0) by (rewrite date_range_length; exact Hi).
           rewrite date_range_nth by exact Hi. reflexivity. }
  split; [lia|].
  split; [apply window_nonneg; [lia|rewrite Hlen; exact Hi|exact Hnn]|].
  split; [apply window_nonneg; [lia|rewrite Hlen; exact Hi|exact Hnn]|].
  subst ords. repeat split; apply lag_count; exact Hi.
Qed.

Lemma lag_cell_present (i k : nat) (c : Z) :
  isna (if (i <? k)%nat then Some 0%Q else of_int c) = false.
Proof. destruct (i <? k)%nat; reflexivity. Qed.

(** No row of the frame holds a NaN, so [dropna()] keeps every row. *)
Lemma enhanced_frame_complete (data : list OrderRecord) (lo hi : Z) :
  lo <= hi -> dropna (enhanced_frame data lo hi) = enhanced_frame data lo hi.
Proof.
  intro Hle. unfold dropna.
  apply forallb_filter_id. apply forallb_forall. intros r Hr.
  apply In_nth_error in Hr. destruct Hr as [i Hi].
  destruct (enhanced_frame_row data lo hi i r Hle Hi)
    as (_ & _ & Ho & _ & [q7 [H7 _]] & [q28 [H28 _]] & L1 & L7 & L14 & L28).
  unfold has_na. rewrite Ho, H7, H28, L1, L7, L14, L28.
  rewrite !lag_cell_present. reflexivity.
Qed.

(** On a table with at least one row the builder returns the frame of
    the range from the first to the last order date. *)
Lemma prepare_enhanced_data_eq (data : list OrderRecord) :
  data <> [] ->
  exists lo hi,
    min_date (map StartDate data) = Some lo /\
    max_date (map StartDate data) = Some hi /\
    lo <= hi /\
    prepare_enhanced_data data = Ok (enhanced_frame data lo hi).
Proof.
  intro Hne. destruct data as [|o t]; [contradiction|].
  unfold prepare_enhanced_data.
  destruct (min_date (map StartDate (o :: t))) as [lo|] eqn:Emin; [|discriminate].
  destruct (max_date (map StartDate (o :: t))) as [hi|] eqn:Emax; [|discriminate].
  exists lo, hi.
  destruct (min_date_spec _ _ Emin) as [Hin _].
  destruct (max_date_spec _ _ Emax) as [_ Hmax].
  assert (Hle : lo <= hi) by (apply Hmax; exact Hin).
  repeat split; try assumption.
  rewrite enhanced_frame_complete by exact Hle. reflexivity.
Qed.

Lemma enhanced_frame_length (data : list OrderRecord) (lo hi : Z) :
  length (enhanced_frame data lo hi) = Z.to_nat (hi - lo + 1).
Proof.
  destruct (enhanced_frame_eq data lo hi) as (ords & dates & ds_min & Hd & _ & _ & Hf).
  rewrite Hf, length_map, length_seq, Hd. apply date_range_length.
Qed.

End EnhancedFrame.

(** ** The daily series *)

Section DailySeries.
Import Frame.

Lemma count_key_pos {A : Type} (key : A -> Z) (rows : list A) (d : Z) :
  In d (map key rows) -> 1 <= count_key key rows d.
Proof.
  intro Hin. apply in_map_iff in Hin. destruct Hin as [r [Hk Hr]].
  assert (Hf : In r (filter (fun r => key r =? d) rows)).
  { apply filter_In. split; [exact Hr|]. apply Z.eqb_eq. exact Hk. }
  unfold count_key. destruct (filter (fun r => key r =? d) rows); [contradiction|].
  simpl length. lia.
Qed.

Lemma groupby_keys {A : Type} (key : A -> Z) (rows : list A) :
  map fst (groupby key rows) = group_keys (map key rows).
Proof. unfold groupby. rewrite map_map. apply map_id. Qed.

Lemma groupby_In {A : Type} (key : A -> Z) (rows : list A) (g : Z * list A) :
  In g (groupby key rows) ->
  In (fst g) (map key rows) /\
  snd g = filter (fun r => key r =? fst g) rows.
Proof.
  unfold groupby. intro Hg. apply in_map_iff in Hg.
  destruct Hg as [k [<- Hk]]. apply (proj1 (group_keys_In _ _)) in Hk.
  split; [exact Hk|reflexivity].
Qed.

(** The facility series: one row per date that has an order, ascending,
    with the number of orders of that date. *)
Lemma prepare_laundry_data_spec (df : list OrderRecord) (laundry_id : string) :
  let rows := laundry_analysis.prepare_laundry_data df laundry_id in
  map laundry_analysis.ds rows
    = group_keys (map StartDate (rows_of_laundry df laundry_id)) /\
  forall r, In r rows ->
    laundry_analysis.y r
      = count_key StartDate (rows_of_laundry df laundry_id) (laundry_analysis.ds r) /\
    1 <= laundry_analysis.y r.
Proof.
  unfold laundry_analysis.prepare_laundry_data.
  cbv zeta. split.
  - rewrite map_map. cbn [laundry_analysis.ds]. apply groupby_keys.
  - intros r Hr. apply in_map_iff in Hr. destruct Hr as [g [<- Hg]].
    apply groupby_In in Hg. destruct Hg as [Hk Hs].
    cbn [laundry_analysis.ds laundry_analysis.y].
    assert (E : Z.of_nat (length (snd g))
                = count_key StartDate (rows_of_laundry df laundry_id) (fst g))
      by (rewrite Hs; reflexivity).
    rewrite E. split; [reflexivity|]. apply count_key_pos. exact Hk.
Qed.

End DailySeries.

(** C1, as the code has it. For a customer the series of
    [prepare_enhanced_data] has exactly one row per calendar day from the
    first to the last order date, in order, each with the number of orders
    of that day (0 on a day without orders). For a facility the series of
    [prepare_laundry_data] has one row per date that has an order, dates
    strictly increasing, each with its count, which is at least 1; a day
    without orders has no row. *)
Theorem daily_series_customer_dense_facility_observed
    (data df : list OrderRecord) (laundry_id : string) (Hne : data <> []) :
  (exists lo hi rows,
     Frame.min_date (map StartDate data) = Some lo /\
     Frame.max_date (map StartDate data) = Some hi /\
     customer_analysis.prepare_enhanced_data data = Ok rows /\
     Z.of_nat (length rows) = hi - lo + 1 /\
     forall i r, nth_error rows i = Some r ->
       customer_analysis.ds r = lo + Z.of_nat i /\
       customer_analysis.orders r
         = Frame.of_int (Frame.count_key StartDate data (customer_analysis.ds r)))
  /\
  (let rows := laundry_analysis.prepare_laundry_data df laundry_id in
   StronglySorted Z.lt (map laundry_analysis.ds rows) /\
   (forall d, In d (map laundry_analysis.ds rows)
              <-> In d (map StartDate (rows_of_laundry df laundry_id))) /\
   forall r, In r rows ->
     laundry_analysis.y r
       = Frame.count_key StartDate (rows_of_laundry df laundry_id) (laundry_analysis.ds r)
     /\ 1 <= laundry_analysis.y r).
Proof.
  split.
  - destruct (prepare_enhanced_data_eq data Hne) as (lo & hi & Hmin & Hmax & Hle & Hp).
    exists lo, hi, (customer_analysis.enhanced_frame data lo hi).
    repeat split; try assumption.
    + rewrite enhanced_frame_length. lia.
    + destruct (enhanced_frame_row data lo hi i r Hle H) as (_ & Hd & _). exact Hd.
    + destruct (enhanced_frame_row data lo hi i r Hle H) as (_ & Hd & Ho & _).
      rewrite Hd. exact Ho.
  - destruct (prepare_laundry_data_spec df laundry_id) as [Hk Hr].
    cbv zeta. rewrite Hk. split; [apply group_keys_StronglySorted|].
    split; [intro d; apply group_keys_In|exact Hr].
Qed.

(** At facility L1 of the sample table the orders fall on days 20000,
    20002 and 20003: the series has those three rows and none for 20001,
    a day between the first and the last order date. *)
Lemma facility_series_skips_idle_day :
  rows_of_laundry sample_table "L1" <> [] /\
  Frame.min_date (map StartDate (rows_of_laundry sample_table "L1")) = Some 20000 /\
  Frame.max_date (map StartDate (rows_of_laundry sample_table "L1")) = Some 20003 /\
  map laundry_analysis.ds (laundry_analysis.prepare_laundry_data sample_table "L1")
    = [20000; 20002; 20003] /\
  ~ In 20001
      (map laundry_analysis.ds (laundry_analysis.prepare_laundry_data sample_table "L1")).
Proof.
  repeat split; try reflexivity.
  - discriminate.
  - vm_compute. intuition discriminate.
Qed.

Lemma daily_series_witness :
  rows_of_customer sample_table "T1" <> [] /\
  exists lo hi rows,
    Frame.min_date (map StartDate (rows_of_customer sample_table "T1")) = Some lo /\
    Frame.max_date (map StartDate (rows_of_customer sample_table "T1")) = Some hi /\
    customer_analysis.prepare_enhanced_data (rows_of_customer sample_table "T1")
      = Ok rows /\
    Z.of_nat (length rows) = hi - lo + 1 /\
    forall i r, nth_error rows i = Some r ->
      customer_analysis.ds r = lo + Z.of_nat i /\
      customer_analysis.orders r
        = Frame.of_int (Frame.count_key StartDate (rows_of_customer sample_table "T1")
                          (customer_analysis.ds r)).
Proof.
  assert (Hne : rows_of_customer sample_table "T1" <> []) by (vm_compute; discriminate).
  split; [exact Hne|].
  exact (proj1 (daily_series_customer_dense_facility_observed
                  (rows_of_customer sample_table "T1") sample_table "L1" Hne)).
Defined.

(** ** The features of the daily frame *)

Section Features.
Import Frame customer_analysis.

Lemma lag_cell_nonneg (i k : nat) (c : Z) :
  0 <= c -> nonneg (if (i <? k)%nat then Some 0%Q else of_int c).
Proof.
  intro Hc. destruct (i <? k)%nat; eexists; (split; [reflexivity|]).
  - apply Qle_refl.
  - unfold Qle. simpl. lia.
Qed.

Lemma count_key_nonneg {A : Type} (key : A -> Z) (rows : list A) (d : Z) :
  0 <= count_key key rows d.
Proof. unfold count_key. lia. Qed.

Lemma lag_cell_zero (i k : nat) (c : Z) :
  (i < k)%nat -> (if (i <? k)%nat then Some 0%Q else of_int c) = Some 0%Q.
Proof. intro Hi. apply Nat.ltb_lt in Hi. rewrite Hi. reflexivity. Qed.

(** Every row the builder returns: no NaN in any column, rolling means
    and lags that are not negative, and a lag of [k] days that is 0 on
    each of the first [k] days of the series. *)
Lemma enhanced_features_zero_filled (data : list OrderRecord)
    (rows : list FeatureRow) (i : nat) (r : FeatureRow) :
  prepare_enhanced_data data = Ok rows ->
  nth_error rows i = Some r ->
  has_na r = false /\
  time_idx (feats r) = Z.of_nat i /\
  nonneg (orders r) /\
  nonneg (orders_7d_avg (feats r)) /\ nonneg (orders_28d_avg (feats r)) /\
  nonneg (lag_1 (feats r)) /\ nonneg (lag_7 (feats r)) /\
  nonneg (lag_14 (feats r)) /\ nonneg (lag_28 (feats r)) /\
  (time_idx (feats r) < 1 -> lag_1 (feats r) = Some 0%Q) /\
  (time_idx (feats r) < 7 -> lag_7 (feats r) = Some 0%Q) /\
  (time_idx (feats r) < 14 -> lag_14 (feats r) = Some 0%Q) /\
  (time_idx (feats r) < 28 -> lag_28 (feats r) = Some 0%Q).
Proof.
  intros Hp Hr.
  assert (Hne : data <> []) by (intros ->; discriminate).
  destruct (prepare_enhanced_data_eq data Hne) as (lo & hi & _ & _ & Hle & Hp').
  rewrite Hp' in Hp. injection Hp as <-.
  destruct (enhanced_frame_row data lo hi i r Hle Hr)
    as (_ & _ & Ho & Ht & H7 & H28 & L1 & L7 & L14 & L28).
  assert (Hna : has_na r = false).
  { destruct H7 as [q7 [E7 _]]. destruct H28 as [q28 [E28 _]].
    unfold has_na. rewrite Ho, E7, E28, L1, L7, L14, L28.
    rewrite !lag_cell_present. reflexivity. }
  rewrite Ht, Ho, L1, L7, L14, L28.
  repeat split; try assumption;
    try (apply lag_cell_nonneg, count_key_nonneg);
    try (intro Hlt; apply lag_cell_zero; lia).
  eexists. split; [reflexivity|]. unfold Qle. simpl.
  pose proof (count_key_nonneg StartDate data (lo + Z.of_nat i)). lia.
Qed.

End Features.

(** ** The future feature rows of the customer forecaster *)

Section FutureRows.
Import Frame customer_analysis.

Lemma mapM_Ok {A B : Type} (f : A -> result B) (g : A -> B) (l : list A) :
  (forall a, f a = Ok (g a)) -> mapM f l = Ok (map g l).
Proof.
  intro Hf. induction l as [|a t IH]; simpl; [reflexivity|].
  rewrite Hf, IH. reflexivity.
Qed.

Lemma iloc_neg_Ok (col : list cell) (k : nat) :
  (1 <= k)%nat -> (k <= length col)%nat ->
  iloc_neg col k = Ok (at_ col (length col - k)).
Proof.
  intros H1 H2. unfold iloc_neg.
  apply Nat.leb_le in H1, H2. rewrite H1, H2. reflexivity.
Qed.

Lemma guarded_iloc_neg (col : list cell) (k : nat) :
  (1 <= k)%nat ->
  (if (k <=? length col)%nat then iloc_neg col k else Ok (of_int 0))
  = Ok (if (k <=? length col)%nat then at_ col (length col - k) else of_int 0).
Proof.
  intro H1. destruct (k <=? length col)%nat eqn:E; [|reflexivity].
  apply iloc_neg_Ok; [exact H1|apply Nat.leb_le; exact E].
Qed.

(** The feature row of a future date, when the history has a row. *)
Lemma future_features_Ok (daily_data : list FeatureRow) (holidays : list Z)
    (date : Z) :
  daily_data <> [] ->
  let n := length daily_data in
  let ords := map orders daily_data in
  future_features daily_data holidays date
  = Ok {| day_of_week := Calendar.weekday date;
          is_weekend := flag (isin (Calendar.weekday date) [5; 6]);
          month := Calendar.month date;
          day_of_month := Calendar.day date;
          time_idx := date - match min_date (map ds daily_data) with
                             | Some m => m | None => 0 end;
          orders_7d_avg :=
            at_ (map (fun r => orders_7d_avg (feats r)) daily_data) (n - 1);
          orders_28d_avg :=
            at_ (map (fun r => orders_28d_avg (feats r)) daily_data) (n - 1);
          lag_1 := at_ ords (n - 1);
          lag_7 := if (7 <=? n)%nat then at_ ords (n - 7) else of_int 0;
          lag_14 := if (14 <=? n)%nat then at_ ords (n - 14) else of_int 0;
          lag_28 := if (28 <=? n)%nat then at_ ords (n - 28) else of_int 0;
          is_holiday := flag (isin date holidays) |}.
Proof.
  intros Hne n ords.
  assert (Hn : (1 <= n)%nat).
  { subst n. destruct daily_data; [contradiction|simpl; lia]. }
  unfold future_features. fold n. fold ords.
  rewrite !iloc_neg_Ok by (rewrite ?length_map; fold n; lia).
  cbn [bind]. rewrite !length_map. fold n.
  assert (G : forall k, (1 <= k)%nat ->
    (if (k <=? n)%nat then iloc_neg ords k else Ok (of_int 0))
    = Ok (if (k <=? n)%nat then at_ ords (n - k) else of_int 0)).
  { intros k Hk. pose proof (guarded_iloc_neg ords k Hk) as G.
    subst ords. rewrite length_map in G. exact G. }
  assert (Hlen : length ords = n) by (subst ords; apply length_map).
  rewrite (iloc_neg_Ok ords 1) by lia. rewrite Hlen.
  rewrite !G by lia. reflexivity.
Qed.

End FutureRows.

Section FutureData.
Import Frame customer_analysis.

(** With a row of history the loop runs through: one feature row per
    date of the horizon. *)
Lemma future_data_total (daily_data : list FeatureRow) (holidays : list Z) :
  daily_data <> [] ->
  exists last rows,
    max_date (map ds daily_data) = Some last /\
    future_data daily_data holidays = Ok rows /\
    length rows = 90%nat.
Proof.
  intro Hne.
  destruct (max_date (map ds daily_data)) as [last|] eqn:Emax;
    [|destruct daily_data; [contradiction|discriminate]].
  pose proof (fun date => future_features_Ok daily_data holidays date Hne) as Hf.
  cbv zeta in Hf.
  exists last. eexists. split; [reflexivity|]. split.
  - unfold future_data, future_dates. rewrite Emax. cbn [bind].
    apply mapM_Ok. exact Hf.
  - unfold date_range_periods. rewrite !length_map, length_seq. reflexivity.
Qed.

End FutureData.

(** C6. When the history has a row, the loop of the customer forecaster
    builds 90 feature rows; in each of them the four lags and the two
    rolling means are the values at the end of the history (lag k the
    order count k rows from the end, or 0 when the history has fewer than
    k rows; the means those of the last row), hence the same in all 90
    rows, and the calendar features are those of that row's own date,
    the i-th day after the last historical date. *)
Theorem future_rows_share_last_known_lags
    (daily_data : list customer_analysis.FeatureRow) (holidays : list Z)
    (Hne : daily_data <> []) :
  let n := length daily_data in
  let ords := map customer_analysis.orders daily_data in
  let avg7 := map (fun r => customer_analysis.orders_7d_avg (customer_analysis.feats r))
                  daily_data in
  let avg28 := map (fun r => customer_analysis.orders_28d_avg (customer_analysis.feats r))
                   daily_data in
  exists first last rows,
    Frame.min_date (map customer_analysis.ds daily_data) = Some first /\
    Frame.max_date (map customer_analysis.ds daily_data) = Some last /\
    customer_analysis.future_data daily_data holidays = Ok rows /\
    length rows = 90%nat /\
    (forall i f, nth_error rows i = Some f ->
       let date := last + 1 + Z.of_nat i in
       customer_analysis.lag_1 f = Frame.at_ ords (n - 1) /\
       customer_analysis.lag_7 f
         = (if (7 <=? n)%nat then Frame.at_ ords (n - 7) else Some 0%Q) /\
       customer_analysis.lag_14 f
         = (if (14 <=? n)%nat then Frame.at_ ords (n - 14) else Some 0%Q) /\
       customer_analysis.lag_28 f
         = (if (28 <=? n)%nat then Frame.at_ ords (n - 28) else Some 0%Q) /\
       customer_analysis.orders_7d_avg f = Frame.at_ avg7 (n - 1) /\
       customer_analysis.orders_28d_avg f = Frame.at_ avg28 (n - 1) /\
       customer_analysis.day_of_week f = Calendar.weekday date /\
       customer_analysis.is_weekend f
         = customer_analysis.flag (Frame.isin (Calendar.weekday date) [5; 6]) /\
       customer_analysis.month f = Calendar.month date /\
       customer_analysis.day_of_month f = Calendar.day date /\
       customer_analysis.time_idx f = date - first /\
       customer_analysis.is_holiday f
         = customer_analysis.flag (Frame.isin date holidays)) /\
    (forall f g, In f rows -> In g rows ->
       customer_analysis.lag_1 f = customer_analysis.lag_1 g /\
       customer_analysis.lag_7 f = customer_analysis.lag_7 g /\
       customer_analysis.lag_14 f = customer_analysis.lag_14 g /\
       customer_analysis.lag_28 f = customer_analysis.lag_28 g /\
       customer_analysis.orders_7d_avg f = customer_analysis.orders_7d_avg g /\
       customer_analysis.orders_28d_avg f = customer_analysis.orders_28d_avg g).
Proof.
  intros n ords avg7 avg28.
  destruct (Frame.min_date (map customer_analysis.ds daily_data)) as [first|] eqn:Emin;
    [|destruct daily_data; [contradiction|discriminate]].
  destruct (Frame.max_date (map customer_analysis.ds daily_data)) as [last|] eqn:Emax;
    [|destruct daily_data; [contradiction|discriminate]].
  pose proof (fun date => future_features_Ok daily_data holidays date Hne) as Hf.
  cbv zeta in Hf. rewrite Emin in Hf.
  exists first, last. eexists.
  split; [reflexivity|]. split; [reflexivity|].
  split.
  { unfold customer_analysis.future_data, customer_analysis.future_dates.
    rewrite Emax. cbn [bind]. apply mapM_Ok. exact Hf. }
  split.
  { unfold Frame.date_range_periods. rewrite !length_map, length_seq. reflexivity. }
  match goal with |- ?A /\ _ => assert (Hrows : A) end.
  { intros i f Hi.
    unfold Frame.date_range_periods in Hi. rewrite map_map in Hi.
    apply nth_error_map_seq in Hi. destruct Hi as [_ ->].
    cbn. repeat split. }
  split; [exact Hrows|].
  intros f g Hin1 Hin2.
  apply In_nth_error in Hin1, Hin2.
  destruct Hin1 as [i Hi]. destruct Hin2 as [j Hj].
  destruct (Hrows i f Hi) as (A1 & A7 & A14 & A28 & B7 & B28 & _).
  destruct (Hrows j g Hj) as (C1 & C7 & C14 & C28 & D7 & D28 & _).
  rewrite A1, A7, A14, A28, B7, B28, C1, C7, C14, C28, D7, D28.
  repeat split.
Qed.

Lemma future_rows_share_last_known_lags_witness :
  exists first last rows,
    Frame.min_date (map customer_analysis.ds
      (customer_analysis.enhanced_frame (rows_of_customer sample_table "T1") 20000 20003))
      = Some first /\
    Frame.max_date (map customer_analysis.ds
      (customer_analysis.enhanced_frame (rows_of_customer sample_table "T1") 20000 20003))
      = Some last /\
    customer_analysis.future_data
      (customer_analysis.enhanced_frame (rows_of_customer sample_table "T1") 20000 20003) []
      = Ok rows /\
    length rows = 90%nat.
Proof.
  assert (Hne : customer_analysis.enhanced_frame
                  (rows_of_customer sample_table "T1") 20000 20003 <> [])
    by (vm_compute; discriminate).
  destruct (future_rows_share_last_known_lags _ [] Hne)
    as (first & last & rows & H1 & H2 & H3 & H4 & _).
  exists first, last, rows. repeat split; assumption.
Defined.

(** ** The forecast bands *)

Section Bands.
Import Frame.

Lemma customer_band (date : Z) (pred : Q) :
  exists p lo hi,
    customer_analysis.yhat (customer_analysis.forecast_row date pred) = Some p /\
    customer_analysis.yhat_lower (customer_analysis.forecast_row date pred) = Some lo /\
    customer_analysis.yhat_upper (customer_analysis.forecast_row date pred) = Some hi /\
    (0 <= p)%Q /\ (lo <= p)%Q /\ (p <= hi)%Q.
Proof.
  eexists _, _, _. cbn. repeat split.
  - apply Q.le_max_l.
  - apply Q.max_lub; [apply Q.le_max_l|].
    destruct (Qlt_le_dec pred 0) as [Hneg|Hpos].
    + apply Qle_trans with 0%Q; [lra|apply Q.le_max_l].
    + apply Qle_trans with pred; [lra|apply Q.le_max_r].
  - apply Q.max_lub; [apply Q.le_max_l|].
    destruct (Qlt_le_dec pred 0) as [Hneg|Hpos].
    + apply Qle_trans with 0%Q; [lra|apply Q.le_max_l].
    + apply Qle_trans with (pred * (13 # 10))%Q; [lra|apply Q.le_max_r].
Qed.

Lemma laundry_band (date : Z) (pred : Q) :
  (laundry_analysis.yhat_lower (laundry_analysis.forecast_row date pred)
   <= laundry_analysis.yhat (laundry_analysis.forecast_row date pred))%Q /\
  (laundry_analysis.yhat (laundry_analysis.forecast_row date pred)
   <= laundry_analysis.yhat_upper (laundry_analysis.forecast_row date pred))%Q.
Proof. cbn. split; lra. Qed.

Context {sk : Sklearn}.

(** The forecast rows of the customer forecaster are [forecast_row]s. *)
Lemma forecast_rows_shape (daily_data : list customer_analysis.FeatureRow)
    (customer_data : list OrderRecord) (rows : list customer_analysis.ForecastRow)
    (r : customer_analysis.ForecastRow) :
  customer_analysis.forecast_rows daily_data customer_data = Ok rows ->
  In r rows -> exists date pred, r = customer_analysis.forecast_row date pred.
Proof.
  unfold customer_analysis.forecast_rows.
  destruct (RandomForestRegressor_fit _ _) as [model|]; [|discriminate].
  destruct (customer_analysis.future_dates daily_data) as [dates|]; [|discriminate].
  cbn [bind].
  destruct (customer_analysis.future_data daily_data _) as [feats|]; [|discriminate].
  cbn [bind]. intros E Hr. injection E as <-.
  apply in_map_iff in Hr. destruct Hr as [[d p] [<- _]].
  exists d, p. reflexivity.
Qed.

Lemma laundry_forecast_shape (daily_data : list laundry_analysis.DemandRow)
    (forecast_days : nat) (data : list laundry_analysis.DataRow)
    (model : list cell -> Q) (forecast : list laundry_analysis.ForecastRow)
    (r : laundry_analysis.ForecastRow) :
  laundry_analysis.forecast_demand_laundry_rf daily_data forecast_days
    = Ok (data, model, forecast) ->
  In r forecast -> exists date pred, r = laundry_analysis.forecast_row date pred.
Proof.
  unfold laundry_analysis.forecast_demand_laundry_rf.
  destruct (RandomForestRegressor_fit _ _) as [m|]; [|discriminate].
  cbn [bind].
  destruct (max_date _) as [last|]; [|discriminate].
  destruct (predict _ _) as [ys|]; [|discriminate].
  cbn [bind].
  intros E Hr. injection E as _ _ <-.
  apply in_map_iff in Hr. destruct Hr as [[d q] [<- _]].
  exists d, q. reflexivity.
Qed.

End Bands.

(** C3. Whatever the fitted forest predicts: the frame the customer
    forecaster returns is the history followed by forecast rows, and every
    forecast row has a point prediction that is at least 0 and lies between
    its lower and its upper bound; every row of the facility forecast has
    its point prediction between its lower and its upper bound. *)
Theorem forecast_point_within_band (sk : Sklearn) :
  (forall daily_data customer_data actual forecast,
     customer_analysis.forecast_intermittent_demand daily_data customer_data
       = Ok (actual, forecast) ->
     exists rows,
       forecast = map customer_analysis.history_row daily_data ++ rows /\
       forall r, In r rows ->
         exists p lo hi,
           customer_analysis.yhat r = Some p /\
           customer_analysis.yhat_lower r = Some lo /\
           customer_analysis.yhat_upper r = Some hi /\
           (0 <= p)%Q /\ (lo <= p)%Q /\ (p <= hi)%Q)
  /\
  (forall daily_data forecast_days data model forecast,
     laundry_analysis.forecast_demand_laundry_rf daily_data forecast_days
       = Ok (data, model, forecast) ->
     forall r, In r forecast ->
       (laundry_analysis.yhat_lower r <= laundry_analysis.yhat r)%Q /\
       (laundry_analysis.yhat r <= laundry_analysis.yhat_upper r)%Q).
Proof.
  split.
  - intros daily_data customer_data actual forecast.
    unfold customer_analysis.forecast_intermittent_demand.
    destruct (customer_analysis.forecast_rows daily_data customer_data)
      as [rows|] eqn:E; [|discriminate].
    cbn [bind]. intro Eq. injection Eq as _ <-.
    exists rows. split; [reflexivity|].
    intros r Hr.
    destruct (forecast_rows_shape daily_data customer_data rows r E Hr) as (d & p & ->).
    apply customer_band.
  - intros daily_data forecast_days data model forecast E r Hr.
    destruct (laundry_forecast_shape _ _ _ _ _ r E Hr) as (d & p & ->).
    apply laundry_band.
Qed.

Lemma forecast_point_within_band_witness :
  (exists actual forecast rows,
     @customer_analysis.forecast_intermittent_demand mean_estimators
       (customer_analysis.enhanced_frame (rows_of_customer sample_table "T1") 20000 20003)
       (rows_of_customer sample_table "T1") = Ok (actual, forecast) /\
     forecast
       = map customer_analysis.history_row
           (customer_analysis.enhanced_frame (rows_of_customer sample_table "T1")
              20000 20003) ++ rows /\
     forall r, In r rows ->
       exists p lo hi,
         customer_analysis.yhat r = Some p /\
         customer_analysis.yhat_lower r = Some lo /\
         customer_analysis.yhat_upper r = Some hi /\
         (0 <= p)%Q /\ (lo <= p)%Q /\ (p <= hi)%Q)
  /\
  (exists data model forecast,
     @laundry_analysis.forecast_demand_laundry_rf mean_estimators
       (laundry_analysis.prepare_laundry_data sample_table "L1") 7
       = Ok (data, model, forecast) /\
     forall r, In r forecast ->
       (laundry_analysis.yhat_lower r <= laundry_analysis.yhat r)%Q /\
       (laundry_analysis.yhat r <= laundry_analysis.yhat_upper r)%Q).
Proof.
  split.
  - destruct (@customer_analysis.forecast_intermittent_demand mean_estimators
                (customer_analysis.enhanced_frame (rows_of_customer sample_table "T1")
                   20000 20003)
                (rows_of_customer sample_table "T1")) as [[actual forecast]|e] eqn:E;
      [|vm_compute in E; discriminate E].
    destruct (proj1 (forecast_point_within_band mean_estimators) _ _ _ _ E)
      as [rows [H1 H2]].
    exists actual, forecast, rows. repeat split; assumption.
  - destruct (@laundry_analysis.forecast_demand_laundry_rf mean_estimators
                (laundry_analysis.prepare_laundry_data sample_table "L1") 7)
      as [[[data model] forecast]|e] eqn:E; [|vm_compute in E; discriminate E].
    exists data, model, forecast. split; [reflexivity|].
    exact (proj2 (forecast_point_within_band mean_estimators) _ _ _ _ _ E).
Defined.

(** ** Training on short histories *)

Section Training.
Import Frame customer_analysis.
Context {sk : Sklearn}.

Lemma train_split_length (daily_data : list FeatureRow) :
  length (train_split daily_data) = int_mul_0_8 (length daily_data).
Proof.
  unfold train_split. rewrite length_combine, !length_firstn, !length_map.
  unfold int_mul_0_8.
  assert (Z.of_nat (length daily_data) * 8 / 10 <= Z.of_nat (length daily_data)).
  { apply Z.div_le_upper_bound; lia. }
  lia.
Qed.

(** From two days of history on the training split has a row, the forest
    is fitted and 90 forecast rows come back. *)
Lemma forecast_rows_total (daily_data : list FeatureRow)
    (customer_data : list OrderRecord) :
  (2 <= length daily_data)%nat ->
  exists rows,
    forecast_rows daily_data customer_data = Ok rows /\ length rows = 90%nat.
Proof.
  intro Hlen.
  assert (Hne : daily_data <> []) by (intros ->; simpl in Hlen; lia).
  destruct (future_data_total daily_data (holiday_dates customer_data) Hne)
    as (last & feats & Hmax & Hfd & Hflen).
  unfold forecast_rows, RandomForestRegressor_fit.
  destruct (train_split daily_data) as [|s t] eqn:Et.
  { apply (f_equal (@length _)) in Et. rewrite train_split_length in Et.
    unfold int_mul_0_8 in Et. simpl in Et.
    assert (1 <= Z.of_nat (length daily_data) * 8 / 10)
      by (apply Z.div_le_lower_bound; lia).
    lia. }
  cbn [check_samples bind]. unfold future_dates. rewrite Hmax. cbn [bind].
  rewrite Hfd. cbn [bind]. eexists. split; [reflexivity|].
  rewrite length_map, length_combine, length_map, Hflen.
  unfold date_range_periods. rewrite length_map, length_seq. reflexivity.
Qed.

End Training.

(** C7, at the input where the code misses it. Customer T3 of the sample
    table has a single order, so the daily series has one row; its lags
    are 0 and its rolling means present, but the 80 % training split of a
    one-row series is empty ([int(1 * 0.8)] is 0), the fit rejects it, and
    the forecaster raises instead of returning a forecast, whatever the
    estimator. *)
Theorem one_day_history_is_not_forecast (sk : Sklearn) :
  exists r,
    customer_analysis.prepare_enhanced_data (rows_of_customer sample_table "T3")
      = Ok [r] /\
    customer_analysis.has_na r = false /\
    customer_analysis.lag_1 (customer_analysis.feats r) = Some 0%Q /\
    customer_analysis.lag_28 (customer_analysis.feats r) = Some 0%Q /\
    customer_analysis.train_split [r] = [] /\
    customer_analysis.forecast_intermittent_demand [r]
      (rows_of_customer sample_table "T3") = Raise ValueError /\
    customer_analysis.customer_section 0 sample_table "T3" customer_analysis.Forecast
      = Raise ValueError.
Proof.
  eexists. split; [vm_compute; reflexivity|].
  repeat split.
Qed.

(** ** The resource analysis of a facility *)

Section ResourceAnalysis.
Import Frame laundry_analysis.
Context {sk : Sklearn}.

Lemma group_keys_nonempty (l : list Z) : l <> [] -> group_keys l <> [].
Proof.
  destruct l as [|h t]; [contradiction|]. intros _ E.
  assert (Hin : In h (group_keys (h :: t))) by (apply group_keys_In; left; reflexivity).
  rewrite E in Hin. exact Hin.
Qed.

Lemma daily_aggregate_nonempty (laundry_df : list OrderRecord) :
  laundry_df <> [] -> daily_aggregate laundry_df <> [].
Proof.
  intros Hne E. unfold daily_aggregate, groupby in E.
  apply map_eq_nil, map_eq_nil in E.
  apply (group_keys_nonempty (map StartDate laundry_df)); [|exact E].
  destruct laundry_df; [contradiction|discriminate].
Qed.


(** The count of a column is positive exactly when a cell of it is present. *)
Lemma notna_count_pos (col : list string) :
  1 <= notna_count col <-> exists c, In c col /\ c <> EmptyString.
Proof.
  unfold notna_count. split.
  - intro Hpos.
    destruct (filter (fun c => negb (String.eqb c EmptyString)) col) as [|c t] eqn:E;
      [cbn in Hpos; lia|].
    assert (Hin : In c (filter (fun c => negb (String.eqb c EmptyString)) col))
      by (rewrite E; left; reflexivity).
    apply filter_In in Hin. destruct Hin as [Hin Hc].
    exists c. split; [exact Hin|].
    intro Ec. subst c. discriminate Hc.
  - intros [c [Hin Hc]].
    assert (Hf : In c (filter (fun c => negb (String.eqb c EmptyString)) col)).
    { apply filter_In. split; [exact Hin|].
      destruct (String.eqb c EmptyString) eqn:Ec; [|reflexivity].
      apply String.eqb_eq in Ec. contradiction. }
    destruct (filter (fun c => negb (String.eqb c EmptyString)) col);
      [contradiction|]. cbn [length]. lia.
Qed.

(** Each aggregated day is a date of the table, with the present
    identifiers of the rows of that date counted. *)
Lemma daily_aggregate_row (laundry_df : list OrderRecord) (a : Z * Z * Q * Q) :
  In a (daily_aggregate laundry_df) ->
  In (fst (fst (fst a))) (map StartDate laundry_df) /\
  snd (fst (fst a))
  = notna_count
      (map TenantID (filter (fun r => StartDate r =? fst (fst (fst a))) laundry_df)).
Proof.
  unfold daily_aggregate. intro Ha. apply in_map_iff in Ha.
  destruct Ha as [g [<- Hg]]. apply groupby_In in Hg. destruct Hg as [Hk Hs].
  cbn [fst snd]. rewrite Hs. split; [exact Hk|reflexivity].
Qed.

(** The rows of the analysis, when the three fits go through. *)
Lemma laundry_resource_analysis_rows (df : list OrderRecord) (laundry_id : string)
    (rows : list UsageRow) (u : UsageRow) :
  laundry_resource_analysis df laundry_id = Ok rows -> In u rows ->
  exists a,
    In a (daily_aggregate (rows_of_laundry df laundry_id)) /\
    OrderCount u = snd (fst (fst a)) /\
    AnomalyLabel u = anomaly_label (Anomaly u) /\
    Alert u = check_alerts (Anomaly u) (OrderCount u).
Proof.
  unfold laundry_resource_analysis.
  cbv zeta.
  destruct (LinearRegression_fit _) as [ew|]; [|discriminate]. cbn [bind].
  destruct (LinearRegression_fit _) as [ee|]; [|discriminate]. cbn [bind].
  destruct (IsolationForest_fit _ _ _) as [det|]; [|discriminate]. cbn [bind].
  intros E Hu. injection E as <-.
  apply in_map_iff in Hu. destruct Hu as [a [<- Ha]].
  exists a. repeat split. exact Ha.
Qed.

(** The date and the order count of a row of the analysis. *)
Lemma laundry_resource_analysis_row_count (df : list OrderRecord)
    (laundry_id : string) (rows : list UsageRow) (u : UsageRow) :
  laundry_resource_analysis df laundry_id = Ok rows -> In u rows ->
  let day := filter (fun r => StartDate r =? u_date u) (rows_of_laundry df laundry_id) in
  day <> [] /\ OrderCount u = notna_count (map TenantID day).
Proof.
  unfold laundry_resource_analysis.
  cbv zeta.
  destruct (LinearRegression_fit _) as [ew|]; [|discriminate]. cbn [bind].
  destruct (LinearRegression_fit _) as [ee|]; [|discriminate]. cbn [bind].
  destruct (IsolationForest_fit _ _ _) as [det|]; [|discriminate]. cbn [bind].
  intros E Hu. injection E as <-.
  apply in_map_iff in Hu. destruct Hu as [a [<- Ha]].
  cbn [u_date OrderCount].
  destruct (daily_aggregate_row _ a Ha) as [Hk Hc].
  split; [|exact Hc].
  apply in_map_iff in Hk. destruct Hk as [r [Hr Hin]].
  intro E.
  assert (Hf : In r (filter (fun r => StartDate r =? fst (fst (fst a)))
                            (rows_of_laundry df laundry_id))).
  { apply filter_In. split; [exact Hin|]. apply Z.eqb_eq. exact Hr. }
  rewrite E in Hf. exact Hf.
Qed.

Lemma laundry_resource_analysis_total (df : list OrderRecord) (laundry_id : string) :
  rows_of_laundry df laundry_id <> [] ->
  exists rows, laundry_resource_analysis df laundry_id = Ok rows /\ rows <> [].
Proof.
  intro Hne. apply daily_aggregate_nonempty in Hne.
  unfold laundry_resource_analysis.
  cbv zeta.
  destruct (daily_aggregate (rows_of_laundry df laundry_id)) as [|a t];
    [contradiction|].
  cbn. eexists. split; [reflexivity|discriminate].
Qed.

Lemma laundry_resource_analysis_unknown (df : list OrderRecord) (laundry_id : string) :
  rows_of_laundry df laundry_id = [] ->
  laundry_resource_analysis df laundry_id = Raise ValueError.
Proof.
  intro E. unfold laundry_resource_analysis.
  rewrite E. reflexivity.
Qed.

Lemma check_alerts_alert (anomaly order_count : Z) :
  check_alerts anomaly order_count = alert_text
  <-> anomaly_label anomaly = Some "Anomaly"%string /\ order_count < 5.
Proof.
  unfold check_alerts, anomaly_label.
  destruct (anomaly =? -1) eqn:Ea.
  - apply Z.eqb_eq in Ea. subst anomaly. cbn.
    destruct (order_count <? 5) eqn:Ec.
    + apply Z.ltb_lt in Ec. intuition.
    + apply Z.ltb_ge in Ec. split; [discriminate|]. intros [_ Hc]. lia.
  - cbn. split; [discriminate|]. intros [Hl _].
    destruct (anomaly =? 1); discriminate.
Qed.

Lemma check_alerts_normal (anomaly order_count : Z) :
  check_alerts anomaly order_count = normal_text
  <-> ~ (anomaly_label anomaly = Some "Anomaly"%string /\ order_count < 5).
Proof.
  rewrite <- check_alerts_alert. unfold check_alerts.
  destruct ((anomaly =? -1) && (order_count <? 5)).
  - split; [discriminate|]. intro Hn. exfalso. apply Hn. reflexivity.
  - split; [discriminate|reflexivity].
Qed.

End ResourceAnalysis.

(** C4. In every row of the resource analysis the alert column holds the
    alert text exactly when the anomaly label is "Anomaly" and the order
    count is below 5, and the normal text exactly when that is not so. *)
Theorem alert_iff_anomaly_on_low_order_day (sk : Sklearn) (df : list OrderRecord)
    (laundry_id : string) (rows : list laundry_analysis.UsageRow)
    (u : laundry_analysis.UsageRow)
    (Hrows : laundry_analysis.laundry_resource_analysis df laundry_id = Ok rows)
    (Hu : In u rows) :
  (laundry_analysis.Alert u = laundry_analysis.alert_text
   <-> laundry_analysis.AnomalyLabel u = Some "Anomaly"%string
       /\ laundry_analysis.OrderCount u < 5) /\
  (laundry_analysis.Alert u = laundry_analysis.normal_text
   <-> ~ (laundry_analysis.AnomalyLabel u = Some "Anomaly"%string
          /\ laundry_analysis.OrderCount u < 5)) /\
  (laundry_analysis.Alert u = laundry_analysis.alert_text
   \/ laundry_analysis.Alert u = laundry_analysis.normal_text).
Proof.
  destruct (laundry_resource_analysis_rows df laundry_id rows u Hrows Hu)
    as (a & _ & _ & Hl & Ha).
  rewrite Ha, Hl. split; [apply check_alerts_alert|]. split; [apply check_alerts_normal|].
  unfold laundry_analysis.check_alerts.
  destruct ((laundry_analysis.Anomaly u =? -1) && (laundry_analysis.OrderCount u <? 5));
    [left|right]; reflexivity.
Qed.

Lemma alert_iff_anomaly_on_low_order_day_witness :
  exists rows u,
    @laundry_analysis.laundry_resource_analysis mean_estimators sample_table "L1"
      = Ok rows /\
    In u rows /\
    laundry_analysis.Alert u = laundry_analysis.alert_text /\
    laundry_analysis.AnomalyLabel u = Some "Anomaly"%string /\
    laundry_analysis.OrderCount u < 5.
Proof.
  destruct (@laundry_analysis.laundry_resource_analysis mean_estimators sample_table "L1")
    as [rows|e] eqn:E; [|vm_compute in E; discriminate E].
  assert (Hne : exists u, nth_error rows 0 = Some u
                          /\ laundry_analysis.Alert u = laundry_analysis.alert_text).
  { vm_compute in E. injection E as <-. eexists. split; reflexivity. }
  destruct Hne as [u [Hn Ha]]. apply nth_error_In in Hn.
  exists rows, u. split; [reflexivity|]. split; [exact Hn|]. split; [exact Ha|].
  exact (proj1 (proj1 (alert_iff_anomaly_on_low_order_day mean_estimators
                         sample_table "L1" rows u E Hn)) Ha).
Defined.

Section Efficiency.
Import Frame laundry_analysis.

Lemma np_div_defined (x : Q) (n : Z) :
  1 <= n -> np_div x n = Some (x / inject_Z n)%Q.
Proof.
  intro Hn. unfold np_div. destruct (n =? 0) eqn:E; [|reflexivity].
  apply Z.eqb_eq in E. lia.
Qed.


End Efficiency.




(** ** Unknown identifiers *)

Section UnknownIdentifier.
Import Frame.
Context {sk : Sklearn}.

Lemma prepare_laundry_data_unknown (df : list OrderRecord) (laundry_id : string) :
  rows_of_laundry df laundry_id = [] ->
  laundry_analysis.prepare_laundry_data df laundry_id = [].
Proof.
  intro E. unfold laundry_analysis.prepare_laundry_data.
  rewrite E. reflexivity.
Qed.

(** The customer section reports an unknown customer before any
    analysis runs. *)
Lemma customer_section_unknown (now : instant) (df : list OrderRecord)
    (tenant_id : string) (tab : customer_analysis.subsection) :
  tenant_id <> EmptyString ->
  rows_of_customer df tenant_id = [] ->
  customer_analysis.customer_section now df tenant_id tab
  = Ok (customer_analysis.NoDataFound tenant_id).
Proof.
  intros Hid E. unfold customer_analysis.customer_section.
  rewrite E.
  apply String.eqb_neq in Hid. rewrite Hid. reflexivity.
Qed.

End UnknownIdentifier.

(** C2, at the inputs where the code misses it. For an identifier with no
    row in the table the customer section and the two peak views of the
    facility section report that no data was found; the resource view of
    the facility section does not: [laundry_resource_analysis] fits its
    regression on the empty daily frame before the view tests for
    emptiness, the fit rejects the empty sample, and the request raises. *)
Theorem unknown_identifier_outcomes (sk : Sklearn) (now : instant)
    (df : list OrderRecord) (tenant_id laundry_id : string)
    (tab : customer_analysis.subsection) (slider : Z)
    (Ht : tenant_id <> EmptyString) (Hl : laundry_id <> EmptyString)
    (Hut : rows_of_customer df tenant_id = [])
    (Hul : rows_of_laundry df laundry_id = []) :
  customer_analysis.customer_section now df tenant_id tab
    = Ok (customer_analysis.NoDataFound tenant_id) /\
  laundry_analysis.laundry_section df laundry_id laundry_analysis.PeakForecast slider
    = Ok (laundry_analysis.NoDataFound laundry_id) /\
  laundry_analysis.laundry_section df laundry_id laundry_analysis.PeakAlerts slider
    = Ok (laundry_analysis.NoDataFound laundry_id) /\
  laundry_analysis.laundry_resource_analysis df laundry_id = Raise ValueError /\
  laundry_analysis.show_resource_analysis df laundry_id slider = Raise ValueError /\
  laundry_analysis.laundry_section df laundry_id laundry_analysis.Resources slider
    = Raise ValueError.
Proof.
  apply String.eqb_neq in Hl.
  split; [apply customer_section_unknown; assumption|].
  unfold laundry_analysis.laundry_section. rewrite Hl.
  unfold laundry_analysis.show_peak_forecast, laundry_analysis.show_peak_alerts,
    laundry_analysis.show_resource_analysis.
  rewrite (prepare_laundry_data_unknown df laundry_id Hul).
  rewrite (laundry_resource_analysis_unknown df laundry_id Hul).
  repeat split.
Qed.

Lemma unknown_identifier_outcomes_witness :
  @laundry_analysis.laundry_section mean_estimators sample_table "L999"
     laundry_analysis.Resources 3 = Raise ValueError /\
  @customer_analysis.customer_section mean_estimators 0 sample_table "T999"
     customer_analysis.Forecast = Ok (customer_analysis.NoDataFound "T999").
Proof.
  assert (Ht : "T999"%string <> EmptyString) by discriminate.
  assert (Hl : "L999"%string <> EmptyString) by discriminate.
  pose proof (unknown_identifier_outcomes mean_estimators 0 sample_table
                "T999" "L999" customer_analysis.Forecast 3 Ht Hl eq_refl eq_refl)
    as (H1 & _ & _ & _ & _ & H6).
  split; [exact H6|exact H1].
Defined.

(** ** Peak and low-demand days *)

Section Thresholds.
Import Frame laundry_analysis.

Lemma Qlt_bool_iff (a b : Q) : Qlt_bool a b = true <-> (a < b)%Q.
Proof.
  unfold Qlt_bool. rewrite negb_true_iff. split.
  - intro E. apply Qnot_le_lt. intro Hle. apply Qle_bool_iff in Hle. congruence.
  - intro Hlt. destruct (Qle_bool b a) eqn:E; [|reflexivity].
    apply Qle_bool_iff in E. apply Qle_not_lt in E. contradiction.
Qed.

Lemma peak_days_In (t : Q) (forecast : list ForecastRow) (r : ForecastRow) :
  In r (peak_days t forecast) <-> In r forecast /\ (t < yhat r)%Q.
Proof. unfold peak_days. rewrite filter_In, Qlt_bool_iff. reflexivity. Qed.

Lemma low_demand_days_In (t : Q) (forecast : list ForecastRow) (r : ForecastRow) :
  In r (low_demand_days t forecast) <-> In r forecast /\ (yhat r < t)%Q.
Proof. unfold low_demand_days. rewrite filter_In, Qlt_bool_iff. reflexivity. Qed.

End Thresholds.

(** C5, as the code has it. The peak days of a forecast are exactly its
    rows whose prediction is strictly above the threshold, the low-demand
    days exactly its rows whose prediction is strictly below it, by plain
    comparison of each row on its own; a row whose prediction equals the
    threshold is in neither set. The peak views select the peak days of
    the 30-day forecast, the low-demand detection the low days of the
    7-day forecast. *)
Theorem peak_above_low_below_strictly (sk : Sklearn) :
  (forall (threshold : Q) forecast r,
     (In r (laundry_analysis.peak_days threshold forecast)
      <-> In r forecast /\ (threshold < laundry_analysis.yhat r)%Q) /\
     (In r (laundry_analysis.low_demand_days threshold forecast)
      <-> In r forecast /\ (laundry_analysis.yhat r < threshold)%Q) /\
     (laundry_analysis.yhat r == threshold ->
      ~ In r (laundry_analysis.peak_days threshold forecast) /\
      ~ In r (laundry_analysis.low_demand_days threshold forecast))%Q)
  /\
  (forall df laundry_id (peak_threshold : Z) peaks,
     laundry_analysis.show_peak_alerts df laundry_id peak_threshold
       = Ok (laundry_analysis.PeakAlertsPage peaks) ->
     exists data model forecast,
       laundry_analysis.forecast_demand_laundry_rf
         (laundry_analysis.prepare_laundry_data df laundry_id) 30
         = Ok (data, model, forecast) /\
       peaks = laundry_analysis.peak_days (inject_Z peak_threshold) forecast)
  /\
  (forall df laundry_id (peak_threshold : Z) daily forecast peaks,
     laundry_analysis.show_peak_forecast df laundry_id peak_threshold
       = Ok (laundry_analysis.PeakForecastPage daily forecast peaks) ->
     peaks = laundry_analysis.peak_days (inject_Z peak_threshold) forecast)
  /\
  (forall df laundry_id (threshold : Q) forecast low,
     laundry_analysis.detect_low_demand_days df laundry_id threshold
       = Ok (Some (forecast, low)) ->
     low = laundry_analysis.low_demand_days threshold forecast).
Proof.
  split; [|split; [|split]].
  - intros threshold forecast r.
    split; [apply peak_days_In|]. split; [apply low_demand_days_In|].
    intro Heq. rewrite peak_days_In, low_demand_days_In.
    split; intros [_ Hlt]; rewrite Heq in Hlt; exact (Qlt_irrefl _ Hlt).
  - intros df laundry_id t peaks. unfold laundry_analysis.show_peak_alerts.
    destruct (laundry_analysis.prepare_laundry_data df laundry_id) as [|d0 dl];
      [discriminate|].
    destruct (laundry_analysis.forecast_demand_laundry_rf (d0 :: dl) 30)
      as [[[data model] forecast]|]; [|discriminate].
    cbn [bind snd]. intro E. injection E as <-.
    exists data, model, forecast. split; reflexivity.
  - intros df laundry_id t daily forecast peaks.
    unfold laundry_analysis.show_peak_forecast.
    destruct (laundry_analysis.prepare_laundry_data df laundry_id) as [|d0 dl];
      [discriminate|].
    destruct (laundry_analysis.forecast_demand_laundry_rf (d0 :: dl) 30)
      as [[[data model] fc]|]; [|discriminate].
    cbn [bind fst snd]. intro E. injection E as _ <- <-. reflexivity.
  - intros df laundry_id t forecast low.
    unfold laundry_analysis.detect_low_demand_days.
    destruct (laundry_analysis.prepare_laundry_data df laundry_id) as [|d0 dl];
      [discriminate|].
    destruct (laundry_analysis.forecast_demand_laundry_rf (d0 :: dl) 7)
      as [[[data model] fc]|]; [|discriminate].
    cbn [bind snd]. intro E. injection E as <- <-. reflexivity.
Qed.

(** Facility L3 of the sample table has one order; with the stand-in
    forest every day of its 30-day forecast is predicted at 1. At the
    threshold 1 those rows are at the threshold, and none of them is a
    peak day: the peak view lists no day. *)
Lemma row_at_threshold_is_no_peak :
  exists data model forecast r,
    @laundry_analysis.forecast_demand_laundry_rf mean_estimators
      (laundry_analysis.prepare_laundry_data sample_table "L3") 30
      = Ok (data, model, forecast) /\
    In r forecast /\
    (laundry_analysis.yhat r == inject_Z 1)%Q /\
    ~ In r (laundry_analysis.peak_days (inject_Z 1) forecast) /\
    @laundry_analysis.show_peak_alerts mean_estimators sample_table "L3" 1
      = Ok (laundry_analysis.PeakAlertsPage []).
Proof.
  eexists _, _, _, _.
  split; [vm_compute; reflexivity|].
  split; [left; reflexivity|].
  split; [reflexivity|].
  split; [|reflexivity].
  vm_compute. intro H. exact H.
Qed.

Lemma peak_above_low_below_strictly_witness :
  exists peaks,
    @laundry_analysis.show_peak_alerts mean_estimators sample_table "L1" 1
      = Ok (laundry_analysis.PeakAlertsPage peaks) /\
    exists data model forecast,
      @laundry_analysis.forecast_demand_laundry_rf mean_estimators
        (laundry_analysis.prepare_laundry_data sample_table "L1") 30
        = Ok (data, model, forecast) /\
      peaks = laundry_analysis.peak_days (inject_Z 1) forecast.
Proof.
  destruct (@laundry_analysis.show_peak_alerts mean_estimators sample_table "L1" 1)
    as [pg|e] eqn:E; [|vm_compute in E; discriminate E].
  destruct pg as [| | |peaks|]; try (vm_compute in E; discriminate E).
  exists peaks. split; [reflexivity|].
  exact (proj1 (proj2 (peak_above_low_below_strictly mean_estimators))
           sample_table "L1"%string 1 peaks E).
Defined.

(** ** The clock *)

Section Clock.
Import Frame customer_analysis.

Lemma us_per_day_pos : 0 < us_per_day.
Proof. reflexivity. Qed.

(** Whole days from the midnight of day [d] to a clock reading. *)
Lemma days_from_midnight (today : instant) (d : Z) :
  (today - midnight d) / us_per_day = today / us_per_day - d.
Proof.
  unfold midnight.
  replace (today - d * us_per_day) with (today + (- d) * us_per_day) by ring.
  rewrite Z.div_add by (pose proof us_per_day_pos; lia). ring.
Qed.

(** A clock reading is before the midnight of day [d] exactly when its
    own day is before [d]. *)
Lemma before_midnight (now : instant) (d : Z) :
  (now <? midnight d) = (now / us_per_day <? d).
Proof.
  unfold midnight. pose proof us_per_day_pos as Hp.
  destruct (now / us_per_day <? d) eqn:E.
  - apply Z.ltb_lt in E. apply Z.ltb_lt.
    destruct (Z_lt_le_dec now (d * us_per_day)) as [Hlt|Hge]; [exact Hlt|].
    assert (d <= now / us_per_day) by (apply Z.div_le_lower_bound; lia). lia.
  - apply Z.ltb_ge in E. apply Z.ltb_ge.
    pose proof (Z.mul_div_le now us_per_day Hp).
    apply Z.le_trans with (us_per_day * (now / us_per_day)); [|assumption].
    rewrite (Z.mul_comm us_per_day). apply Z.mul_le_mono_nonneg_r; lia.
Qed.

Lemma insights_same_day (now1 now2 : instant) (data : list OrderRecord) :
  now1 / us_per_day = now2 / us_per_day ->
  generate_customer_insights now1 data = generate_customer_insights now2 data.
Proof.
  intro Hd. unfold generate_customer_insights.
  destruct (max_date (map StartDate data)) as [d|]; [|reflexivity].
  rewrite !days_from_midnight, Hd. reflexivity.
Qed.

Lemma future_resource_same_day (now1 now2 : instant) (forecast : list ForecastRow)
    (w e : cell) :
  now1 / us_per_day = now2 / us_per_day ->
  calculate_future_resource now1 forecast w e
  = calculate_future_resource now2 forecast w e.
Proof.
  intro Hd. unfold calculate_future_resource. f_equal.
  apply filter_ext. intro r. rewrite !before_midnight, Hd. reflexivity.
Qed.

End Clock.

(** C8, as the code has it. The analyses are functions of the table, the
    selection and the clock reading of the run. "Days since last order" is
    the number of whole days from the last order date to the clock
    reading, and [calculate_future_resource] keeps exactly the forecast
    rows whose date lies after the clock reading, so both move with the
    time of the run; two runs whose clock readings fall on the same
    calendar day give identical outputs. *)
Theorem outputs_fixed_by_inputs_and_run_day (sk : Sklearn) (now1 now2 : instant)
    (Hday : now1 / us_per_day = now2 / us_per_day) :
  (forall df tenant_id tab,
     customer_analysis.customer_section now1 df tenant_id tab
     = customer_analysis.customer_section now2 df tenant_id tab) /\
  (forall data,
     customer_analysis.generate_customer_insights now1 data
     = customer_analysis.generate_customer_insights now2 data) /\
  (forall forecast w e,
     customer_analysis.calculate_future_resource now1 forecast w e
     = customer_analysis.calculate_future_resource now2 forecast w e) /\
  (forall data last,
     Frame.max_date (map StartDate data) = Some last ->
     customer_analysis.days_since (customer_analysis.generate_customer_insights now1 data)
     = Some (now1 / us_per_day - last)) /\
  (forall forecast w e fr,
     In fr (customer_analysis.calculate_future_resource now1 forecast w e)
     <-> exists r,
           In r forecast /\ now1 < midnight (customer_analysis.f_ds r) /\
           fr = {| customer_analysis.fr_row := r;
                   customer_analysis.Water_Needed :=
                     customer_analysis.cell_mul (customer_analysis.yhat r) w;
                   customer_analysis.Electricity_Needed :=
                     customer_analysis.cell_mul (customer_analysis.yhat r) e |}).
Proof.
  split; [|split; [|split; [|split]]].
  - intros df tenant_id tab. unfold customer_analysis.customer_section.
    destruct (String.eqb tenant_id EmptyString); [reflexivity|].
    destruct (rows_of_customer df tenant_id) as [|o t]; [reflexivity|].
    destruct tab; try reflexivity.
    + unfold customer_analysis.show_historical_analysis.
      rewrite (insights_same_day now1 now2 _ Hday). reflexivity.
    + unfold customer_analysis.show_resource_analysis.
      destruct (customer_analysis.prepare_enhanced_data (o :: t)) as [d|];
        [|reflexivity].
      cbn [bind].
      destruct (customer_analysis.forecast_intermittent_demand d (o :: t)) as [af|];
        [|reflexivity].
      cbn [bind].
      destruct (customer_analysis.customer_resource_analysis (o :: t)) as [[u w] e].
      rewrite (future_resource_same_day now1 now2 _ w e Hday). reflexivity.
  - intro data. apply insights_same_day. exact Hday.
  - intros forecast w e. apply future_resource_same_day. exact Hday.
  - intros data last Hmax. unfold customer_analysis.generate_customer_insights.
    rewrite Hmax. cbn [customer_analysis.days_since].
    rewrite days_from_midnight. reflexivity.
  - intros forecast w e fr. unfold customer_analysis.calculate_future_resource.
    rewrite in_map_iff. split.
    + intros [r [<- Hr]]. apply filter_In in Hr. destruct Hr as [Hin Hlt].
      apply Z.ltb_lt in Hlt. exists r. repeat split; assumption.
    + intros [r [Hin [Hlt ->]]]. exists r. split; [reflexivity|].
      apply filter_In. split; [exact Hin|]. apply Z.ltb_lt. exact Hlt.
Qed.

(** The same customer of the same table, looked at on 14 October 2024 and
    again on 24 October 2024: 7 days since the last order the first time,
    17 the second; and of a forecast row dated 20 October the resource
    projection is kept the first time and dropped the second. *)
Lemma same_inputs_later_run_other_output :
  customer_analysis.days_since
    (customer_analysis.generate_customer_insights (midnight 20010)
       (rows_of_customer sample_table "T1")) = Some 7 /\
  customer_analysis.days_since
    (customer_analysis.generate_customer_insights (midnight 20020)
       (rows_of_customer sample_table "T1")) = Some 17 /\
  @customer_analysis.customer_section mean_estimators (midnight 20010) sample_table "T1"
     customer_analysis.Historical
  <> @customer_analysis.customer_section mean_estimators (midnight 20020) sample_table "T1"
       customer_analysis.Historical /\
  length (customer_analysis.calculate_future_resource (midnight 20010)
            [customer_analysis.forecast_row 20016 1] (Some 40%Q) (Some 2%Q)) = 1%nat /\
  length (customer_analysis.calculate_future_resource (midnight 20020)
            [customer_analysis.forecast_row 20016 1] (Some 40%Q) (Some 2%Q)) = 0%nat.
Proof.
  repeat split; try reflexivity.
  vm_compute. discriminate.
Qed.

Lemma outputs_fixed_by_inputs_and_run_day_witness :
  (midnight 20010 + 1) / us_per_day = (midnight 20010 + 3600000000) / us_per_day /\
  customer_analysis.generate_customer_insights (midnight 20010 + 1)
    (rows_of_customer sample_table "T1")
  = customer_analysis.generate_customer_insights (midnight 20010 + 3600000000)
      (rows_of_customer sample_table "T1").
Proof.
  assert (Hday : (midnight 20010 + 1) / us_per_day
                 = (midnight 20010 + 3600000000) / us_per_day) by reflexivity.
  split; [exact Hday|].
  exact (proj1 (proj2 (outputs_fixed_by_inputs_and_run_day mean_estimators _ _ Hday))
           (rows_of_customer sample_table "T1")).
Defined.

(** ** The inventory lines of the report *)

Section Inventory.
Import Frame customer_analysis.

Lemma round_cell_Ok (c : cell) (z : Z) :
  round_cell c = Ok z -> exists q, c = Some q /\ z = py_round q.
Proof.
  destruct c as [q|]; [|discriminate]. intro E. injection E as <-.
  exists q. split; reflexivity.
Qed.

End Inventory.

(** C9, as the code has it. In a report that is produced, the minimum
    daily stock is the larger of 1 and the rounded average of the lower
    bounds of the forecast period (so never 0: it is 1 when that average
    rounds to 0 or below), the weekly restocking range runs from the
    rounded 0.8 times to the rounded 1.2 times the average daily forecast
    times 7, and the buffer stock is the rounded double of the average of
    the upper bounds. *)
Theorem inventory_sizing (actual : list (Z * option Q))
    (forecast : list customer_analysis.ForecastRow) (customer_id : string)
    (customer_data : list OrderRecord) (report : customer_analysis.Report)
    (Hreport : customer_analysis.generate_business_report actual forecast
                 customer_id customer_data = Ok report) :
  let period := customer_analysis.forecast_period actual forecast in
  exists avg_daily avg_lower avg_upper,
    Frame.mean (map customer_analysis.yhat period) = Some avg_daily /\
    Frame.mean (map customer_analysis.yhat_lower period) = Some avg_lower /\
    Frame.mean (map customer_analysis.yhat_upper period) = Some avg_upper /\
    customer_analysis.min_stock report = Z.max 1 (py_round avg_lower) /\
    customer_analysis.weekly_stock report
      = (py_round (avg_daily * (7 # 1) * (8 # 10)),
         py_round (avg_daily * (7 # 1) * (12 # 10))) /\
    customer_analysis.buffer_stock report = py_round (avg_upper * (2 # 1)) /\
    1 <= customer_analysis.min_stock report /\
    (py_round avg_lower <= 0 -> customer_analysis.min_stock report = 1).
Proof.
  intro period. revert Hreport.
  unfold customer_analysis.generate_business_report. fold period.
  destruct (customer_analysis.year_month
              (Frame.min_date (map customer_analysis.f_ds period))) as [sd|];
    [|discriminate].
  destruct (customer_analysis.year_month
              (Frame.max_date (map customer_analysis.f_ds period))) as [ed|];
    [|discriminate].
  cbn [bind].
  destruct (customer_analysis.round_cell
              (Frame.mean (map customer_analysis.yhat_lower period))) as [rl|] eqn:El;
    [|discriminate].
  cbn [bind].
  destruct (Frame.mean (map customer_analysis.yhat period)) as [ad|];
    [|discriminate].
  cbn [bind customer_analysis.cell_map customer_analysis.round_cell].
  destruct (Frame.mean (map customer_analysis.yhat_upper period)) as [au|];
    [|discriminate].
  cbn [bind customer_analysis.cell_map customer_analysis.round_cell].
  intro E. injection E as <-.
  apply round_cell_Ok in El. destruct El as [al [Hal ->]].
  exists ad, al, au. cbn.
  repeat split; try assumption; lia.
Qed.

(** Customer T1 of the sample table with the stand-in forest: every
    forecast day is predicted at 2/3 with lower bound 7/15, the average of
    the lower bounds rounds to 0, and the report recommends a minimum
    stock of 1. *)
Lemma min_stock_one_when_lower_average_rounds_to_zero :
  exists report avg_lower,
    @customer_analysis.show_business_report mean_estimators
      (rows_of_customer sample_table "T1") "T1"
      = Ok (customer_analysis.ReportPage report) /\
    customer_analysis.avg_lower report = Some avg_lower /\
    (avg_lower == 7 # 15)%Q /\
    py_round avg_lower = 0 /\
    customer_analysis.min_stock report = 1 /\
    customer_analysis.min_stock report <> py_round avg_lower.
Proof.
  eexists _, _.
  split; [vm_compute; reflexivity|].
  split; [reflexivity|].
  split; [vm_compute; reflexivity|].
  split; [vm_compute; reflexivity|].
  split; [reflexivity|].
  vm_compute. discriminate.
Qed.

Lemma inventory_sizing_witness :
  exists report avg_daily avg_lower avg_upper,
    customer_analysis.generate_business_report
      [(20000, Some 1%Q)]
      [customer_analysis.forecast_row 20001 (3 # 1);
       customer_analysis.forecast_row 20002 (5 # 1)] "T1" [] = Ok report /\
    Frame.mean (map customer_analysis.yhat
      (customer_analysis.forecast_period [(20000, Some 1%Q)]
         [customer_analysis.forecast_row 20001 (3 # 1);
          customer_analysis.forecast_row 20002 (5 # 1)])) = Some avg_daily /\
    Frame.mean (map customer_analysis.yhat_lower
      (customer_analysis.forecast_period [(20000, Some 1%Q)]
         [customer_analysis.forecast_row 20001 (3 # 1);
          customer_analysis.forecast_row 20002 (5 # 1)])) = Some avg_lower /\
    Frame.mean (map customer_analysis.yhat_upper
      (customer_analysis.forecast_period [(20000, Some 1%Q)]
         [customer_analysis.forecast_row 20001 (3 # 1);
          customer_analysis.forecast_row 20002 (5 # 1)])) = Some avg_upper /\
    customer_analysis.min_stock report = Z.max 1 (py_round avg_lower) /\
    customer_analysis.min_stock report = 3 /\
    customer_analysis.weekly_stock report = (22, 34) /\
    customer_analysis.buffer_stock report = 10.
Proof.
  destruct (customer_analysis.generate_business_report
              [(20000, Some 1%Q)]
              [customer_analysis.forecast_row 20001 (3 # 1);
               customer_analysis.forecast_row 20002 (5 # 1)] "T1" [])
    as [report|e] eqn:E; [|vm_compute in E; discriminate E].
  destruct (inventory_sizing _ _ _ _ report E)
    as (ad & al & au & H1 & H2 & H3 & H4 & _).
  exists report, ad, al, au.
  split; [reflexivity|]. split; [exact H1|]. split; [exact H2|].
  split; [exact H3|]. split; [exact H4|].
  vm_compute in E. injection E as <-. repeat split.
Defined.

(** * Further properties of the pipeline *)

(** ** Grouping loses and repeats nothing *)

Section Conservation.
Import Frame.

Lemma Zsum_indicator (x : Z) (ks : list Z) :
  NoDup ks ->
  fold_right Z.add 0 (map (fun k => if x =? k then 1 else 0) ks)
  = if in_dec Z.eq_dec x ks then 1 else 0.
Proof.
  induction 1 as [|k t Hnotin Hnd IH]; [reflexivity|].
  cbn [map fold_right]. rewrite IH.
  destruct (x =? k) eqn:E.
  - apply Z.eqb_eq in E. subst k.
    destruct (in_dec Z.eq_dec x t) as [Hin|_]; [contradiction|].
    destruct (in_dec Z.eq_dec x (x :: t)) as [_|Hn]; [reflexivity|].
    exfalso. apply Hn. left. reflexivity.
  - apply Z.eqb_neq in E.
    destruct (in_dec Z.eq_dec x t) as [Hin|Hn];
      destruct (in_dec Z.eq_dec x (k :: t)) as [Hin'|Hn']; try reflexivity.
    + exfalso. apply Hn'. right. exact Hin.
    + exfalso. destruct Hin' as [Hk|Ht]; [congruence|contradiction].
Qed.

Lemma Zsum_map_add {A : Type} (f g : A -> Z) (l : list A) :
  fold_right Z.add 0 (map (fun a => f a + g a) l)
  = fold_right Z.add 0 (map f l) + fold_right Z.add 0 (map g l).
Proof. induction l as [|a t IH]; cbn [map fold_right]; [reflexivity|]. rewrite IH. ring. Qed.

(** Over a list of distinct keys that covers the keys of the rows, the
    group sizes add up to the number of rows. *)
Lemma group_counts_total {A : Type} (key : A -> Z) (rows : list A) (ks : list Z) :
  NoDup ks -> (forall r, In r rows -> In (key r) ks) ->
  fold_right Z.add 0 (map (count_key key rows) ks) = Z.of_nat (length rows).
Proof.
  intros Hnd Hcov. induction rows as [|r t IH].
  - unfold count_key. cbn [filter length]. clear. induction ks; simpl; auto.
  - assert (E : forall k, count_key key (r :: t) k
                          = (if key r =? k then 1 else 0) + count_key key t k).
    { intro k. unfold count_key. cbn [filter].
      destruct (key r =? k); cbn [length]; lia. }
    rewrite (map_ext _ _ E), Zsum_map_add, Zsum_indicator by exact Hnd.
    rewrite IH by (intros x Hx; apply Hcov; right; exact Hx).
    destruct (in_dec Z.eq_dec (key r) ks) as [_|Hn].
    + cbn [length]. lia.
    + exfalso. apply Hn, Hcov. left. reflexivity.
Qed.

Lemma Qsum_map_add {A : Type} (f g : A -> Q) (l : list A) :
  (Qsum (map (fun a => f a + g a) l) == Qsum (map f l) + Qsum (map g l))%Q.
Proof.
  induction l as [|a t IH]; cbn [map Qsum]; [reflexivity|]. rewrite IH. ring.
Qed.

Lemma Qsum_indicator (q : Q) (x : Z) (ks : list Z) :
  NoDup ks -> In x ks ->
  (Qsum (map (fun k => if x =? k then q else 0) ks) == q)%Q.
Proof.
  induction 1 as [|k t Hnotin Hnd IH]; [contradiction|].
  intros [Hk|Ht]; cbn [map Qsum].
  - subst k. rewrite Z.eqb_refl.
    assert (Z0 : (Qsum (map (fun k => if x =? k then q else 0) t) == 0)%Q).
    { clear IH Hnd. induction t as [|a t IHt]; cbn [map Qsum]; [reflexivity|].
      destruct (x =? a) eqn:E.
      - apply Z.eqb_eq in E. exfalso. apply Hnotin. left. symmetry. exact E.
      - rewrite IHt; [ring|]. intro Hin. apply Hnotin. right. exact Hin. }
    rewrite Z0. ring.
  - destruct (x =? k) eqn:E.
    + apply Z.eqb_eq in E. subst k. contradiction.
    + rewrite (IH Ht). ring.
Qed.

Lemma Qsum_map_ext {A : Type} (f g : A -> Q) (l : list A) :
  (forall a, (f a == g a)%Q) -> (Qsum (map f l) == Qsum (map g l))%Q.
Proof.
  intro E. induction l as [|a t IH]; cbn [map Qsum]; [reflexivity|].
  rewrite IH, (E a). reflexivity.
Qed.

(** The same for a quantity summed within each group. *)
Lemma group_sums_total {A : Type} (key : A -> Z) (w : A -> Q) (rows : list A)
    (ks : list Z) :
  NoDup ks -> (forall r, In r rows -> In (key r) ks) ->
  (Qsum (map (fun k => Qsum (map w (filter (fun r => key r =? k) rows))) ks)
   == Qsum (map w rows))%Q.
Proof.
  intros Hnd Hcov. induction rows as [|r t IH].
  - cbn [filter map Qsum]. clear. induction ks as [|k ks IHk]; cbn [map Qsum];
      [reflexivity|]. rewrite IHk. ring.
  - rewrite (Qsum_map_ext _
               (fun k => (if key r =? k then w r else 0)
                         + Qsum (map w (filter (fun r => key r =? k) t)))%Q).
    + rewrite Qsum_map_add, Qsum_indicator by
        (try exact Hnd; apply Hcov; left; reflexivity).
      rewrite IH by (intros x Hx; apply Hcov; right; exact Hx).
      cbn [map Qsum]. reflexivity.
    + intro k. cbn [filter]. destruct (key r =? k); cbn [map Qsum]; ring.
Qed.

Lemma group_keys_cover {A : Type} (key : A -> Z) (rows : list A) :
  forall r, In r rows -> In (key r) (group_keys (map key rows)).
Proof. intros r Hr. apply group_keys_In, in_map. exact Hr. Qed.

End Conservation.

(** X1. The order counts of the facility series add up to the number of
    order rows of the facility: every order is counted on exactly one
    day. *)
Theorem facility_series_counts_every_order (df : list OrderRecord)
    (laundry_id : string) :
  fold_right Z.add 0
    (map laundry_analysis.y (laundry_analysis.prepare_laundry_data df laundry_id))
  = Z.of_nat (length (rows_of_laundry df laundry_id)).
Proof.
  unfold laundry_analysis.prepare_laundry_data, Frame.groupby. cbv zeta.
  rewrite !map_map. cbn [laundry_analysis.y fst snd].
  apply (group_counts_total StartDate (rows_of_laundry df laundry_id)).
  - apply group_keys_NoDup.
  - apply group_keys_cover.
Qed.

Section ResourceTotals.
Import Frame.

Lemma laundry_resource_analysis_columns {sk : Sklearn} (df : list OrderRecord)
    (laundry_id : string) (rows : list laundry_analysis.UsageRow) :
  laundry_analysis.laundry_resource_analysis df laundry_id = Ok rows ->
  let L := rows_of_laundry df laundry_id in
  let ks := group_keys (map StartDate L) in
  map laundry_analysis.u_date rows = ks /\
  map laundry_analysis.OrderCount rows
    = map (fun k => laundry_analysis.notna_count
                      (map TenantID (filter (fun r => StartDate r =? k) L))) ks /\
  map laundry_analysis.WaterConsumption rows
    = map (fun k => Qsum (map Water_Litres (filter (fun r => StartDate r =? k) L))) ks /\
  map laundry_analysis.ElectricityConsumption rows
    = map (fun k => Qsum (map Electricity_kWh (filter (fun r => StartDate r =? k) L))) ks.
Proof.
  unfold laundry_analysis.laundry_resource_analysis. cbv zeta.
  destruct (LinearRegression_fit _) as [ew|]; [|discriminate]. cbn [bind].
  destruct (LinearRegression_fit _) as [ee|]; [|discriminate]. cbn [bind].
  destruct (IsolationForest_fit _ _ _) as [det|]; [|discriminate]. cbn [bind].
  intro E. injection E as <-.
  unfold laundry_analysis.daily_aggregate, groupby.
  rewrite !map_map.
  cbn [laundry_analysis.u_date laundry_analysis.OrderCount
       laundry_analysis.WaterConsumption laundry_analysis.ElectricityConsumption
       fst snd].
  repeat split.
  apply map_id.
Qed.

(** The present identifiers of a date are the rows of that date among the
    rows that carry an identifier. *)
Lemma notna_count_of_day (rows : list OrderRecord) (k : Z) :
  laundry_analysis.notna_count
    (map TenantID (filter (fun r => StartDate r =? k) rows))
  = count_key StartDate
      (filter (fun r => negb (String.eqb (TenantID r) EmptyString)) rows) k.
Proof.
  unfold laundry_analysis.notna_count, count_key. f_equal.
  induction rows as [|r t IH]; [reflexivity|].
  cbn [filter].
  destruct (StartDate r =? k) eqn:Ek;
    destruct (negb (String.eqb (TenantID r) EmptyString)) eqn:Ei;
    cbn [map filter length]; rewrite ?Ek, ?Ei; cbn [length]; rewrite IH; reflexivity.
Qed.

Lemma notna_count_rows (rows : list OrderRecord) :
  laundry_analysis.notna_count (map TenantID rows)
  = Z.of_nat (length (filter (fun r => negb (String.eqb (TenantID r) EmptyString))
                             rows)).
Proof.
  unfold laundry_analysis.notna_count. f_equal.
  induction rows as [|r t IH]; [reflexivity|].
  cbn [map filter].
  destruct (negb (String.eqb (TenantID r) EmptyString)); cbn [length];
    rewrite IH; reflexivity.
Qed.

Lemma date_range_In (lo hi x : Z) : lo <= x <= hi -> In x (date_range lo hi).
Proof.
  intro Hx. unfold date_range. apply in_map_iff.
  exists (Z.to_nat (x - lo)). split; [lia|]. apply in_seq. lia.
Qed.

Lemma date_range_NoDup (lo hi : Z) : NoDup (date_range lo hi).
Proof.
  unfold date_range. apply Injective_map_NoDup; [|apply seq_NoDup].
  intros a b E. lia.
Qed.

Lemma map_nth_seq (col : list (option Q)) :
  map (fun i => at_ col i) (seq 0 (length col)) = col.
Proof.
  apply nth_ext with (d := None) (d' := None).
  - rewrite length_map, length_seq. reflexivity.
  - intros n Hn. rewrite length_map, length_seq in Hn.
    rewrite (nth_indep _ None (at_ col 0))
      by (rewrite length_map, length_seq; exact Hn).
    rewrite (map_nth (fun i => at_ col i)), seq_nth by exact Hn. reflexivity.
Qed.

(** The two key columns of the customer frame. *)
Lemma enhanced_frame_columns (data : list OrderRecord) (lo hi : Z) :
  map customer_analysis.ds (customer_analysis.enhanced_frame data lo hi)
    = date_range lo hi /\
  map customer_analysis.orders (customer_analysis.enhanced_frame data lo hi)
    = map (fun d => of_int (count_key StartDate data d)) (date_range lo hi).
Proof.
  destruct (enhanced_frame_eq data lo hi) as (ords & dates & ds_min & Hd & _ & Ho & Hf).
  rewrite Hf, !map_map. cbn [customer_analysis.ds customer_analysis.orders].
  assert (Hlen : length dates = length ords) by (subst ords; rewrite length_map; reflexivity).
  split.
  - subst dates. apply nth_ext with (d := 0) (d' := 0).
    + rewrite length_map, length_seq. reflexivity.
    + intros n Hn. rewrite length_map, length_seq in Hn.
      rewrite (nth_indep _ 0 (nth 0 (date_range lo hi) 0))
        by (rewrite length_map, length_seq; exact Hn).
      rewrite (map_nth (fun i => nth i (date_range lo hi) 0)), seq_nth by exact Hn.
      reflexivity.
  - rewrite Hlen, map_nth_seq, Ho, Hd. reflexivity.
Qed.

Lemma Qsum_of_ints (f : Z -> Z) (l : list Z) :
  (Qsum (present (map (fun d => of_int (f d)) l))
   == inject_Z (fold_right Z.add 0%Z (map f l)))%Q.
Proof.
  induction l as [|a t IH]; cbn [map present Qsum fold_right of_int]; [reflexivity|].
  rewrite IH, inject_Z_plus. reflexivity.
Qed.

End ResourceTotals.

(** X2. The daily series of a customer counts every order once: the order
    counts of its rows add up to the number of order rows of the
    customer. *)
Theorem customer_series_counts_every_order (data : list OrderRecord)
    (Hne : data <> []) :
  exists rows,
    customer_analysis.prepare_enhanced_data data = Ok rows /\
    (Frame.Qsum (Frame.present (map customer_analysis.orders rows))
     == inject_Z (Z.of_nat (length data)))%Q.
Proof.
  destruct (prepare_enhanced_data_eq data Hne) as (lo & hi & Hmin & Hmax & Hle & Hp).
  exists (customer_analysis.enhanced_frame data lo hi). split; [exact Hp|].
  destruct (enhanced_frame_columns data lo hi) as [_ Ho]. rewrite Ho.
  rewrite (Qsum_of_ints (Frame.count_key StartDate data)).
  rewrite (group_counts_total StartDate data (Frame.date_range lo hi)).
  - reflexivity.
  - apply date_range_NoDup.
  - intros r Hr. apply date_range_In.
    destruct (min_date_spec _ _ Hmin) as [_ Hlo].
    destruct (max_date_spec _ _ Hmax) as [_ Hhi].
    split; [apply Hlo|apply Hhi]; apply in_map; exact Hr.
Qed.

Lemma customer_series_counts_every_order_witness :
  rows_of_customer sample_table "T1" <> [] /\
  exists rows,
    customer_analysis.prepare_enhanced_data (rows_of_customer sample_table "T1")
      = Ok rows /\
    (Frame.Qsum (Frame.present (map customer_analysis.orders rows))
     == inject_Z (Z.of_nat (length (rows_of_customer sample_table "T1"))))%Q.
Proof.
  assert (Hne : rows_of_customer sample_table "T1" <> []) by (vm_compute; discriminate).
  split; [exact Hne|].
  exact (customer_series_counts_every_order _ Hne).
Defined.

(** X3. A resource analysis that is returned has one row per date on which
    the facility has an order, in ascending order and none twice; its
    order counts add up to the number of order rows of the facility whose
    customer identifier is present, which is the number of its order rows
    when every row carries one, and its water and electricity totals to
    the water and electricity of its order rows. *)
Theorem resource_analysis_keeps_totals (sk : Sklearn) (df : list OrderRecord)
    (laundry_id : string) (rows : list laundry_analysis.UsageRow)
    (Hrows : laundry_analysis.laundry_resource_analysis df laundry_id = Ok rows) :
  StronglySorted Z.lt (map laundry_analysis.u_date rows) /\
  (forall d, In d (map laundry_analysis.u_date rows)
             <-> In d (map StartDate (rows_of_laundry df laundry_id))) /\
  fold_right Z.add 0 (map laundry_analysis.OrderCount rows)
    = laundry_analysis.notna_count (map TenantID (rows_of_laundry df laundry_id)) /\
  ((forall r, In r (rows_of_laundry df laundry_id) -> TenantID r <> EmptyString) ->
   fold_right Z.add 0 (map laundry_analysis.OrderCount rows)
     = Z.of_nat (length (rows_of_laundry df laundry_id))) /\
  (Frame.Qsum (map laundry_analysis.WaterConsumption rows)
   == Frame.Qsum (map Water_Litres (rows_of_laundry df laundry_id)))%Q /\
  (Frame.Qsum (map laundry_analysis.ElectricityConsumption rows)
   == Frame.Qsum (map Electricity_kWh (rows_of_laundry df laundry_id)))%Q.
Proof.
  destruct (laundry_resource_analysis_columns df laundry_id rows Hrows)
    as (Hd & Hc & Hw & He).
  assert (Hsum : fold_right Z.add 0 (map laundry_analysis.OrderCount rows)
                 = laundry_analysis.notna_count
                     (map TenantID (rows_of_laundry df laundry_id))).
  { rewrite Hc, notna_count_rows.
    rewrite (map_ext _ _ (notna_count_of_day (rows_of_laundry df laundry_id))).
    apply group_counts_total; [apply group_keys_NoDup|].
    intros r Hr. apply filter_In in Hr. apply group_keys_cover. exact (proj1 Hr). }
  rewrite Hd, Hw, He.
  split; [apply group_keys_StronglySorted|].
  split; [intro d; apply group_keys_In|].
  split; [exact Hsum|]. split; [|split].
  - intro Hall. rewrite Hsum, notna_count_rows. do 2 f_equal.
    apply forallb_filter_id. apply forallb_forall. intros r Hr.
    destruct (String.eqb (TenantID r) EmptyString) eqn:E; [|reflexivity].
    apply String.eqb_eq in E. exfalso. exact (Hall r Hr E).
  - apply (group_sums_total StartDate Water_Litres);
      [apply group_keys_NoDup|apply group_keys_cover].
  - apply (group_sums_total StartDate Electricity_kWh);
      [apply group_keys_NoDup|apply group_keys_cover].
Qed.

Lemma resource_analysis_keeps_totals_witness :
  exists rows,
    @laundry_analysis.laundry_resource_analysis mean_estimators
      table_with_missing_id "L1" = Ok rows /\
    map laundry_analysis.u_date rows = [20000; 20001; 20002] /\
    fold_right Z.add 0 (map laundry_analysis.OrderCount rows) = 2 /\
    (Frame.Qsum (map laundry_analysis.WaterConsumption rows)
     == Frame.Qsum (map Water_Litres (rows_of_laundry table_with_missing_id "L1")))%Q.
Proof.
  destruct (@laundry_analysis.laundry_resource_analysis mean_estimators
              table_with_missing_id "L1")
    as [rows|e] eqn:E; [|vm_compute in E; discriminate E].
  destruct (resource_analysis_keeps_totals mean_estimators
              table_with_missing_id "L1" rows E)
    as (_ & _ & Hc & _ & Hw & _).
  exists rows. split; [reflexivity|].
  split; [vm_compute in E; injection E as <-; reflexivity|].
  split; [exact Hc|exact Hw].
Defined.




(** ** The frame the customer forecaster returns *)

Section ForecastFrame.
Import Frame customer_analysis.

Lemma date_range_In_iff (lo hi x : Z) : In x (date_range lo hi) <-> lo <= x <= hi.
Proof.
  split; [|apply date_range_In].
  unfold date_range. intro Hx. apply in_map_iff in Hx.
  destruct Hx as [i [<- Hi]]. apply in_seq in Hi. lia.
Qed.

Lemma max_date_date_range (lo hi : Z) :
  lo <= hi -> max_date (date_range lo hi) = Some hi.
Proof.
  intro Hle.
  destruct (max_date (date_range lo hi)) as [m|] eqn:E.
  - destruct (max_date_spec _ _ E) as [Hin Hmax].
    apply date_range_In_iff in Hin.
    assert (hi <= m) by (apply Hmax, date_range_In; lia).
    f_equal. lia.
  - unfold date_range in E.
    destruct (Z.to_nat (hi - lo + 1)) eqn:En; [lia|discriminate].
Qed.

Lemma date_range_periods_eq (lo : Z) (n : nat) :
  date_range_periods lo n = date_range lo (lo + Z.of_nat n - 1).
Proof.
  unfold date_range_periods, date_range. do 2 f_equal. lia.
Qed.

Lemma map_seq_from {A : Type} (f : nat -> A) (a n : nat) :
  map f (seq a n) = map (fun i => f (a + i)%nat) (seq 0 n).
Proof.
  revert a. induction n as [|n IH]; intro a; [reflexivity|].
  cbn [seq map]. rewrite Nat.add_0_r. f_equal.
  rewrite IH, <- (seq_shift n 0), map_map.
  apply map_ext. intro i. f_equal. lia.
Qed.

(** A range followed by the days right after it is the longer range. *)
Lemma date_range_app (lo hi : Z) (n : nat) :
  lo <= hi ->
  date_range lo hi ++ date_range_periods (hi + 1) n = date_range lo (hi + Z.of_nat n).
Proof.
  intro Hle. unfold date_range, date_range_periods.
  replace (Z.to_nat (hi + Z.of_nat n - lo + 1))
    with (Z.to_nat (hi - lo + 1) + n)%nat by lia.
  rewrite seq_app, map_app. f_equal.
  rewrite (map_seq_from _ (0 + Z.to_nat (hi - lo + 1)) n).
  apply map_ext. intro i. lia.
Qed.

Lemma mapM_length {A B : Type} (f : A -> result B) (l : list A) (bs : list B) :
  mapM f l = Ok bs -> length bs = length l.
Proof.
  revert bs. induction l as [|a t IH]; intros bs; cbn [mapM].
  - intro E. injection E as <-. reflexivity.
  - destruct (f a) as [b|]; [|discriminate]. cbn [bind].
    destruct (mapM f t) as [bt|]; [|discriminate]. cbn [bind].
    intro E. injection E as <-. cbn [length]. f_equal. apply IH. reflexivity.
Qed.

Lemma map_fst_combine {A B : Type} (l : list A) (l' : list B) :
  length l = length l' -> map fst (combine l l') = l.
Proof.
  revert l'. induction l as [|a t IH]; intros [|b t'] Hlen; try discriminate;
    [reflexivity|].
  cbn [combine map fst]. f_equal. apply IH. injection Hlen as Hlen. exact Hlen.
Qed.

Context {sk : Sklearn}.

(** The forecast rows: one [forecast_row] per day of the 90 days after
    the last day of the history. *)
Lemma forecast_rows_spec (daily_data : list FeatureRow)
    (customer_data : list OrderRecord) (rows : list ForecastRow) :
  forecast_rows daily_data customer_data = Ok rows ->
  exists last preds,
    max_date (map ds daily_data) = Some last /\
    length preds = 90%nat /\
    rows = map (fun dp => forecast_row (fst dp) (snd dp))
               (combine (date_range_periods (last + 1) 90) preds).
Proof.
  unfold forecast_rows.
  destruct (RandomForestRegressor_fit _ _) as [model|]; [|discriminate].
  cbn [bind]. unfold future_data, future_dates.
  destruct (max_date (map ds daily_data)) as [last|]; [|discriminate].
  cbn [bind].
  destruct (mapM _ _) as [feats|] eqn:Em; [|discriminate].
  cbn [bind]. intro E. injection E as <-.
  apply mapM_length in Em.
  exists last, (map (fun f => model (to_vec f)) feats).
  split; [reflexivity|]. split; [|reflexivity].
  rewrite length_map, Em. unfold date_range_periods, future_days.
  rewrite length_map, length_seq. reflexivity.
Qed.

Lemma forecast_rows_dates (last : Z) (preds : list Q) :
  length preds = 90%nat ->
  map f_ds (map (fun dp => forecast_row (fst dp) (snd dp))
               (combine (date_range_periods (last + 1) 90) preds))
  = date_range_periods (last + 1) 90.
Proof.
  intro Hlen. rewrite map_map. cbn [f_ds forecast_row].
  rewrite <- (map_map fst (fun d => d)), map_id.
  apply map_fst_combine.
  unfold date_range_periods. rewrite length_map, length_seq, Hlen. reflexivity.
Qed.

End ForecastFrame.

Section ForecastFrameParts.
Import Frame customer_analysis.
Context {sk : Sklearn}.

(** The returned frame, split at the end of the history. *)
Lemma forecast_frame_parts (daily_data : list FeatureRow)
    (customer_data : list OrderRecord) (actual : list (Z * option Q))
    (forecast : list ForecastRow) :
  forecast_intermittent_demand daily_data customer_data = Ok (actual, forecast) ->
  exists rows,
    forecast_rows daily_data customer_data = Ok rows /\
    actual = map (fun r => (ds r, orders r)) daily_data /\
    forecast = map history_row daily_data ++ rows /\
    firstn (length daily_data) forecast = map history_row daily_data /\
    skipn (length daily_data) forecast = rows.
Proof.
  unfold forecast_intermittent_demand.
  destruct (forecast_rows daily_data customer_data) as [rows|]; [|discriminate].
  cbn [bind]. intro E. injection E as <- <-.
  exists rows. repeat split.
  - rewrite <- (length_map history_row daily_data), firstn_app, firstn_all.
    rewrite Nat.sub_diag. cbn [firstn]. apply app_nil_r.
  - rewrite <- (length_map history_row daily_data), skipn_app, skipn_all.
    rewrite Nat.sub_diag. reflexivity.
Qed.

End ForecastFrameParts.

(** X5. The frame the customer forecaster returns for a daily series of
    the builder is itself a daily series without a gap: its dates run
    day by day from the first order date to 90 days after the last. Its
    first rows are the history, with the order count as [y] and no
    prediction; its last 90 rows are the forecast, with a prediction and
    no [y]. *)
Theorem forecast_frame_is_gap_free (sk : Sklearn) (data : list OrderRecord)
    (daily : list customer_analysis.FeatureRow) (actual : list (Z * option Q))
    (forecast : list customer_analysis.ForecastRow)
    (Hp : customer_analysis.prepare_enhanced_data data = Ok daily)
    (Hf : customer_analysis.forecast_intermittent_demand daily data
          = Ok (actual, forecast)) :
  exists lo hi,
    Frame.min_date (map StartDate data) = Some lo /\
    Frame.max_date (map StartDate data) = Some hi /\
    map customer_analysis.f_ds forecast = Frame.date_range lo (hi + 90) /\
    map customer_analysis.y (firstn (length daily) forecast)
      = map customer_analysis.orders daily /\
    (forall r, In r (firstn (length daily) forecast) ->
       customer_analysis.yhat r = None) /\
    length (skipn (length daily) forecast) = 90%nat /\
    (forall r, In r (skipn (length daily) forecast) ->
       customer_analysis.y r = None /\ customer_analysis.yhat r <> None).
Proof.
  assert (Hne : data <> []) by (intros ->; discriminate).
  destruct (prepare_enhanced_data_eq data Hne) as (lo & hi & Hmin & Hmax & Hle & Hp').
  rewrite Hp' in Hp. injection Hp as <-.
  destruct (forecast_frame_parts _ _ _ _ Hf) as (rows & Hr & _ & Hfc & Hfirst & Hskip).
  destruct (forecast_rows_spec _ _ _ Hr) as (last & preds & Hlast & Hlen & Hrows).
  destruct (enhanced_frame_columns data lo hi) as [Hds _].
  rewrite Hds, max_date_date_range in Hlast by exact Hle. injection Hlast as <-.
  exists lo, hi. split; [exact Hmin|]. split; [exact Hmax|].
  rewrite Hfirst, Hskip.
  split; [|split; [|split; [|split]]].
  - rewrite Hfc, map_app.
    replace (map customer_analysis.f_ds
               (map customer_analysis.history_row
                  (customer_analysis.enhanced_frame data lo hi)))
      with (map customer_analysis.ds (customer_analysis.enhanced_frame data lo hi))
      by (rewrite map_map; reflexivity).
    rewrite Hds, Hrows, forecast_rows_dates by exact Hlen.
    apply (date_range_app lo hi 90 Hle).
  - rewrite map_map. reflexivity.
  - intros r Hin. apply in_map_iff in Hin. destruct Hin as [h [<- _]]. reflexivity.
  - rewrite Hrows, length_map, length_combine, Hlen.
    unfold Frame.date_range_periods. rewrite length_map, length_seq. reflexivity.
  - intros r Hin. rewrite Hrows in Hin. apply in_map_iff in Hin.
    destruct Hin as [dp [<- _]]. split; [reflexivity|discriminate].
Qed.

Lemma forecast_frame_is_gap_free_witness :
  exists daily actual forecast,
    customer_analysis.prepare_enhanced_data (rows_of_customer sample_table "T1")
      = Ok daily /\
    @customer_analysis.forecast_intermittent_demand mean_estimators daily
      (rows_of_customer sample_table "T1") = Ok (actual, forecast) /\
    map customer_analysis.f_ds forecast = Frame.date_range 20000 (20003 + 90).
Proof.
  destruct (customer_analysis.prepare_enhanced_data (rows_of_customer sample_table "T1"))
    as [daily|e] eqn:Ep; [|vm_compute in Ep; discriminate Ep].
  destruct (@customer_analysis.forecast_intermittent_demand mean_estimators daily
              (rows_of_customer sample_table "T1")) as [[actual forecast]|e] eqn:Ef.
  - exists daily, actual, forecast. split; [reflexivity|]. split; [exact Ef|].
    destruct (forecast_frame_is_gap_free mean_estimators _ _ _ _ Ep Ef)
      as (lo & hi & Hlo & Hhi & Hd & _).
    vm_compute in Hlo. vm_compute in Hhi.
    injection Hlo as <-. injection Hhi as <-. exact Hd.
  - exfalso. vm_compute in Ep. injection Ep as <-. vm_compute in Ef. discriminate Ef.
Defined.

(** ** The report on a forecast of the pipeline *)

Section PipelineReport.
Import Frame customer_analysis.

Lemma filter_none {A : Type} (f : A -> bool) (l : list A) :
  (forall x, In x l -> f x = false) -> filter f l = [].
Proof.
  induction l as [|a t IH]; intro Hall; [reflexivity|].
  cbn [filter]. rewrite (Hall a (or_introl eq_refl)).
  apply IH. intros x Hx. apply Hall. right. exact Hx.
Qed.

Lemma filter_all {A : Type} (f : A -> bool) (l : list A) :
  (forall x, In x l -> f x = true) -> filter f l = l.
Proof.
  induction l as [|a t IH]; intro Hall; [reflexivity|].
  cbn [filter]. rewrite (Hall a (or_introl eq_refl)). f_equal.
  apply IH. intros x Hx. apply Hall. right. exact Hx.
Qed.

Lemma map_snd_combine {A B : Type} (l : list A) (l' : list B) :
  length l = length l' -> map snd (combine l l') = l'.
Proof.
  revert l'. induction l as [|a t IH]; intros [|b t'] Hlen; try discriminate;
    [reflexivity|].
  cbn [combine map snd]. f_equal. apply IH. injection Hlen as Hlen. exact Hlen.
Qed.

Lemma present_Some (qs : list Q) : present (map Some qs) = qs.
Proof. induction qs as [|q t IH]; cbn [map present]; [reflexivity|]. rewrite IH. reflexivity. Qed.

Lemma mean_Some (qs : list Q) :
  qs <> [] ->
  mean (map Some qs) = Some (Qsum qs / inject_Z (Z.of_nat (length qs)))%Q.
Proof.
  intro Hne. unfold mean. rewrite present_Some.
  destruct qs; [contradiction|reflexivity].
Qed.

Lemma Qmax0_scale (p c : Q) : (0 < c)%Q -> (Qmax 0 (p * c) == Qmax 0 p * c)%Q.
Proof.
  intro Hc. destruct (Qlt_le_dec p 0) as [Hneg|Hpos].
  - rewrite (Q.max_l 0 p) by (apply Qlt_le_weak; exact Hneg).
    rewrite Q.max_l; [ring|].
    setoid_replace 0%Q with (0 * c)%Q by ring.
    apply Qmult_le_compat_r; [apply Qlt_le_weak; exact Hneg|apply Qlt_le_weak; exact Hc].
  - rewrite (Q.max_r 0 p) by exact Hpos.
    rewrite Q.max_r; [reflexivity|].
    setoid_replace 0%Q with (0 * c)%Q by ring.
    apply Qmult_le_compat_r; [exact Hpos|apply Qlt_le_weak; exact Hc].
Qed.

Lemma Qsum_scale (f : Q -> Q) (c : Q) (l : list Q) :
  (Qsum (map (fun p => f p * c) l) == Qsum (map f l) * c)%Q.
Proof.
  induction l as [|a t IH]; cbn [map Qsum]; [ring|]. rewrite IH. ring.
Qed.

Lemma Qsum_max0_nonneg (l : list Q) : (0 <= Qsum (map (Qmax 0) l))%Q.
Proof.
  apply Qsum_nonneg. apply Forall_forall. intros q Hq.
  apply in_map_iff in Hq. destruct Hq as [p [<- _]]. apply Q.le_max_l.
Qed.

(** The three columns of a run of forecast rows. *)
Lemma forecast_rows_columns (dates : list Z) (preds : list Q) :
  length dates = length preds ->
  let rows := map (fun dp => forecast_row (fst dp) (snd dp)) (combine dates preds) in
  map f_ds rows = dates /\
  map yhat rows = map Some (map (Qmax 0) preds) /\
  map yhat_lower rows = map Some (map (fun p => Qmax 0 (p * (7 # 10))) preds) /\
  map yhat_upper rows = map Some (map (fun p => Qmax 0 (p * (13 # 10))) preds).
Proof.
  intros Hlen rows. subst rows. rewrite !map_map.
  cbn [f_ds yhat yhat_lower yhat_upper forecast_row].
  repeat split.
  - rewrite <- (map_map fst (fun d => d)), map_id. apply map_fst_combine. exact Hlen.
  - rewrite <- (map_snd_combine dates preds Hlen) at 2. rewrite !map_map. reflexivity.
  - rewrite <- (map_snd_combine dates preds Hlen) at 2. rewrite !map_map. reflexivity.
  - rewrite <- (map_snd_combine dates preds Hlen) at 2. rewrite !map_map. reflexivity.
Qed.

Context {sk : Sklearn}.

(** The forecast period of a returned frame is its forecast rows. *)
Lemma forecast_period_is_forecast_rows (daily_data : list FeatureRow)
    (customer_data : list OrderRecord) (actual : list (Z * option Q))
    (forecast rows : list ForecastRow) :
  forecast_intermittent_demand daily_data customer_data = Ok (actual, forecast) ->
  forecast_rows daily_data customer_data = Ok rows ->
  forecast_period actual forecast = rows.
Proof.
  intros Hf Hr.
  destruct (forecast_frame_parts _ _ _ _ Hf) as (rows' & Hr' & Ha & Hfc & _).
  rewrite Hr in Hr'. injection Hr' as <-.
  destruct (forecast_rows_spec _ _ _ Hr) as (last & preds & Hlast & Hlen & Hrows).
  unfold forecast_period. rewrite Ha.
  replace (map fst (map (fun r => (ds r, orders r)) daily_data))
    with (map ds daily_data) by (rewrite map_map; reflexivity).
  rewrite Hlast, Hfc, filter_app.
  rewrite filter_none, filter_all; [reflexivity| |].
  - intros r Hin. apply Z.ltb_lt.
    assert (Hd : In (f_ds r) (map f_ds rows)) by (apply in_map; exact Hin).
    rewrite Hrows, forecast_rows_dates in Hd by exact Hlen.
    rewrite date_range_periods_eq in Hd. apply date_range_In_iff in Hd. lia.
  - intros r Hin. apply in_map_iff in Hin. destruct Hin as [h [<- Hh]].
    apply Z.ltb_ge. cbn [f_ds history_row].
    destruct (max_date_spec _ _ Hlast) as [_ Hmax]. apply Hmax, in_map. exact Hh.
Qed.

End PipelineReport.

Section PipelineReportNumbers.
Import Frame customer_analysis.
Context {sk : Sklearn}.

Lemma scaled_band_sum (c : Q) (preds : list Q) :
  (0 < c)%Q ->
  (Qsum (map (fun p => Qmax 0 (p * c)) preds) == Qsum (map (Qmax 0) preds) * c)%Q.
Proof.
  intro Hc. rewrite <- Qsum_scale. apply Qsum_map_ext.
  intro p. apply Qmax0_scale. exact Hc.
Qed.

(** The report on a frame the forecaster returned: it is produced, and
    these are its numbers. *)
Lemma pipeline_report (daily_data : list FeatureRow) (customer_data : list OrderRecord)
    (actual : list (Z * option Q)) (forecast : list ForecastRow)
    (customer_id : string) :
  forecast_intermittent_demand daily_data customer_data = Ok (actual, forecast) ->
  exists last preds report ad al au,
    max_date (map ds daily_data) = Some last /\
    length preds = 90%nat /\
    forecast_period actual forecast = skipn (length daily_data) forecast /\
    generate_business_report actual forecast customer_id customer_data = Ok report /\
    start_date report = (Calendar.year (last + 1), Calendar.month (last + 1)) /\
    end_date report = (Calendar.year (last + 90), Calendar.month (last + 90)) /\
    avg_daily report = Some ad /\ avg_lower report = Some al /\
    avg_upper report = Some au /\
    (ad == Qsum (map (Qmax 0) preds) / 90)%Q /\
    (0 <= ad)%Q /\
    (al == ad * (7 # 10))%Q /\ (au == ad * (13 # 10))%Q /\
    (total_orders report == ad * 90)%Q /\
    min_stock report = Z.max 1 (py_round al) /\
    weekly_stock report
      = (py_round (ad * (7 # 1) * (8 # 10)), py_round (ad * (7 # 1) * (12 # 10))) /\
    buffer_stock report = py_round (au * (2 # 1)).
Proof.
  intro Hf.
  destruct (forecast_frame_parts _ _ _ _ Hf) as (rows & Hr & _ & _ & _ & Hskip).
  pose proof (forecast_period_is_forecast_rows _ _ _ _ _ Hf Hr) as Hper.
  destruct (forecast_rows_spec _ _ _ Hr) as (last & preds & Hlast & Hlen & Hrows).
  assert (Hlen' : length (date_range_periods (last + 1) 90) = length preds).
  { unfold date_range_periods. rewrite length_map, length_seq, Hlen. reflexivity. }
  destruct (forecast_rows_columns _ _ Hlen') as (Hd & Hy & Hl & Hu).
  cbv zeta in Hd, Hy, Hl, Hu. rewrite <- Hrows in Hd, Hy, Hl, Hu.
  assert (Hne : forall f : Q -> Q, map f preds <> []).
  { intros f E. apply (f_equal (@length _)) in E.
    rewrite length_map, Hlen in E. discriminate E. }
  assert (H90 : forall f : Q -> Q,
             inject_Z (Z.of_nat (length (map f preds))) = 90%Q).
  { intro f. rewrite length_map, Hlen. reflexivity. }
  unfold generate_business_report. rewrite Hper, Hd, Hy, Hl, Hu.
  rewrite date_range_periods_eq.
  rewrite min_date_date_range, max_date_date_range by lia.
  rewrite !mean_Some by apply Hne. rewrite !H90.
  cbn [year_month bind round_cell cell_map].
  replace (last + 1 + Z.of_nat 90 - 1) with (last + 90) by lia.
  eexists last, preds, _, _, _, _.
  split; [exact Hlast|]. split; [exact Hlen|].
  split; [rewrite Hskip; reflexivity|].
  split; [reflexivity|].
  cbn [start_date end_date avg_daily avg_lower avg_upper total_orders
       min_stock weekly_stock buffer_stock].
  do 5 (split; [reflexivity|]).
  split; [apply Qeq_refl|].
  split.
  { apply Qle_shift_div_l; [reflexivity|]. rewrite Qmult_0_l. apply Qsum_max0_nonneg. }
  split.
  { rewrite scaled_band_sum by reflexivity. field. }
  split.
  { rewrite scaled_band_sum by reflexivity. field. }
  split.
  { unfold sum. rewrite present_Some. field. }
  repeat split.
Qed.

End PipelineReportNumbers.

(** X6. The report on a frame the customer forecaster returned is always
    produced. Its forecast period is exactly the 90 forecast rows, from
    the day after the last day of the history to 90 days after it (no row
    of the history enters the averages); its three averages are numbers,
    none of them negative, the lower average is at most the average daily
    forecast and the upper average at least it, and the projected total
    is not negative. *)
Theorem report_covers_the_ninety_forecast_days (sk : Sklearn)
    (daily_data : list customer_analysis.FeatureRow)
    (customer_data : list OrderRecord) (actual : list (Z * option Q))
    (forecast : list customer_analysis.ForecastRow) (customer_id : string)
    (Hf : customer_analysis.forecast_intermittent_demand daily_data customer_data
          = Ok (actual, forecast)) :
  exists last report ad al au,
    Frame.max_date (map customer_analysis.ds daily_data) = Some last /\
    customer_analysis.forecast_period actual forecast
      = skipn (length daily_data) forecast /\
    customer_analysis.generate_business_report actual forecast customer_id
      customer_data = Ok report /\
    customer_analysis.start_date report
      = (Calendar.year (last + 1), Calendar.month (last + 1)) /\
    customer_analysis.end_date report
      = (Calendar.year (last + 90), Calendar.month (last + 90)) /\
    customer_analysis.avg_daily report = Some ad /\
    customer_analysis.avg_lower report = Some al /\
    customer_analysis.avg_upper report = Some au /\
    (0 <= al)%Q /\ (al <= ad)%Q /\ (ad <= au)%Q /\
    (0 <= customer_analysis.total_orders report)%Q.
Proof.
  destruct (pipeline_report daily_data customer_data actual forecast customer_id Hf)
    as (last & preds & report & ad & al & au & H1 & _ & H3 & H4 & H5 & H6 & H7 & H8
        & H9 & _ & H11 & H12 & H13 & H14 & _).
  exists last, report, ad, al, au.
  repeat (split; [assumption|]).
  repeat split; lra.
Qed.

Lemma report_covers_the_ninety_forecast_days_witness :
  exists actual forecast last report,
    @customer_analysis.forecast_intermittent_demand mean_estimators
      (customer_analysis.enhanced_frame (rows_of_customer sample_table "T1") 20000 20003)
      (rows_of_customer sample_table "T1") = Ok (actual, forecast) /\
    Frame.max_date (map customer_analysis.ds
      (customer_analysis.enhanced_frame (rows_of_customer sample_table "T1") 20000 20003))
      = Some last /\
    customer_analysis.generate_business_report actual forecast "T1"
      (rows_of_customer sample_table "T1") = Ok report /\
    customer_analysis.end_date report
      = (Calendar.year (last + 90), Calendar.month (last + 90)).
Proof.
  destruct (@customer_analysis.forecast_intermittent_demand mean_estimators
              (customer_analysis.enhanced_frame (rows_of_customer sample_table "T1")
                 20000 20003)
              (rows_of_customer sample_table "T1")) as [[actual forecast]|e] eqn:E;
    [|vm_compute in E; discriminate E].
  destruct (report_covers_the_ninety_forecast_days mean_estimators _ _ _ _ "T1"%string E)
    as (last & report & ad & al & au & H1 & _ & H3 & _ & H5 & _).
  exists actual, forecast, last, report.
  split; [reflexivity|]. split; [exact H1|]. split; [exact H3|exact H5].
Defined.

(** ** Which customers get a forecast *)

Section ForecastViews.
Import Frame customer_analysis.
Context {sk : Sklearn}.

Lemma forecast_rows_one_day (daily_data : list FeatureRow)
    (customer_data : list OrderRecord) :
  (length daily_data <= 1)%nat ->
  forecast_rows daily_data customer_data = Raise ValueError.
Proof.
  intro Hlen. unfold forecast_rows, RandomForestRegressor_fit.
  destruct (train_split daily_data) as [|s t] eqn:Et; [reflexivity|].
  apply (f_equal (@length _)) in Et. rewrite train_split_length in Et.
  unfold int_mul_0_8 in Et. cbn [length] in Et.
  destruct daily_data as [|a [|b l]]; cbn in Et; try discriminate Et.
  cbn [length] in Hlen. lia.
Qed.

(** The forecaster on the series of a customer: a frame when the order
    dates span two days or more, [ValueError] when they are one day. *)
Lemma forecast_of_customer (data : list OrderRecord) (lo hi : Z) :
  min_date (map StartDate data) = Some lo ->
  max_date (map StartDate data) = Some hi ->
  prepare_enhanced_data data = Ok (enhanced_frame data lo hi) /\
  (lo < hi ->
   exists actual forecast,
     forecast_intermittent_demand (enhanced_frame data lo hi) data
     = Ok (actual, forecast)) /\
  (lo = hi ->
   forecast_intermittent_demand (enhanced_frame data lo hi) data = Raise ValueError).
Proof.
  intros Hmin Hmax.
  assert (Hne : data <> []) by (intros ->; discriminate).
  destruct (prepare_enhanced_data_eq data Hne) as (lo' & hi' & Hmin' & Hmax' & Hle & Hp).
  rewrite Hmin in Hmin'. rewrite Hmax in Hmax'.
  injection Hmin' as <-. injection Hmax' as <-.
  split; [exact Hp|]. split.
  - intro Hlt.
    destruct (forecast_rows_total (enhanced_frame data lo hi) data) as [rows [Hr _]].
    { rewrite enhanced_frame_length. lia. }
    unfold forecast_intermittent_demand. rewrite Hr. cbn [bind].
    eexists _, _. reflexivity.
  - intro Heq. unfold forecast_intermittent_demand.
    rewrite forecast_rows_one_day; [reflexivity|].
    rewrite enhanced_frame_length. lia.
Qed.

End ForecastViews.

(** X7. For a customer with order rows, the forecast view, the resource
    view and the report view each show a page when the order dates span
    at least two days, and each raise [ValueError] when all orders fall
    on one date (the 80 % training split of a one-day series is
    empty). *)
Theorem forecast_views_need_two_order_dates (sk : Sklearn) (now : instant)
    (data : list OrderRecord) (tenant_id : string) (lo hi : Z)
    (Hmin : Frame.min_date (map StartDate data) = Some lo)
    (Hmax : Frame.max_date (map StartDate data) = Some hi) :
  (lo < hi ->
   (exists actual forecast,
      customer_analysis.show_forecast_analysis data tenant_id
      = Ok (customer_analysis.ForecastPage actual forecast)) /\
   (exists usage avg_water avg_electricity future,
      customer_analysis.show_resource_analysis now data tenant_id
      = Ok (customer_analysis.ResourcePage usage avg_water avg_electricity future)) /\
   (exists report,
      customer_analysis.show_business_report data tenant_id
      = Ok (customer_analysis.ReportPage report)))
  /\
  (lo = hi ->
   customer_analysis.show_forecast_analysis data tenant_id = Raise ValueError /\
   customer_analysis.show_resource_analysis now data tenant_id = Raise ValueError /\
   customer_analysis.show_business_report data tenant_id = Raise ValueError).
Proof.
  destruct (forecast_of_customer data lo hi Hmin Hmax) as (Hp & Hok & Hraise).
  unfold customer_analysis.show_forecast_analysis,
    customer_analysis.show_resource_analysis, customer_analysis.show_business_report.
  rewrite Hp. cbn [bind]. split.
  - intro Hlt. destruct (Hok Hlt) as (actual & forecast & Hf).
    rewrite Hf. cbn [bind fst snd].
    split; [eexists _, _; reflexivity|]. split.
    + destruct (customer_analysis.customer_resource_analysis data) as [[u w] e].
      eexists _, _, _, _. reflexivity.
    + destruct (pipeline_report _ _ _ _ tenant_id Hf)
        as (last & preds & report & ad & al & au & _ & _ & _ & Hrep & _).
      rewrite Hrep. cbn [bind]. eexists. reflexivity.
  - intro Heq. rewrite (Hraise Heq). repeat split.
Qed.

Lemma forecast_views_need_two_order_dates_witness :
  (exists report,
     @customer_analysis.show_business_report mean_estimators
       (rows_of_customer sample_table "T1") "T1"
     = Ok (customer_analysis.ReportPage report)) /\
  @customer_analysis.show_business_report mean_estimators
    (rows_of_customer sample_table "T3") "T3" = Raise ValueError.
Proof.
  split.
  - exact (proj2 (proj2 (proj1 (forecast_views_need_two_order_dates mean_estimators 0
             (rows_of_customer sample_table "T1") "T1" 20000 20003 eq_refl eq_refl)
             ltac:(lia)))).
  - exact (proj2 (proj2 (proj2 (forecast_views_need_two_order_dates mean_estimators 0
             (rows_of_customer sample_table "T3") "T3" 20005 20005 eq_refl eq_refl)
             eq_refl))).
Defined.

(** ** Rounding *)

Section Rounding.

(** The three cases of [py_round], by the distance to the floor. *)
Lemma py_round_cases (q : Q) :
  let f := Qfloor q in
  ((q - inject_Z f < 1 # 2)%Q /\ py_round q = f) \/
  ((1 # 2 < q - inject_Z f)%Q /\ py_round q = f + 1) \/
  ((q - inject_Z f == 1 # 2)%Q /\ py_round q = if Z.even f then f else f + 1).
Proof.
  intro f. unfold py_round. fold f.
  destruct (q - inject_Z f ?= 1 # 2)%Q eqn:E.
  - right. right. split; [apply Qeq_alt; exact E|reflexivity].
  - left. split; [apply Qlt_alt; exact E|reflexivity].
  - right. left. split; [apply Qgt_alt in E; exact E|reflexivity].
Qed.

Lemma py_round_near_floor (q : Q) : Qfloor q <= py_round q <= Qfloor q + 1.
Proof.
  destruct (py_round_cases q) as [[_ ->]|[[_ ->]|[_ ->]]]; try lia.
  destruct (Z.even (Qfloor q)); lia.
Qed.

(** [round] never reverses an order. *)
Lemma py_round_monotone (p q : Q) : (p <= q)%Q -> py_round p <= py_round q.
Proof.
  intro Hle. pose proof (Qfloor_resp_le p q Hle) as Hf.
  pose proof (py_round_near_floor p) as Hp. pose proof (py_round_near_floor q) as Hq.
  destruct (Z.eq_dec (Qfloor p) (Qfloor q)) as [Heq|Hneq]; [|lia].
  destruct (py_round_cases p) as [[Rp Ep]|[[Rp Ep]|[Rp Ep]]];
    destruct (py_round_cases q) as [[Rq Eq]|[[Rq Eq]|[Rq Eq]]];
    rewrite Ep, Eq, <- ?Heq; rewrite <- ?Heq in Rq;
    try lia; try (destruct (Z.even (Qfloor p)); lia);
    exfalso; lra.
Qed.

Lemma py_round_nonneg (q : Q) : (0 <= q)%Q -> 0 <= py_round q.
Proof. intro Hq. apply (py_round_monotone 0 q Hq). Qed.

End Rounding.

(** ** The recommendations of the report *)

Section Recommendations.
Import Frame customer_analysis.

Lemma Qlt_bool_false (a b : Q) : (b <= a)%Q -> Qlt_bool a b = false.
Proof.
  intro Hle. destruct (Qlt_bool a b) eqn:E; [|reflexivity].
  apply Qlt_bool_iff in E. apply Qle_not_lt in Hle. contradiction.
Qed.

(** The ratio of an upper average of 1.3 a to a lower average of 0.7 a is
    never below 1.5. *)
Lemma band_ratio_not_low (ad al au : Q) :
  (0 <= ad)%Q -> (al == ad * (7 # 10))%Q -> (au == ad * (13 # 10))%Q ->
  np_lt (np_truediv (Some au) (Some al)) (15 # 10) = false.
Proof.
  intros Hnn Hal Hau. unfold np_truediv.
  destruct (Qeq_bool al 0) eqn:Ez.
  - apply Qeq_bool_iff in Ez.
    assert (Had : (ad == 0)%Q) by lra.
    rewrite (Qlt_bool_false 0 au) by lra.
    rewrite (Qlt_bool_false au 0) by lra. reflexivity.
  - apply Qeq_bool_neq in Ez. cbn [np_lt]. apply Qlt_bool_false.
    assert (Hpos : (0 < al)%Q) by lra.
    apply Qle_shift_div_l; [exact Hpos|]. lra.
Qed.

End Recommendations.

(** X8. In the report on a frame the customer forecaster returned, the
    volatility is always "Medium": the upper and lower averages are 1.3
    and 0.7 times the same average, so their ratio is 13/7, or NaN when
    the forecast is 0 throughout, and never below 1.5. *)
Theorem volatility_is_always_medium (sk : Sklearn)
    (daily_data : list customer_analysis.FeatureRow)
    (customer_data : list OrderRecord) (actual : list (Z * option Q))
    (forecast : list customer_analysis.ForecastRow) (customer_id : string)
    (Hf : customer_analysis.forecast_intermittent_demand daily_data customer_data
          = Ok (actual, forecast)) :
  exists report advice,
    customer_analysis.business_report actual forecast customer_id customer_data
      = Ok (report, advice) /\
    customer_analysis.volatility advice = "Medium"%string.
Proof.
  destruct (pipeline_report daily_data customer_data actual forecast customer_id Hf)
    as (last & preds & report & ad & al & au & _ & _ & _ & Hrep & _ & _ & Hd & Hl & Hu
        & _ & Hnn & Hal & Hau & _).
  unfold customer_analysis.business_report. rewrite Hrep. cbn [bind].
  eexists _, _. split; [reflexivity|].
  cbn [customer_analysis.volatility customer_analysis.report_advice].
  rewrite Hl, Hu, (band_ratio_not_low ad al au Hnn Hal Hau). reflexivity.
Qed.

Lemma volatility_is_always_medium_witness :
  exists actual forecast report advice,
    @customer_analysis.forecast_intermittent_demand mean_estimators
      (customer_analysis.enhanced_frame (rows_of_customer sample_table "T1") 20000 20003)
      (rows_of_customer sample_table "T1") = Ok (actual, forecast) /\
    customer_analysis.business_report actual forecast "T1"
      (rows_of_customer sample_table "T1") = Ok (report, advice) /\
    customer_analysis.volatility advice = "Medium"%string.
Proof.
  destruct (@customer_analysis.forecast_intermittent_demand mean_estimators
              (customer_analysis.enhanced_frame (rows_of_customer sample_table "T1")
                 20000 20003)
              (rows_of_customer sample_table "T1")) as [[actual forecast]|e] eqn:E;
    [|vm_compute in E; discriminate E].
  destruct (volatility_is_always_medium mean_estimators _ _ _ _ "T1"%string E)
    as (report & advice & H1 & H2).
  exists actual, forecast, report, advice.
  split; [reflexivity|]. split; [exact H1|exact H2].
Defined.

(** X9. In the report on a frame the customer forecaster returned, the
    stock recommendations are ordered: the weekly range runs from a
    number that is not negative to one that is not smaller, the minimum
    stock is at least 1, the buffer stock is not negative, and the
    minimum stock is at most the larger of 1 and the buffer stock. *)
Theorem stock_recommendations_are_ordered (sk : Sklearn)
    (daily_data : list customer_analysis.FeatureRow)
    (customer_data : list OrderRecord) (actual : list (Z * option Q))
    (forecast : list customer_analysis.ForecastRow) (customer_id : string)
    (Hf : customer_analysis.forecast_intermittent_demand daily_data customer_data
          = Ok (actual, forecast)) :
  exists report,
    customer_analysis.generate_business_report actual forecast customer_id
      customer_data = Ok report /\
    0 <= fst (customer_analysis.weekly_stock report)
      <= snd (customer_analysis.weekly_stock report) /\
    1 <= customer_analysis.min_stock report /\
    0 <= customer_analysis.buffer_stock report /\
    customer_analysis.min_stock report
      <= Z.max 1 (customer_analysis.buffer_stock report).
Proof.
  destruct (pipeline_report daily_data customer_data actual forecast customer_id Hf)
    as (last & preds & report & ad & al & au & _ & _ & _ & Hrep & _ & _ & _ & _ & _
        & _ & Hnn & Hal & Hau & _ & Hmin & Hweek & Hbuf).
  exists report. split; [exact Hrep|].
  rewrite Hmin, Hweek, Hbuf. cbn [fst snd].
  assert (H1 : 0 <= py_round (ad * (7 # 1) * (8 # 10))) by (apply py_round_nonneg; lra).
  assert (H2 : py_round (ad * (7 # 1) * (8 # 10)) <= py_round (ad * (7 # 1) * (12 # 10)))
    by (apply py_round_monotone; lra).
  assert (H3 : 0 <= py_round (au * (2 # 1))) by (apply py_round_nonneg; lra).
  assert (H4 : py_round al <= py_round (au * (2 # 1)))
    by (apply py_round_monotone; lra).
  lia.
Qed.

Lemma stock_recommendations_are_ordered_witness :
  exists actual forecast report,
    @customer_analysis.forecast_intermittent_demand mean_estimators
      (customer_analysis.enhanced_frame (rows_of_customer sample_table "T1") 20000 20003)
      (rows_of_customer sample_table "T1") = Ok (actual, forecast) /\
    customer_analysis.generate_business_report actual forecast "T1"
      (rows_of_customer sample_table "T1") = Ok report /\
    fst (customer_analysis.weekly_stock report)
      <= snd (customer_analysis.weekly_stock report).
Proof.
  destruct (@customer_analysis.forecast_intermittent_demand mean_estimators
              (customer_analysis.enhanced_frame (rows_of_customer sample_table "T1")
                 20000 20003)
              (rows_of_customer sample_table "T1")) as [[actual forecast]|e] eqn:E;
    [|vm_compute in E; discriminate E].
  destruct (stock_recommendations_are_ordered mean_estimators _ _ _ _ "T1"%string E)
    as (report & H1 & H2 & _).
  exists actual, forecast, report.
  split; [reflexivity|]. split; [exact H1|exact (proj2 H2)].
Defined.

Section ReportLabels.
Import Frame customer_analysis.

(** A report that is produced has an average daily forecast. *)
Lemma report_has_average (actual : list (Z * option Q)) (forecast : list ForecastRow)
    (customer_id : string) (customer_data : list OrderRecord) (r : Report) :
  generate_business_report actual forecast customer_id customer_data = Ok r ->
  exists ad, avg_daily r = Some ad.
Proof.
  unfold generate_business_report.
  destruct (year_month (min_date _)) as [sd|]; [|discriminate].
  destruct (year_month (max_date _)) as [ed|]; [|discriminate].
  cbn [bind].
  destruct (round_cell (mean (map yhat_lower _))) as [rl|]; [|discriminate].
  cbn [bind].
  destruct (mean (map yhat _)) as [ad|]; [|discriminate].
  cbn [bind cell_map round_cell].
  destruct (mean (map yhat_upper _)) as [au|]; [|discriminate].
  cbn [bind cell_map round_cell].
  intro E. injection E as <-. exists ad. reflexivity.
Qed.

Lemma Qlt_bool_false_inv (a b : Q) : Qlt_bool a b = false -> (b <= a)%Q.
Proof.
  intro E. apply Qnot_lt_le. intro Hc. apply Qlt_bool_iff in Hc. congruence.
Qed.

End ReportLabels.

(** X10. In a report that is produced, the four labels chosen from the
    average daily forecast agree with one another: "lean" inventory goes
    with "Minimal" stock-out risk and "moderate" with "Moderate";
    "bi-weekly" deliveries come only with "moderate" inventory and "Low"
    waste potential; and "Medium" waste potential comes only with "lean"
    inventory and "weekly" deliveries. *)
Theorem report_labels_agree (actual : list (Z * option Q))
    (forecast : list customer_analysis.ForecastRow) (customer_id : string)
    (customer_data : list OrderRecord) (r : customer_analysis.Report)
    (a : customer_analysis.Advice)
    (Hrep : customer_analysis.business_report actual forecast customer_id
              customer_data = Ok (r, a)) :
  (customer_analysis.inventory a = "lean"%string
   <-> customer_analysis.stockout_risk a = "Minimal"%string) /\
  (customer_analysis.inventory a = "moderate"%string
   <-> customer_analysis.stockout_risk a = "Moderate"%string) /\
  (customer_analysis.deliveries a = "bi-weekly"%string ->
   customer_analysis.inventory a = "moderate"%string /\
   customer_analysis.waste_potential a = "Low"%string) /\
  (customer_analysis.waste_potential a = "Medium"%string ->
   customer_analysis.inventory a = "lean"%string /\
   customer_analysis.deliveries a = "weekly"%string).
Proof.
  unfold customer_analysis.business_report in Hrep.
  destruct (customer_analysis.generate_business_report actual forecast customer_id
              customer_data) as [r'|] eqn:E; [|discriminate].
  cbn [bind] in Hrep. injection Hrep as <- <-.
  destruct (report_has_average _ _ _ _ _ E) as [q Hq].
  unfold customer_analysis.report_advice.
  cbn [customer_analysis.inventory customer_analysis.stockout_risk
       customer_analysis.deliveries customer_analysis.waste_potential].
  rewrite Hq. cbn [customer_analysis.cell_lt customer_analysis.cell_gt].
  destruct (Frame.Qlt_bool q 1) eqn:E1; destruct (Frame.Qlt_bool q 2) eqn:E2;
    destruct (Frame.Qlt_bool (5 # 10) q) eqn:E3;
    repeat split; try discriminate; try reflexivity; try (intros; discriminate);
    exfalso;
    try (apply Qlt_bool_iff in E1); try (apply Qlt_bool_iff in E2);
    try (apply Qlt_bool_iff in E3);
    try (apply Qlt_bool_false_inv in E1); try (apply Qlt_bool_false_inv in E2);
    try (apply Qlt_bool_false_inv in E3); lra.
Qed.

Lemma report_labels_agree_witness :
  exists r a,
    customer_analysis.business_report [(20000, Some 1%Q)]
      [customer_analysis.forecast_row 20001 (3 # 1);
       customer_analysis.forecast_row 20002 (5 # 1)] "T1" [] = Ok (r, a) /\
    customer_analysis.deliveries a = "bi-weekly"%string /\
    customer_analysis.inventory a = "moderate"%string /\
    customer_analysis.waste_potential a = "Low"%string.
Proof.
  destruct (customer_analysis.business_report [(20000, Some 1%Q)]
              [customer_analysis.forecast_row 20001 (3 # 1);
               customer_analysis.forecast_row 20002 (5 # 1)] "T1" [])
    as [[r a]|e] eqn:E; [|vm_compute in E; discriminate E].
  assert (Hd : customer_analysis.deliveries a = "bi-weekly"%string)
    by (vm_compute in E; injection E as _ <-; reflexivity).
  exists r, a. split; [reflexivity|]. split; [exact Hd|].
  exact (proj1 (proj2 (proj2 (report_labels_agree _ _ _ _ r a E))) Hd).
Defined.

(** ** What is projected and what is drawn *)

Section AfterTheForecast.
Import Frame customer_analysis.
Context {sk : Sklearn}.

Lemma midnight_le (d d' : Z) : d <= d' -> midnight d <= midnight d'.
Proof.
  intro H. unfold midnight. apply Z.mul_le_mono_nonneg_r; [|exact H].
  pose proof us_per_day_pos. lia.
Qed.

Lemma midnight_lt (d d' : Z) : d < d' -> midnight d < midnight d'.
Proof.
  intro H. unfold midnight. apply Z.mul_lt_mono_pos_r; [apply us_per_day_pos|exact H].
Qed.

(** The dates on the two sides of the seam of a returned frame. *)
Lemma forecast_frame_dates (daily_data : list FeatureRow)
    (customer_data : list OrderRecord) (actual : list (Z * option Q))
    (forecast : list ForecastRow) :
  forecast_intermittent_demand daily_data customer_data = Ok (actual, forecast) ->
  exists last rows,
    max_date (map ds daily_data) = Some last /\
    forecast = map history_row daily_data ++ rows /\
    skipn (length daily_data) forecast = rows /\
    (forall r, In r (map history_row daily_data) -> f_ds r <= last /\ yhat r = None) /\
    (forall r, In r rows -> last + 1 <= f_ds r <= last + 90 /\ yhat r <> None).
Proof.
  intro Hf.
  destruct (forecast_frame_parts _ _ _ _ Hf) as (rows & Hr & _ & Hfc & _ & Hskip).
  destruct (forecast_rows_spec _ _ _ Hr) as (last & preds & Hlast & Hlen & Hrows).
  exists last, rows. split; [exact Hlast|]. split; [exact Hfc|]. split; [exact Hskip|].
  split.
  - intros r Hin. apply in_map_iff in Hin. destruct Hin as [h [<- Hh]].
    split; [|reflexivity]. cbn [f_ds history_row].
    destruct (max_date_spec _ _ Hlast) as [_ Hmax]. apply Hmax, in_map. exact Hh.
  - intros r Hin. split.
    + assert (Hd : In (f_ds r) (map f_ds rows)) by (apply in_map; exact Hin).
      rewrite Hrows, forecast_rows_dates in Hd by exact Hlen.
      rewrite date_range_periods_eq in Hd. apply date_range_In_iff in Hd. lia.
    + rewrite Hrows in Hin. apply in_map_iff in Hin.
      destruct Hin as [dp [<- _]]. discriminate.
Qed.

End AfterTheForecast.

(** X11. The resource projection over a frame the customer forecaster
    returned, read at a clock not before the midnight of the last order
    date: it holds forecast rows only, never a row of the history; it
    holds all 90 of them when the clock is still within the last order
    date, and none when the clock has reached the last forecast date (a
    history that ended 90 days ago or more projects nothing). *)
Theorem projection_holds_future_forecast_rows (sk : Sklearn)
    (daily_data : list customer_analysis.FeatureRow)
    (customer_data : list OrderRecord) (actual : list (Z * option Q))
    (forecast : list customer_analysis.ForecastRow) (now : instant)
    (avg_water avg_electricity : option Q)
    (Hf : customer_analysis.forecast_intermittent_demand daily_data customer_data
          = Ok (actual, forecast)) :
  exists last,
    Frame.max_date (map customer_analysis.ds daily_data) = Some last /\
    (midnight last <= now ->
     forall fr,
       In fr (customer_analysis.calculate_future_resource now forecast
                avg_water avg_electricity) ->
       In (customer_analysis.fr_row fr) (skipn (length daily_data) forecast) /\
       customer_analysis.yhat (customer_analysis.fr_row fr) <> None) /\
    (midnight last <= now < midnight (last + 1) ->
     map customer_analysis.fr_row
       (customer_analysis.calculate_future_resource now forecast
          avg_water avg_electricity)
     = skipn (length daily_data) forecast) /\
    (midnight (last + 90) <= now ->
     customer_analysis.calculate_future_resource now forecast
       avg_water avg_electricity = []).
Proof.
  destruct (forecast_frame_dates _ _ _ _ Hf)
    as (last & rows & Hlast & Hfc & Hskip & Hhist & Hrows).
  exists last. split; [exact Hlast|].
  rewrite Hskip.
  assert (Hh : midnight last <= now ->
               filter (fun r => now <? midnight (customer_analysis.f_ds r))
                      (map customer_analysis.history_row daily_data) = []).
  { intro Hnow. apply filter_none. intros r Hin. apply Z.ltb_ge.
    destruct (Hhist r Hin) as [Hd _]. pose proof (midnight_le _ _ Hd). lia. }
  unfold customer_analysis.calculate_future_resource.
  rewrite Hfc, filter_app. split; [|split].
  - intros Hnow fr Hin. rewrite (Hh Hnow) in Hin. cbn [app] in Hin.
    apply in_map_iff in Hin. destruct Hin as [r [<- Hr]].
    apply filter_In in Hr. destruct Hr as [Hr _].
    cbn [customer_analysis.fr_row]. split; [exact Hr|apply (Hrows r Hr)].
  - intros [Hnow Hlt]. rewrite (Hh Hnow). cbn [app].
    rewrite map_map. cbn [customer_analysis.fr_row]. rewrite map_id.
    apply filter_all. intros r Hr. apply Z.ltb_lt.
    destruct (Hrows r Hr) as [[Hd _] _]. pose proof (midnight_le _ _ Hd). lia.
  - intro Hnow.
    assert (Hn : midnight last <= now).
    { assert (last <= last + 90) as Hl by lia. pose proof (midnight_le _ _ Hl). lia. }
    rewrite (Hh Hn). cbn [app]. rewrite filter_none; [reflexivity|].
    intros r Hr. apply Z.ltb_ge.
    destruct (Hrows r Hr) as [[_ Hd] _]. pose proof (midnight_le _ _ Hd). lia.
Qed.

Lemma projection_holds_future_forecast_rows_witness :
  exists actual forecast,
    @customer_analysis.forecast_intermittent_demand mean_estimators
      (customer_analysis.enhanced_frame (rows_of_customer sample_table "T1") 20000 20003)
      (rows_of_customer sample_table "T1") = Ok (actual, forecast) /\
    midnight (20003 + 90) <= midnight 20200 /\
    customer_analysis.calculate_future_resource (midnight 20200) forecast
      (Some 45%Q) (Some 2%Q) = [].
Proof.
  destruct (@customer_analysis.forecast_intermittent_demand mean_estimators
              (customer_analysis.enhanced_frame (rows_of_customer sample_table "T1")
                 20000 20003)
              (rows_of_customer sample_table "T1")) as [[actual forecast]|e] eqn:E;
    [|vm_compute in E; discriminate E].
  destruct (projection_holds_future_forecast_rows mean_estimators _ _ _ _
              (midnight 20200) (Some 45%Q) (Some 2%Q) E) as (last & Hl & _ & _ & H3).
  vm_compute in Hl. injection Hl as <-.
  assert (Hnow : midnight (20003 + 90) <= midnight 20200) by (vm_compute; discriminate).
  exists actual, forecast. split; [reflexivity|]. split; [exact Hnow|exact (H3 Hnow)].
Defined.

(** X12. The detailed chart draws the rows of the frame dated up to
    31 October 2025, whatever the data. For a history that ends on that
    day or later no point of the chart carries a prediction; for a
    history that ends 90 days before it or earlier the chart draws every
    row of the frame. *)
Theorem detailed_chart_stops_at_oct_end (sk : Sklearn)
    (daily_data : list customer_analysis.FeatureRow)
    (customer_data : list OrderRecord) (actual : list (Z * option Q))
    (forecast : list customer_analysis.ForecastRow) (customer_id : string)
    (Hf : customer_analysis.forecast_intermittent_demand daily_data customer_data
          = Ok (actual, forecast)) :
  customer_analysis.oct_end = 20392 /\
  Calendar.civil customer_analysis.oct_end = (2025, 10, 31) /\
  exists last,
    Frame.max_date (map customer_analysis.ds daily_data) = Some last /\
    (customer_analysis.oct_end <= last ->
     forall pt, In pt (customer_analysis.plot_detailed_forecast forecast customer_id) ->
                snd pt = None) /\
    (last + 90 <= customer_analysis.oct_end ->
     customer_analysis.plot_detailed_forecast forecast customer_id
     = map (fun r => (customer_analysis.f_ds r, customer_analysis.yhat r)) forecast).
Proof.
  split; [reflexivity|]. split; [reflexivity|].
  destruct (forecast_frame_dates _ _ _ _ Hf)
    as (last & rows & Hlast & Hfc & _ & Hhist & Hrows).
  exists last. split; [exact Hlast|].
  unfold customer_analysis.plot_detailed_forecast. split.
  - intros Hend pt Hin. apply in_map_iff in Hin. destruct Hin as [r [<- Hr]].
    apply filter_In in Hr. destruct Hr as [Hr Hd]. apply Z.leb_le in Hd.
    rewrite Hfc in Hr. apply in_app_or in Hr. destruct Hr as [Hr|Hr].
    + apply (Hhist r Hr).
    + destruct (Hrows r Hr) as [[Hlo _] _]. cbn [snd]. lia.
  - intro Hend. f_equal. apply filter_all. intros r Hr. apply Z.leb_le.
    rewrite Hfc in Hr. apply in_app_or in Hr. destruct Hr as [Hr|Hr].
    + destruct (Hhist r Hr) as [Hd _]. lia.
    + destruct (Hrows r Hr) as [[_ Hhi] _]. lia.
Qed.

Lemma detailed_chart_stops_at_oct_end_witness :
  exists actual forecast,
    @customer_analysis.forecast_intermittent_demand mean_estimators
      (customer_analysis.enhanced_frame (rows_of_customer sample_table "T1") 20000 20003)
      (rows_of_customer sample_table "T1") = Ok (actual, forecast) /\
    20003 + 90 <= customer_analysis.oct_end /\
    customer_analysis.plot_detailed_forecast forecast "T1"
    = map (fun r => (customer_analysis.f_ds r, customer_analysis.yhat r)) forecast.
Proof.
  destruct (@customer_analysis.forecast_intermittent_demand mean_estimators
              (customer_analysis.enhanced_frame (rows_of_customer sample_table "T1")
                 20000 20003)
              (rows_of_customer sample_table "T1")) as [[actual forecast]|e] eqn:E;
    [|vm_compute in E; discriminate E].
  destruct (detailed_chart_stops_at_oct_end mean_estimators _ _ _ _ "T1"%string E)
    as (_ & _ & last & Hl & _ & H2).
  vm_compute in Hl. injection Hl as <-.
  assert (Hend : 20003 + 90 <= customer_analysis.oct_end) by (vm_compute; discriminate).
  exists actual, forecast. split; [reflexivity|]. split; [exact Hend|exact (H2 Hend)].
Defined.

(** ** The facility forecast and the facility section *)

Section FacilityForecast.
Import Frame laundry_analysis.
Context {sk : Sklearn}.

Lemma combine_map_r {A B : Type} (f : A -> B) (l : list A) :
  combine l (map f l) = map (fun a => (a, f a)) l.
Proof.
  induction l as [|a t IH]; cbn [map combine]; [reflexivity|].
  rewrite IH. reflexivity.
Qed.

Lemma predict_rows {A : Type} (model : A -> Q) (X : list A) :
  X <> [] -> predict model X = Ok (map model X).
Proof. destruct X; [contradiction|reflexivity]. Qed.

(** The facility forecaster on a series with a row, asked for a day or
    more. *)
Lemma forecast_demand_laundry_rf_Ok (daily_data : list DemandRow) (n : nat) :
  daily_data <> [] -> n <> 0%nat ->
  exists last,
    max_date (map ds daily_data) = Some last /\
    forecast_demand_laundry_rf daily_data n
    = Ok (map add_calendar daily_data,
          rf_predict rf_laundry
            (map (fun r => (calendar_features (ds r), of_int (y r))) daily_data),
          map (fun d => forecast_row d
                 (rf_predict rf_laundry
                    (map (fun r => (calendar_features (ds r), of_int (y r))) daily_data)
                    (calendar_features d)))
              (date_range_periods (last + 1) n)).
Proof.
  intros Hne Hn. unfold forecast_demand_laundry_rf. cbv zeta.
  rewrite !map_map.
  replace (map (fun x => (features_of (add_calendar x), of_int (d_y (add_calendar x))))
               daily_data)
    with (map (fun r => (calendar_features (ds r), of_int (y r))) daily_data)
    by reflexivity.
  replace (map (fun x => d_ds (add_calendar x)) daily_data) with (map ds daily_data)
    by reflexivity.
  assert (Hfit : RandomForestRegressor_fit rf_laundry
                   (map (fun r => (calendar_features (ds r), of_int (y r))) daily_data)
                 = Ok (rf_predict rf_laundry
                         (map (fun r => (calendar_features (ds r), of_int (y r)))
                              daily_data))).
  { destruct daily_data; [contradiction|reflexivity]. }
  rewrite Hfit. cbn [bind].
  destruct (max_date (map ds daily_data)) as [last|] eqn:E.
  2:{ destruct daily_data; [contradiction|discriminate E]. }
  exists last. split; [reflexivity|].
  rewrite predict_rows.
  - cbn [bind]. rewrite map_map, combine_map_r, map_map. reflexivity.
  - destruct n as [|n']; [contradiction|]. discriminate.
Qed.

(** Asked for no day, the forecaster raises: the fit on an empty series,
    the prediction on the empty future frame otherwise. *)
Lemma forecast_demand_laundry_rf_no_day (daily_data : list DemandRow) :
  forecast_demand_laundry_rf daily_data 0 = Raise ValueError.
Proof.
  destruct daily_data as [|r t]; [reflexivity|].
  unfold forecast_demand_laundry_rf, RandomForestRegressor_fit. cbv zeta.
  cbn [map check_samples bind].
  destruct (max_date _); reflexivity.
Qed.

Lemma prepare_laundry_data_nonempty (df : list OrderRecord) (laundry_id : string) :
  rows_of_laundry df laundry_id <> [] -> prepare_laundry_data df laundry_id <> [].
Proof.
  intros Hne E. unfold prepare_laundry_data, groupby in E. cbv zeta in E.
  apply map_eq_nil, map_eq_nil in E.
  apply (group_keys_nonempty (map StartDate (rows_of_laundry df laundry_id))); [|exact E].
  destruct (rows_of_laundry df laundry_id); [contradiction|discriminate].
Qed.

End FacilityForecast.

(** X13. The facility forecaster raises [ValueError] on an empty series
    and when it is asked for no day.  On a series with a row and for one
    day or more it returns the series with the three calendar columns of
    each date added, the forest fitted on those columns and the counts,
    and exactly [forecast_days] forecast rows, dated day by day from the
    day after the last date of the series; each forecast row carries the
    calendar columns of its date, its prediction is the fitted model on
    them, and the prediction lies between the two bounds. *)
Theorem facility_forecast_shape (sk : Sklearn)
    (daily_data : list laundry_analysis.DemandRow) (forecast_days : nat) :
  (daily_data = [] \/ forecast_days = 0%nat ->
   laundry_analysis.forecast_demand_laundry_rf daily_data forecast_days
   = Raise ValueError)
  /\
  (daily_data <> [] -> forecast_days <> 0%nat ->
   exists last data model forecast,
     Frame.max_date (map laundry_analysis.ds daily_data) = Some last /\
     laundry_analysis.forecast_demand_laundry_rf daily_data forecast_days
       = Ok (data, model, forecast) /\
     data = map laundry_analysis.add_calendar daily_data /\
     map laundry_analysis.d_ds data = map laundry_analysis.ds daily_data /\
     map laundry_analysis.d_y data = map laundry_analysis.y daily_data /\
     (forall r, In r data ->
        laundry_analysis.features_of r
        = laundry_analysis.calendar_features (laundry_analysis.d_ds r)) /\
     model = rf_predict laundry_analysis.rf_laundry
               (map (fun r => (laundry_analysis.features_of r,
                               Frame.of_int (laundry_analysis.d_y r))) data) /\
     length forecast = forecast_days /\
     map laundry_analysis.f_ds forecast
       = Frame.date_range_periods (last + 1) forecast_days /\
     forall r, In r forecast ->
       [ Frame.of_int (laundry_analysis.f_DayOfYear r);
         Frame.of_int (laundry_analysis.f_DayOfWeek r);
         Frame.of_int (laundry_analysis.f_WeekOfYear r) ]
       = laundry_analysis.calendar_features (laundry_analysis.f_ds r) /\
       laundry_analysis.yhat r
         = model (laundry_analysis.calendar_features (laundry_analysis.f_ds r)) /\
       (laundry_analysis.yhat_lower r <= laundry_analysis.yhat r)%Q /\
       (laundry_analysis.yhat r <= laundry_analysis.yhat_upper r)%Q).
Proof.
  split.
  - intros [->| ->]; [reflexivity|apply forecast_demand_laundry_rf_no_day].
  - intros Hne Hn.
    destruct (forecast_demand_laundry_rf_Ok daily_data forecast_days Hne Hn)
      as [last [Hl Hf]].
    eexists last, _, _, _. split; [exact Hl|]. split; [exact Hf|].
    split; [reflexivity|].
    split; [rewrite map_map; reflexivity|].
    split; [rewrite map_map; reflexivity|].
    split.
    { intros r Hr. apply in_map_iff in Hr. destruct Hr as [d [<- _]]. reflexivity. }
    split; [rewrite map_map; reflexivity|].
    split; [|split].
    + unfold Frame.date_range_periods. rewrite !length_map, length_seq. reflexivity.
    + rewrite map_map. cbn [laundry_analysis.f_ds laundry_analysis.forecast_row].
      apply map_id.
    + intros r Hr. apply in_map_iff in Hr. destruct Hr as [d [<- _]].
      split; [reflexivity|]. split; [reflexivity|]. apply laundry_band.
Qed.

Lemma facility_forecast_shape_witness :
  laundry_analysis.prepare_laundry_data sample_table "L1" <> [] /\
  7%nat <> 0%nat /\
  exists last data model forecast,
    Frame.max_date (map laundry_analysis.ds
                      (laundry_analysis.prepare_laundry_data sample_table "L1"))
      = Some last /\
    @laundry_analysis.forecast_demand_laundry_rf mean_estimators
      (laundry_analysis.prepare_laundry_data sample_table "L1") 7
      = Ok (data, model, forecast) /\
    data = map laundry_analysis.add_calendar
             (laundry_analysis.prepare_laundry_data sample_table "L1") /\
    length forecast = 7%nat.
Proof.
  assert (Hne : laundry_analysis.prepare_laundry_data sample_table "L1" <> [])
    by (vm_compute; discriminate).
  assert (Hn : 7%nat <> 0%nat) by discriminate.
  split; [exact Hne|]. split; [exact Hn|].
  destruct (proj2 (facility_forecast_shape mean_estimators
                     (laundry_analysis.prepare_laundry_data sample_table "L1") 7) Hne Hn)
    as (last & data & model & forecast & H1 & H2 & H3 & _ & _ & _ & _ & H8 & _).
  exists last, data, model, forecast. repeat split; assumption.
Defined.

(** X14. For a facility with at least one order row every tab of the
    facility section shows its page and none raises: the peak forecast
    with the facility series, its calendar columns added, and a 30-day
    forecast, the peak alerts, and the resources page on the resource
    analysis of the facility, with one ratio of water and one of
    electricity per day of it and a low-demand forecast that is always
    present (it has 7 days).  The average water per order is the sum of
    the water column of the analysis over the number of order rows of the
    facility whose customer identifier is present; when every order row
    carries one, that is the number of its order rows, and the average
    and the per-day ratios are all numbers. *)
Theorem facility_section_always_renders (sk : Sklearn) (df : list OrderRecord)
    (laundry_id : string) (slider : Z)
    (Hid : laundry_id <> EmptyString)
    (Hne : rows_of_laundry df laundry_id <> []) :
  (exists forecast peaks,
     laundry_analysis.laundry_section df laundry_id laundry_analysis.PeakForecast slider
     = Ok (laundry_analysis.PeakForecastPage
             (map laundry_analysis.add_calendar
                  (laundry_analysis.prepare_laundry_data df laundry_id))
             forecast peaks) /\
     length forecast = 30%nat) /\
  (exists peaks,
     laundry_analysis.laundry_section df laundry_id laundry_analysis.PeakAlerts slider
     = Ok (laundry_analysis.PeakAlertsPage peaks)) /\
  (exists usage avg_w avg_e per_day_w per_day_e forecast low,
     laundry_analysis.laundry_section df laundry_id laundry_analysis.Resources slider
     = Ok (laundry_analysis.ResourcePage usage avg_w avg_e per_day_w per_day_e
             (Some (forecast, low))) /\
     laundry_analysis.laundry_resource_analysis df laundry_id = Ok usage /\
     length per_day_w = length usage /\
     length per_day_e = length usage /\
     length forecast = 7%nat /\
     low = laundry_analysis.low_demand_days (inject_Z slider) forecast /\
     avg_w = Frame.np_div (Frame.Qsum (map laundry_analysis.WaterConsumption usage))
               (laundry_analysis.notna_count
                  (map TenantID (rows_of_laundry df laundry_id))) /\
     avg_e = Frame.np_div
               (Frame.Qsum (map laundry_analysis.ElectricityConsumption usage))
               (laundry_analysis.notna_count
                  (map TenantID (rows_of_laundry df laundry_id))) /\
     ((forall r, In r (rows_of_laundry df laundry_id) -> TenantID r <> EmptyString) ->
      (forall c, In c per_day_w \/ In c per_day_e -> c <> None) /\
      avg_w = Some (Frame.Qsum (map laundry_analysis.WaterConsumption usage)
                    / inject_Z (Z.of_nat (length (rows_of_laundry df laundry_id))))%Q /\
      avg_e = Some (Frame.Qsum (map laundry_analysis.ElectricityConsumption usage)
                    / inject_Z (Z.of_nat (length (rows_of_laundry df laundry_id))))%Q)).
Proof.
  apply String.eqb_neq in Hid.
  pose proof (prepare_laundry_data_nonempty df laundry_id Hne) as Hd.
  unfold laundry_analysis.laundry_section. rewrite Hid.
  unfold laundry_analysis.show_peak_forecast, laundry_analysis.show_peak_alerts,
    laundry_analysis.show_resource_analysis, laundry_analysis.detect_low_demand_days.
  destruct (forecast_demand_laundry_rf_Ok _ 30 Hd) as [last [_ H30]]; [discriminate|].
  destruct (forecast_demand_laundry_rf_Ok _ 7 Hd) as [last' [_ H7]]; [discriminate|].
  destruct (laundry_analysis.prepare_laundry_data df laundry_id) as [|d0 dl] eqn:Ed;
    [contradiction|].
  rewrite H30, H7. cbn [bind fst snd].
  split; [|split].
  - eexists _, _. split; [reflexivity|].
    unfold Frame.date_range_periods. rewrite !length_map, length_seq. reflexivity.
  - eexists. reflexivity.
  - destruct (laundry_resource_analysis_total df laundry_id Hne) as [usage [Hu Hun]].
    rewrite Hu. cbn [bind]. destruct usage as [|u0 ul] eqn:Eu; [contradiction|].
    rewrite <- Eu in *.
    eexists _, _, _, _, _, _, _.
    split; [rewrite Eu; reflexivity|].
    split; [reflexivity|].
    split; [apply length_map|]. split; [apply length_map|].
    split; [unfold Frame.date_range_periods; rewrite !length_map, length_seq;
            reflexivity|].
    split; [reflexivity|].
    destruct (laundry_resource_analysis_columns df laundry_id usage Hu)
      as (_ & Hc & _).
    assert (Hsum : fold_right Z.add 0 (map laundry_analysis.OrderCount usage)
                   = laundry_analysis.notna_count
                       (map TenantID (rows_of_laundry df laundry_id))).
    { rewrite Hc, notna_count_rows.
      rewrite (map_ext _ _ (notna_count_of_day (rows_of_laundry df laundry_id))).
      apply group_counts_total; [apply group_keys_NoDup|].
      intros r Hr. apply filter_In in Hr. apply group_keys_cover. exact (proj1 Hr). }
    rewrite Hsum.
    split; [reflexivity|]. split; [reflexivity|].
    intro Hall.
    assert (Hpos : forall u, In u usage -> 1 <= laundry_analysis.OrderCount u).
    { intros u Hin.
      destruct (laundry_resource_analysis_row_count df laundry_id usage u Hu Hin)
        as [Hday Hcu].
      rewrite Hcu. apply notna_count_pos.
      destruct (filter (fun r => StartDate r =? laundry_analysis.u_date u)
                       (rows_of_laundry df laundry_id)) as [|r t] eqn:E;
        [contradiction|].
      exists (TenantID r). split; [left; reflexivity|].
      apply Hall.
      assert (Hr : In r (filter (fun r => StartDate r =? laundry_analysis.u_date u)
                                (rows_of_laundry df laundry_id)))
        by (rewrite E; left; reflexivity).
      apply filter_In in Hr. exact (proj1 Hr). }
    assert (Htot : laundry_analysis.notna_count
                     (map TenantID (rows_of_laundry df laundry_id))
                   = Z.of_nat (length (rows_of_laundry df laundry_id))).
    { rewrite notna_count_rows. do 2 f_equal.
      apply forallb_filter_id. apply forallb_forall. intros r Hr.
      destruct (String.eqb (TenantID r) EmptyString) eqn:E; [|reflexivity].
      apply String.eqb_eq in E. exfalso. exact (Hall r Hr E). }
    assert (Hn : 1 <= Z.of_nat (length (rows_of_laundry df laundry_id))).
    { destruct (rows_of_laundry df laundry_id); [contradiction|cbn [length]; lia]. }
    split.
    { intros c [Hin|Hin]; apply in_map_iff in Hin; destruct Hin as [u [<- Hin]];
        rewrite np_div_defined by (apply Hpos; exact Hin); discriminate. }
    rewrite Htot. split; apply np_div_defined; exact Hn.
Qed.

Lemma facility_section_always_renders_witness :
  "L1"%string <> EmptyString /\ rows_of_laundry sample_table "L1" <> [] /\
  (exists peaks,
     @laundry_analysis.laundry_section mean_estimators sample_table "L1"
        laundry_analysis.PeakAlerts 1 = Ok (laundry_analysis.PeakAlertsPage peaks)) /\
  (exists usage avg_w avg_e per_day_w per_day_e forecast low,
     @laundry_analysis.laundry_section mean_estimators sample_table "L1"
        laundry_analysis.Resources 1
     = Ok (laundry_analysis.ResourcePage usage avg_w avg_e per_day_w per_day_e
             (Some (forecast, low))) /\
     length forecast = 7%nat).
Proof.
  assert (Hid : "L1"%string <> EmptyString) by discriminate.
  assert (Hne : rows_of_laundry sample_table "L1" <> []) by (vm_compute; discriminate).
  split; [exact Hid|]. split; [exact Hne|].
  destruct (facility_section_always_renders mean_estimators sample_table
              "L1" 1 Hid Hne)
    as (_ & Ha & usage & avg_w & avg_e & pw & pe & forecast & low & Hp & _ & _ & _
        & H7 & _).
  split; [exact Ha|].
  exists usage, avg_w, avg_e, pw, pe, forecast, low. split; [exact Hp|exact H7].
Defined.

(** ** The average gap between orders *)

Section AverageGap.
Import Frame customer_analysis.

Lemma insert_sorted_In (k x : Z) (l : list Z) :
  In x (insert_sorted k l) <-> x = k \/ In x l.
Proof.
  induction l as [|h t IH]; simpl; [intuition|].
  destruct (k <=? h); simpl; [intuition|]. rewrite IH. intuition.
Qed.

Lemma insert_sorted_length (k : Z) (l : list Z) :
  length (insert_sorted k l) = S (length l).
Proof.
  induction l as [|h t IH]; simpl; [reflexivity|].
  destruct (k <=? h); simpl; [reflexivity|]. rewrite IH. reflexivity.
Qed.

Lemma insert_sorted_Sorted (k : Z) (l : list Z) :
  Sorted Z.le l -> Sorted Z.le (insert_sorted k l).
Proof.
  induction 1 as [|h t Hs IH Hh]; simpl; [repeat constructor|].
  destruct (k <=? h) eqn:E.
  - apply Z.leb_le in E. repeat constructor; assumption.
  - apply Z.leb_gt in E. constructor; [exact IH|].
    destruct t as [|h' t']; simpl.
    + constructor. lia.
    + inversion Hh; subst. destruct (k <=? h'); constructor; lia.
Qed.

Lemma sort_values_In (x : Z) (l : list Z) : In x (sort_values l) <-> In x l.
Proof.
  induction l as [|h t IH]; simpl; [tauto|].
  rewrite insert_sorted_In, IH. intuition.
Qed.

Lemma sort_values_length (l : list Z) : length (sort_values l) = length l.
Proof.
  induction l as [|h t IH]; simpl; [reflexivity|].
  rewrite insert_sorted_length, IH. reflexivity.
Qed.

Lemma sort_values_Sorted (l : list Z) : StronglySorted Z.le (sort_values l).
Proof.
  apply Sorted_StronglySorted; [intros a b c; apply Z.le_trans|].
  induction l; simpl; [constructor|apply insert_sorted_Sorted; assumption].
Qed.

Lemma last_default (l : list Z) (d d' : Z) : l <> [] -> last l d = last l d'.
Proof.
  induction l as [|h t IH]; [contradiction|]. intros _.
  destruct t as [|b t']; [reflexivity|].
  change (last (h :: b :: t') d) with (last (b :: t') d).
  change (last (h :: b :: t') d') with (last (b :: t') d').
  apply IH. discriminate.
Qed.

(** The differences of neighbours add up to the last minus the first. *)
Lemma diff_telescopes (a : Z) (t : list Z) :
  fold_right Z.add 0 (diff (a :: t)) = last (a :: t) a - a.
Proof.
  revert a. induction t as [|b t IH]; intro a; [simpl; lia|].
  change (diff (a :: b :: t)) with ((b - a) :: diff (b :: t)).
  cbn [fold_right]. rewrite IH.
  change (last (a :: b :: t) a) with (last (b :: t) a).
  rewrite (last_default (b :: t) a b) by discriminate. lia.
Qed.

Lemma diff_length (a : Z) (t : list Z) : length (diff (a :: t)) = length t.
Proof.
  revert a. induction t as [|b t IH]; intro a; [reflexivity|].
  change (diff (a :: b :: t)) with ((b - a) :: diff (b :: t)).
  cbn [length]. rewrite IH. reflexivity.
Qed.

Lemma last_In (l : list Z) (d : Z) : l <> [] -> In (last l d) l.
Proof.
  induction l as [|h t IH]; [contradiction|]. intros _.
  destruct t as [|b t']; [left; reflexivity|].
  change (last (h :: b :: t') d) with (last (b :: t') d).
  right. apply IH. discriminate.
Qed.

Lemma sorted_last_is_max (l : list Z) (d x : Z) :
  StronglySorted Z.le l -> In x l -> x <= last l d.
Proof.
  induction 1 as [|h t Hs IH Hall]; [contradiction|].
  intros [->|Hin].
  - destruct t as [|b t']; [simpl; lia|].
    change (last (x :: b :: t') d) with (last (b :: t') d).
    rewrite Forall_forall in Hall.
    apply Hall. apply last_In. discriminate.
  - destruct t as [|b t']; [contradiction|].
    change (last (h :: b :: t') d) with (last (b :: t') d). apply IH. exact Hin.
Qed.

Lemma Qsum_inject (l : list Z) :
  (Qsum (present (map of_int l)) == inject_Z (fold_right Z.add 0%Z l))%Q.
Proof.
  induction l as [|a t IH]; cbn [map present Qsum fold_right of_int]; [reflexivity|].
  rewrite IH, inject_Z_plus. reflexivity.
Qed.

Lemma present_of_int_length (l : list Z) : length (present (map of_int l)) = length l.
Proof. induction l as [|a t IH]; cbn [map present of_int length]; [reflexivity|]. rewrite IH. reflexivity. Qed.

End AverageGap.

Section AverageGapValue.
Import Frame customer_analysis.

Lemma mean_of_ints (l : list Z) :
  l <> [] ->
  exists q, mean (map of_int l) = Some q /\
            (q == inject_Z (fold_right Z.add 0%Z l) / inject_Z (Z.of_nat (length l)))%Q.
Proof.
  intro Hne. unfold mean.
  pose proof (present_of_int_length l) as Hlen. pose proof (Qsum_inject l) as Hsum.
  destruct (present (map of_int l)) as [|v vs] eqn:E.
  - destruct l; [contradiction|discriminate Hlen].
  - eexists. split; [reflexivity|]. rewrite Hsum, Hlen. reflexivity.
Qed.

(** The first and the last of the sorted dates are the least and the
    greatest date. *)
Lemma sort_values_ends (l : list Z) (lo hi : Z) :
  min_date l = Some lo -> max_date l = Some hi ->
  exists t, sort_values l = lo :: t /\ last (lo :: t) lo = hi.
Proof.
  intros Hmin Hmax.
  destruct (min_date_spec _ _ Hmin) as [Hlo_in Hlo].
  destruct (max_date_spec _ _ Hmax) as [Hhi_in Hhi].
  pose proof (sort_values_Sorted l) as Hs.
  destruct (sort_values l) as [|a t] eqn:E.
  - apply sort_values_In in Hlo_in. rewrite E in Hlo_in. contradiction.
  - assert (Ha : a = lo).
    { assert (In a l) by (apply sort_values_In; rewrite E; left; reflexivity).
      assert (Hin : In lo (a :: t)) by (rewrite <- E; apply sort_values_In; exact Hlo_in).
      inversion Hs as [|? ? _ Hall]; subst. rewrite Forall_forall in Hall.
      destruct Hin as [Heq|Hin]; [exact Heq|].
      specialize (Hall lo Hin). specialize (Hlo a H). lia. }
    subst a. exists t. split; [reflexivity|].
    assert (H1 : hi <= last (lo :: t) lo).
    { apply sorted_last_is_max; [exact Hs|].
      rewrite <- E. apply sort_values_In. exact Hhi_in. }
    assert (H2 : In (last (lo :: t) lo) l).
    { apply sort_values_In. rewrite E. apply last_In. discriminate. }
    specialize (Hhi _ H2). lia.
Qed.

End AverageGapValue.

(** X15. "Average days between orders": for a customer with two order
    rows or more it is the number of days from the first to the last
    order date divided by the number of order rows minus one, whatever
    the order of the rows and whatever the clock; for a customer with one
    order row it is NaN. *)
Theorem average_gap_is_span_over_intervals (today : instant)
    (data : list OrderRecord) (lo hi : Z)
    (Hmin : Frame.min_date (map StartDate data) = Some lo)
    (Hmax : Frame.max_date (map StartDate data) = Some hi) :
  (length data = 1%nat ->
   customer_analysis.avg_days_between
     (customer_analysis.generate_customer_insights today data) = None) /\
  ((2 <= length data)%nat ->
   exists q,
     customer_analysis.avg_days_between
       (customer_analysis.generate_customer_insights today data) = Some q /\
     (q == inject_Z (hi - lo) / inject_Z (Z.of_nat (length data) - 1))%Q).
Proof.
  unfold customer_analysis.generate_customer_insights.
  cbn [customer_analysis.avg_days_between].
  rewrite sort_values_length, length_map.
  split.
  - intros ->. reflexivity.
  - intro Hn.
    assert (E : (1 <? length data)%nat = true) by (apply Nat.ltb_lt; lia).
    rewrite E.
    destruct (sort_values_ends _ lo hi Hmin Hmax) as [t [Hs Hl]].
    assert (Hlen : length t = (length data - 1)%nat).
    { pose proof (sort_values_length (map StartDate data)) as H.
      rewrite Hs, length_map in H. cbn [length] in H. lia. }
    rewrite Hs.
    destruct (mean_of_ints (customer_analysis.diff (lo :: t))) as [q [Hq Hv]].
    { intro Ed. apply (f_equal (@length _)) in Ed.
      rewrite diff_length, Hlen in Ed. cbn [length] in Ed. lia. }
    exists q. split; [exact Hq|].
    rewrite Hv, diff_telescopes, Hl, diff_length, Hlen.
    replace (Z.of_nat (length data - 1)) with (Z.of_nat (length data) - 1) by lia.
    reflexivity.
Qed.

Lemma average_gap_is_span_over_intervals_witness :
  exists q,
    customer_analysis.avg_days_between
      (customer_analysis.generate_customer_insights 0
         (rows_of_customer sample_table "T1")) = Some q /\
    (q == inject_Z (20003 - 20000)
          / inject_Z (Z.of_nat (length (rows_of_customer sample_table "T1")) - 1))%Q.
Proof.
  assert (Hn : (2 <= length (rows_of_customer sample_table "T1"))%nat)
    by (vm_compute; lia).
  exact (proj2 (average_gap_is_span_over_intervals 0
                  (rows_of_customer sample_table "T1") 20000 20003 eq_refl eq_refl) Hn).
Defined.

(** ** No look-ahead in the features *)

Section NoLookAhead.
Import Frame customer_analysis.

Lemma filter_key_below {A : Type} (key : A -> Z) (rows : list A) (x d : Z) :
  x <= d ->
  filter (fun r => key r =? x) (filter (fun r => key r <=? d) rows)
  = filter (fun r => key r =? x) rows.
Proof.
  intro Hx. induction rows as [|r t IH]; [reflexivity|].
  cbn [filter]. destruct (key r <=? d) eqn:E1; cbn [filter].
  - rewrite IH. reflexivity.
  - rewrite IH. destruct (key r =? x) eqn:E2; [|reflexivity].
    apply Z.eqb_eq in E2. apply Z.leb_gt in E1. lia.
Qed.

(** The count of a day reads only the rows up to that day. *)
Lemma count_key_below {A : Type} (key : A -> Z) (rows : list A) (x d : Z) :
  x <= d ->
  count_key key rows x = count_key key (filter (fun r => key r <=? d) rows) x.
Proof.
  intro Hx. unfold count_key. rewrite (filter_key_below key rows x d Hx). reflexivity.
Qed.

Lemma window_of_prefix (w : nat) (col : list (option Q)) (i : nat) :
  window w col i = window w (firstn (S i) col) i.
Proof.
  unfold window. rewrite skipn_firstn_comm, firstn_firstn.
  f_equal. lia.
Qed.

Lemma firstn_seq_prefix (m n : nat) : (m <= n)%nat -> firstn m (seq 0 n) = seq 0 m.
Proof.
  intro Hle. replace n with (m + (n - m))%nat by lia.
  rewrite seq_app, firstn_app, length_seq, Nat.sub_diag. cbn [firstn].
  rewrite firstn_all2 by (rewrite length_seq; lia). apply app_nil_r.
Qed.

Lemma firstn_counts (f : Z -> option Q) (lo hi : Z) (i : nat) :
  lo + Z.of_nat i <= hi ->
  firstn (S i) (map f (date_range lo hi)) = map f (date_range lo (lo + Z.of_nat i)).
Proof.
  intro Hi. unfold date_range. rewrite !firstn_map, firstn_seq_prefix by lia.
  do 3 f_equal. lia.
Qed.

Lemma unique_In (x : Z) (l : list Z) : In x (unique l) <-> In x l.
Proof.
  induction l as [|h t IH]; [reflexivity|].
  cbn [unique]. split.
  - intros [->|Hin]; [left; reflexivity|].
    apply filter_In in Hin. right. apply IH. apply Hin.
  - intros [->|Hin]; [left; reflexivity|].
    destruct (Z.eq_dec x h) as [->|Hne]; [left; reflexivity|].
    right. apply filter_In. split; [apply IH; exact Hin|].
    apply negb_true_iff. apply Z.eqb_neq. exact Hne.
Qed.

Lemma isin_iff (x : Z) (l : list Z) : isin x l = true <-> In x l.
Proof.
  unfold isin. rewrite existsb_exists. split.
  - intros [v [Hv E]]. apply Z.eqb_eq in E. subst. exact Hv.
  - intro Hin. exists x. split; [exact Hin|apply Z.eqb_refl].
Qed.

(** Whether a day is a holiday reads only the rows up to that day. *)
Lemma holiday_below (data : list OrderRecord) (x d : Z) :
  x <= d ->
  isin x (holiday_dates data)
  = isin x (holiday_dates (filter (fun r => StartDate r <=? d) data)).
Proof.
  intro Hx.
  assert (H : In x (holiday_dates data)
              <-> In x (holiday_dates (filter (fun r => StartDate r <=? d) data))).
  { unfold holiday_dates. rewrite !unique_In, !in_map_iff. split.
    - intros [r [Hr Hin]]. exists r. split; [exact Hr|].
      apply filter_In in Hin. destruct Hin as [Hin Hh].
      apply filter_In. split; [|exact Hh].
      apply filter_In. split; [exact Hin|]. apply Z.leb_le. lia.
    - intros [r [Hr Hin]]. exists r. split; [exact Hr|].
      apply filter_In in Hin. destruct Hin as [Hin Hh].
      apply filter_In in Hin. destruct Hin as [Hin _].
      apply filter_In. split; assumption. }
  destruct (isin x (holiday_dates data)) eqn:E1;
    destruct (isin x (holiday_dates (filter (fun r => StartDate r <=? d) data))) eqn:E2;
    try reflexivity.
  - apply isin_iff, H, isin_iff in E1. congruence.
  - apply isin_iff, H, isin_iff in E2. congruence.
Qed.

(** Row [i] of the frame, written on the rows of the table up to its
    day. *)
Lemma enhanced_frame_row_below (data : list OrderRecord) (lo hi : Z) (i : nat)
    (r : FeatureRow) :
  lo <= hi ->
  nth_error (enhanced_frame data lo hi) i = Some r ->
  let d := lo + Z.of_nat i in
  let past := filter (fun o => StartDate o <=? d) data in
  let ords := map (fun x => of_int (count_key StartDate past x)) (date_range lo d) in
  r = {| ds := d;
         orders := of_int (count_key StartDate past d);
         feats :=
           {| day_of_week := Calendar.weekday d;
              is_weekend := flag (isin (Calendar.weekday d) [5; 6]);
              month := Calendar.month d;
              day_of_month := Calendar.day d;
              time_idx := Z.of_nat i;
              orders_7d_avg := mean (window 7 ords i);
              orders_28d_avg := mean (window 28 ords i);
              lag_1 := if (i <? 1)%nat then Some 0%Q
                       else of_int (count_key StartDate past (lo + Z.of_nat (i - 1)));
              lag_7 := if (i <? 7)%nat then Some 0%Q
                       else of_int (count_key StartDate past (lo + Z.of_nat (i - 7)));
              lag_14 := if (i <? 14)%nat then Some 0%Q
                        else of_int (count_key StartDate past (lo + Z.of_nat (i - 14)));
              lag_28 := if (i <? 28)%nat then Some 0%Q
                        else of_int (count_key StartDate past (lo + Z.of_nat (i - 28)));
              is_holiday := flag (isin d (holiday_dates past)) |} |}.
Proof.
  intros Hle E d past ords.
  destruct (enhanced_frame_eq data lo hi) as (ords' & dates & ds_min & Hd & Hm & Ho' & Hf).
  rewrite Hf in E. apply nth_error_map_seq in E. destruct E as [Hi Er].
  subst dates. rewrite date_range_length in Hi.
  rewrite min_date_date_range in Hm by exact Hle. subst ds_min.
  assert (Hlen : length ords' = Z.to_nat (hi - lo + 1))
    by (subst ords'; rewrite length_map, date_range_length; reflexivity).
  assert (Hpre : firstn (S i) ords' = ords).
  { subst ords' ords. rewrite firstn_counts by lia.
    apply map_ext_in. intros x Hx. apply date_range_In_iff in Hx.
    f_equal. apply count_key_below. subst d. lia. }
  assert (Hcnt : forall k, count_key StartDate data (lo + Z.of_nat (i - k))
                           = count_key StartDate past (lo + Z.of_nat (i - k))).
  { intro k. apply count_key_below. subst d. lia. }
  assert (Hlag : forall k,
    at_ (map fillna0 (shift k ords')) i
    = if (i <? k)%nat then Some 0%Q
      else of_int (count_key StartDate past (lo + Z.of_nat (i - k)))).
  { intro k. subst ords'. rewrite (lag_count data lo hi k i Hi), Hcnt. reflexivity. }
  assert (Hroll : forall w, at_ (rolling_mean w ords') i = mean (window w ords i)).
  { intro w. rewrite rolling_mean_at by (rewrite Hlen; exact Hi).
    rewrite window_of_prefix, Hpre. reflexivity. }
  assert (Hord : at_ ords' i = of_int (count_key StartDate past d)).
  { subst ords'. rewrite (at_map _ _ 0) by (rewrite date_range_length; exact Hi).
    rewrite date_range_nth by exact Hi. fold d. f_equal.
    apply count_key_below. lia. }
  rewrite Er. cbv zeta. rewrite date_range_nth by exact Hi. fold d.
  rewrite !Hlag, !Hroll, Hord, (holiday_below data d d) by lia. fold past.
  replace (d - lo) with (Z.of_nat i) by (subst d; lia).
  reflexivity.
Qed.

End NoLookAhead.

(** X16. No look-ahead: row [i] of a customer's daily series is fixed by
    the first order date and the order rows dated up to that row's day.
    Two tables with the same first order date whose rows up to day
    [first + i] are the same give the same row [i], whatever orders
    either table holds after that day. *)
Theorem features_read_no_later_order (data1 data2 : list OrderRecord)
    (lo : Z) (i : nat)
    (rows1 rows2 : list customer_analysis.FeatureRow)
    (r1 r2 : customer_analysis.FeatureRow)
    (Hmin1 : Frame.min_date (map StartDate data1) = Some lo)
    (Hmin2 : Frame.min_date (map StartDate data2) = Some lo)
    (Hpast : filter (fun o => StartDate o <=? lo + Z.of_nat i) data1
             = filter (fun o => StartDate o <=? lo + Z.of_nat i) data2)
    (Hp1 : customer_analysis.prepare_enhanced_data data1 = Ok rows1)
    (Hp2 : customer_analysis.prepare_enhanced_data data2 = Ok rows2)
    (Hr1 : nth_error rows1 i = Some r1)
    (Hr2 : nth_error rows2 i = Some r2) :
  r1 = r2.
Proof.
  assert (Hne1 : data1 <> []) by (intros ->; discriminate).
  assert (Hne2 : data2 <> []) by (intros ->; discriminate).
  destruct (prepare_enhanced_data_eq data1 Hne1) as (lo1 & h1 & Hm1 & _ & Hle1 & Hq1).
  destruct (prepare_enhanced_data_eq data2 Hne2) as (lo2 & h2 & Hm2 & _ & Hle2 & Hq2).
  rewrite Hmin1 in Hm1. injection Hm1 as <-.
  rewrite Hmin2 in Hm2. injection Hm2 as <-.
  rewrite Hq1 in Hp1. injection Hp1 as <-.
  rewrite Hq2 in Hp2. injection Hp2 as <-.
  rewrite (enhanced_frame_row_below data1 lo h1 i r1 Hle1 Hr1).
  rewrite (enhanced_frame_row_below data2 lo h2 i r2 Hle2 Hr2).
  cbv zeta. rewrite Hpast. reflexivity.
Qed.

Lemma features_read_no_later_order_witness :
  exists rows1 rows2 r1 r2,
    customer_analysis.prepare_enhanced_data (rows_of_customer sample_table "T1")
      = Ok rows1 /\
    customer_analysis.prepare_enhanced_data
      (rows_of_customer sample_table "T1" ++ [order "T1" "L1" 20010 (30 # 1) (1 # 1)])
      = Ok rows2 /\
    length rows1 = 4%nat /\ length rows2 = 11%nat /\
    nth_error rows1 2 = Some r1 /\ nth_error rows2 2 = Some r2 /\
    r1 = r2.
Proof.
  destruct (customer_analysis.prepare_enhanced_data (rows_of_customer sample_table "T1"))
    as [rows1|e] eqn:E1; [|vm_compute in E1; discriminate E1].
  destruct (customer_analysis.prepare_enhanced_data
              (rows_of_customer sample_table "T1"
               ++ [order "T1" "L1" 20010 (30 # 1) (1 # 1)]))
    as [rows2|e] eqn:E2; [|vm_compute in E2; discriminate E2].
  destruct (nth_error rows1 2) as [r1|] eqn:N1;
    [|exfalso; vm_compute in E1; injection E1 as <-; discriminate N1].
  destruct (nth_error rows2 2) as [r2|] eqn:N2;
    [|exfalso; vm_compute in E2; injection E2 as <-; discriminate N2].
  exists rows1, rows2, r1, r2.
  split; [reflexivity|]. split; [reflexivity|].
  split; [vm_compute in E1; injection E1 as <-; reflexivity|].
  split; [vm_compute in E2; injection E2 as <-; reflexivity|].
  split; [exact N1|]. split; [exact N2|].
  exact (features_read_no_later_order
           (rows_of_customer sample_table "T1")
           (rows_of_customer sample_table "T1"
            ++ [order "T1" "L1" 20010 (30 # 1) (1 # 1)])
           20000 2 rows1 rows2 r1 r2 eq_refl eq_refl eq_refl E1 E2 N1 N2).
Defined.

(** ** What the forest is shown *)

Section ForestInputs.
Import Frame customer_analysis.

Lemma combine_map_same {A B C : Type} (f : A -> B) (g : A -> C) (l : list A) :
  combine (map f l) (map g l) = map (fun a => (f a, g a)) l.
Proof. induction l as [|a t IH]; cbn [map combine]; [reflexivity|]. rewrite IH. reflexivity. Qed.

Lemma int_mul_0_8_below (n : nat) : (1 <= n)%nat -> (int_mul_0_8 n < n)%nat.
Proof.
  intro Hn. unfold int_mul_0_8.
  assert (Z.of_nat n * 8 / 10 < Z.of_nat n) by (apply Z.div_lt_upper_bound; lia).
  assert (0 <= Z.of_nat n * 8 / 10) by (apply Z.div_pos; lia).
  lia.
Qed.

Lemma Ok_inj {A : Type} (a b : A) : Ok a = Ok b -> a = b.
Proof. intro E. injection E as E. exact E. Qed.

(** The feature row of each future date, as a function of the date. *)
Lemma future_data_rows (daily_data : list FeatureRow) (holidays : list Z)
    (rows : list Features) (i : nat) (f : Features) :
  daily_data <> [] ->
  future_data daily_data holidays = Ok rows ->
  nth_error rows i = Some f ->
  exists last,
    max_date (map ds daily_data) = Some last /\
    future_features daily_data holidays (last + 1 + Z.of_nat i) = Ok f.
Proof.
  intros Hne Hfd Hn.
  destruct (max_date (map ds daily_data)) as [last|] eqn:Emax;
    [|destruct daily_data; [contradiction|discriminate]].
  exists last. split; [reflexivity|].
  unfold future_data, future_dates in Hfd. rewrite Emax in Hfd. cbn [bind] in Hfd.
  pose proof (fun date => future_features_Ok daily_data holidays date Hne) as Hf.
  cbv zeta in Hf. rewrite (mapM_Ok _ _ _ Hf) in Hfd. apply Ok_inj in Hfd. subst rows.
  unfold date_range_periods in Hn. rewrite map_map in Hn.
  apply nth_error_map_seq in Hn. destruct Hn as [_ ->].
  rewrite Hf. reflexivity.
Qed.

End ForestInputs.

(** X17. The future feature rows built on a customer's own daily series
    continue that series: the time index of the i-th future row is the
    length of the history plus i, its lag-1 is the number of orders of
    the last order date (at least 1), and its holiday flag is 0 for every
    future date, because the holiday dates are read from the customer's
    past orders only. *)
Theorem future_rows_continue_the_series (data : list OrderRecord)
    (daily : list customer_analysis.FeatureRow)
    (Hp : customer_analysis.prepare_enhanced_data data = Ok daily) :
  exists hi rows,
    Frame.max_date (map StartDate data) = Some hi /\
    customer_analysis.future_data daily (customer_analysis.holiday_dates data)
      = Ok rows /\
    length rows = 90%nat /\
    1 <= Frame.count_key StartDate data hi /\
    forall i f, nth_error rows i = Some f ->
      customer_analysis.is_holiday f = 0 /\
      customer_analysis.time_idx f = Z.of_nat (length daily + i) /\
      customer_analysis.lag_1 f = Frame.of_int (Frame.count_key StartDate data hi).
Proof.
  assert (Hne : data <> []) by (intros ->; discriminate).
  destruct (prepare_enhanced_data_eq data Hne) as (lo & hi & Hmin & Hmax & Hle & Hp').
  rewrite Hp' in Hp. injection Hp as <-.
  assert (Hd : customer_analysis.enhanced_frame data lo hi <> []).
  { intro E. apply (f_equal (@length _)) in E.
    rewrite enhanced_frame_length in E. cbn [length] in E. lia. }
  destruct (future_data_total _ (customer_analysis.holiday_dates data) Hd)
    as (last & rows & Hlast & Hfd & Hlen).
  destruct (enhanced_frame_columns data lo hi) as [Hds Hords].
  exists hi, rows. split; [exact Hmax|]. split; [exact Hfd|]. split; [exact Hlen|].
  destruct (max_date_spec _ _ Hmax) as [Hin Hall].
  split; [apply count_key_pos; exact Hin|].
  intros i f Hn.
  destruct (future_data_rows _ _ rows i f Hd Hfd Hn) as (last' & Hlast' & Hf).
  rewrite Hds, max_date_date_range in Hlast' by exact Hle. injection Hlast' as <-.
  rewrite (future_features_Ok _ _ _ Hd) in Hf. injection Hf as <-.
  cbn [customer_analysis.is_holiday customer_analysis.time_idx customer_analysis.lag_1].
  rewrite Hds, min_date_date_range, Hords, enhanced_frame_length by exact Hle.
  split; [|split].
  - destruct (Frame.isin (hi + 1 + Z.of_nat i) (customer_analysis.holiday_dates data))
      eqn:E; [|reflexivity].
    exfalso. apply isin_iff in E. unfold customer_analysis.holiday_dates in E.
    apply unique_In, in_map_iff in E. destruct E as [r [Hr Hfil]].
    apply filter_In in Hfil. destruct Hfil as [Hrin _].
    assert (StartDate r <= hi) by (apply Hall, in_map; exact Hrin). lia.
  - lia.
  - rewrite (at_map _ _ 0) by (rewrite date_range_length; lia).
    rewrite date_range_nth by lia. do 2 f_equal. lia.
Qed.

Lemma future_rows_continue_the_series_witness :
  exists daily hi rows,
    customer_analysis.prepare_enhanced_data (rows_of_customer sample_table "T1")
      = Ok daily /\
    Frame.max_date (map StartDate (rows_of_customer sample_table "T1")) = Some hi /\
    customer_analysis.future_data daily
      (customer_analysis.holiday_dates (rows_of_customer sample_table "T1")) = Ok rows /\
    length rows = 90%nat.
Proof.
  destruct (customer_analysis.prepare_enhanced_data (rows_of_customer sample_table "T1"))
    as [daily|e] eqn:E; [|vm_compute in E; discriminate E].
  destruct (future_rows_continue_the_series _ daily E) as (hi & rows & H1 & H2 & H3 & _).
  exists daily, hi, rows. repeat split; assumption.
Defined.

(** X18. The forest of the customer forecaster is fitted on the first
    [int(0.8 n)] days of the series, in order, each with its features and
    its order count. For a series with a day, that is fewer than all of
    them: the last day of the history is never in the training sample. *)
Theorem training_sample_is_the_early_days
    (daily_data : list customer_analysis.FeatureRow) (Hne : daily_data <> []) :
  customer_analysis.train_split daily_data
    = firstn (int_mul_0_8 (length daily_data))
        (map (fun r => (customer_analysis.to_vec (customer_analysis.feats r),
                        customer_analysis.orders r)) daily_data) /\
  (length (customer_analysis.train_split daily_data) < length daily_data)%nat /\
  (5 * Z.of_nat (length (customer_analysis.train_split daily_data))
   <= 4 * Z.of_nat (length daily_data)
   < 5 * Z.of_nat (length (customer_analysis.train_split daily_data)) + 5).
Proof.
  assert (Hn : (1 <= length daily_data)%nat)
    by (destruct daily_data; [contradiction|cbn [length]; lia]).
  split; [|split].
  - unfold customer_analysis.train_split. cbv zeta.
    rewrite <- combine_firstn, combine_map_same. reflexivity.
  - rewrite train_split_length. apply int_mul_0_8_below. exact Hn.
  - rewrite train_split_length. unfold int_mul_0_8.
    pose proof (Z.div_mod (Z.of_nat (length daily_data) * 8) 10 ltac:(lia)) as Hdm.
    pose proof (Z.mod_pos_bound (Z.of_nat (length daily_data) * 8) 10 ltac:(lia)) as Hb.
    assert (0 <= Z.of_nat (length daily_data) * 8 / 10) by (apply Z.div_pos; lia).
    rewrite Z2Nat.id by assumption.
    lia.
Qed.

Lemma training_sample_is_the_early_days_witness :
  customer_analysis.enhanced_frame (rows_of_customer sample_table "T1") 20000 20003 <> []
  /\ length (customer_analysis.train_split
               (customer_analysis.enhanced_frame (rows_of_customer sample_table "T1")
                  20000 20003)) = 3%nat.
Proof.
  assert (Hne : customer_analysis.enhanced_frame
                  (rows_of_customer sample_table "T1") 20000 20003 <> [])
    by (vm_compute; discriminate).
  split; [exact Hne|].
  pose proof (proj1 (training_sample_is_the_early_days _ Hne)) as H.
  rewrite H. reflexivity.
Defined.
